(** * url-shortener-boost: a shallow embedding of the hot path

    The development follows the TypeScript sources:
    - [UrlEntity]                 the entity of table [urls]
    - [UrlService]                services/url.service.ts
    - [RedirectController]        the controller of [GET /:code]
    - [KafkaService]              services/kafka.service.ts
    - [CassandraService]          the analytics store
    - [AnalyticsConsumerService]  the consumer of [url.hits]

    Instants are milliseconds since the epoch, held in [Z].  Strings are
    the byte strings of the standard library.  An [async] method is a
    computation in a state and exception monad: a promise is run to
    completion where it is created, and a rejected promise is a thrown
    exception.  Logging and metrics are left out. *)

From Stdlib Require Import ZArith List String Ascii Bool Lia QArith Permutation Sorted DecimalString.
Import ListNotations.

Open Scope string_scope.
Open Scope Z_scope.

(* ================================================================== *)
(** * Part I. Definitions                                               *)
(* ================================================================== *)

(** ** The string operations of the language used by the sources *)

Module JS.

Definition code (c : ascii) : N := N_of_ascii c.

Definition between (lo hi : N) (c : ascii) : bool :=
  ((lo <=? code c) && (code c <=? hi))%N.

Definition isUpper : ascii -> bool := between 65 90.
Definition isLower : ascii -> bool := between 97 122.
Definition isDigit : ascii -> bool := between 48 57.
Definition isAlpha (c : ascii) : bool := isUpper c || isLower c.
Definition isAlnum (c : ascii) : bool := isAlpha c || isDigit c.

(** [[0-9a-fA-F]] *)
Definition isHexDigit (c : ascii) : bool :=
  isDigit c || between 65 70 c || between 97 102 c.

Definition lowerChar (c : ascii) : ascii :=
  if isUpper c then ascii_of_N (code c + 32) else c.

(** [s.toLowerCase()] on the ASCII letters. *)
Fixpoint toLowerCase (s : string) : string :=
  match s with
  | EmptyString => EmptyString
  | String c r => String (lowerChar c) (toLowerCase r)
  end.

Fixpoint all (p : ascii -> bool) (s : string) : bool :=
  match s with
  | EmptyString => true
  | String c r => p c && all p r
  end.

Definition startsWith (s pre : string) : bool := String.prefix pre s.

(** [s.endsWith(suf)]: [s] is [suf], or its tail ends with [suf]. *)
Fixpoint endsWith (s suf : string) : bool :=
  String.eqb s suf
  || match s with
     | EmptyString => false
     | String _ r => endsWith r suf
     end.

(** [s.slice(0, -1)] *)
Fixpoint dropLast (s : string) : string :=
  match s with
  | EmptyString => EmptyString
  | String c EmptyString => EmptyString
  | String c r => String c (dropLast r)
  end.

(** [s.slice(n)] *)
Fixpoint drop (n : nat) (s : string) : string :=
  match n, s with
  | O, _ => s
  | S k, String _ r => drop k r
  | S _, EmptyString => EmptyString
  end.

(** [s.substring(0, n)] *)
Definition take (n : nat) (s : string) : string := substring 0 n s.

(** [s.split(sep)] for a one-character separator. *)
Fixpoint split (sep : ascii) (s : string) : list string :=
  match s with
  | EmptyString => [EmptyString]
  | String c r =>
      if Ascii.eqb c sep then EmptyString :: split sep r
      else match split sep r with
           | h :: t => String c h :: t
           | [] => [String c EmptyString]
           end
  end.

(** The longest prefix free of stop characters, and what follows it
    (beginning with the stop character, if any). *)
Fixpoint cut (stop : ascii -> bool) (s : string) : string * string :=
  match s with
  | EmptyString => (EmptyString, EmptyString)
  | String c r =>
      if stop c then (EmptyString, s)
      else let '(a, b) := cut stop r in (String c a, b)
  end.

(** [arr.includes(s)] *)
Definition includes (arr : list string) (s : string) : bool :=
  existsb (String.eqb s) arr.

(** [arr.join(sep)] *)
Fixpoint join (sep : string) (arr : list string) : string :=
  match arr with
  | [] => EmptyString
  | [x] => x
  | x :: r => x ++ sep ++ join sep r
  end.

(** A string is truthy when it is not empty. *)
Definition truthy (s : string) : bool := negb (String.eqb s EmptyString).

(** [Number(s)] for a string of decimal digits. *)
Fixpoint digitsValue (acc : Z) (s : string) : Z :=
  match s with
  | EmptyString => acc
  | String c r => digitsValue (10 * acc + (Z.of_N (code c) - 48)) r
  end.

Definition Number (s : string) : Z := digitsValue 0 s.

(** Decimal spelling of a number. *)
Definition showNat (n : nat) : string :=
  NilZero.string_of_uint (Nat.to_uint n).

Definition showZ (n : Z) : string := showNat (Z.to_nat n).

(** [/^\d{1,3}$/] *)
Definition digits1to3 (s : string) : bool :=
  all isDigit s && (1 <=? String.length s)%nat && (String.length s <=? 3)%nat.

(** [/^[0-9a-fA-F]{1,4}$/] *)
Definition hex1to4 (s : string) : bool :=
  all isHexDigit s && (1 <=? String.length s)%nat && (String.length s <=? 4)%nat.

(** [/^[a-zA-Z0-9_-]+$/] *)
Definition isCodeChar (c : ascii) : bool :=
  isAlnum c || Ascii.eqb c "_" || Ascii.eqb c "-".

Definition codeFormat (s : string) : bool := truthy s && all isCodeChar s.

End JS.

(** ** The platform's [URL] class

    The sources parse with [new URL(s)], read and assign the components
    and serialise with [toString()].  A parsed URL is the record of the
    components the serialisation is made of: the ones the sources touch
    and the credentials, which they leave alone.  The query is held as
    the name-value list that [searchParams] exposes;
    [searchParams.delete] rewrites the query from that list, and so does
    the serialiser here. *)

Module Url.

Record URL := mkURL {
  protocol : string;                        (* with its colon: [http:] *)
  username : string;                        (* empty when absent *)
  password : string;                        (* empty when absent *)
  hostname : string;
  port : string;                            (* empty when absent *)
  pathname : string;
  searchParams : list (string * string);
  fragment : option string                  (* [None]: no [#] at all *)
}.

(** The parser and the serialiser belong to the platform, not to the
    repository.  The general results hold for any implementation. *)
Class Platform := {
  parseURL : string -> option URL;          (* [None]: [new URL] throws *)
  href : URL -> string                      (* [toString()] *)
}.

Definition set_port (v : string) (u : URL) : URL :=
  mkURL (protocol u) (username u) (password u) (hostname u) v (pathname u)
        (searchParams u) (fragment u).

Definition set_pathname (v : string) (u : URL) : URL :=
  mkURL (protocol u) (username u) (password u) (hostname u) (port u) v
        (searchParams u) (fragment u).

Definition set_hostname (v : string) (u : URL) : URL :=
  mkURL (protocol u) (username u) (password u) v (port u) (pathname u)
        (searchParams u) (fragment u).

(** [url.searchParams.delete(name)] *)
Definition searchParams_delete (name : string) (u : URL) : URL :=
  mkURL (protocol u) (username u) (password u) (hostname u) (port u) (pathname u)
        (filter (fun kv => negb (String.eqb (fst kv) name)) (searchParams u))
        (fragment u).

(** *** A model of the platform for URLs in canonical spelling

    [scheme://host[:port][/path][?query][#fragment]] with one of the
    schemes [http], [https], [ftp], written with letters, digits and
    [-._~] (plus [/] in the path, [&=*] in the query), or with a
    bracketed IPv6 literal as host.  Percent escapes, credentials, dot
    segments, IDNA, other schemes and the numeric spellings of IPv4
    other than four plain decimal octets are outside the model: such a
    string is refused. *)

Definition isUnreserved (c : ascii) : bool :=
  JS.isAlnum c || Ascii.eqb c "-" || Ascii.eqb c "." || Ascii.eqb c "_" || Ascii.eqb c "~".

Definition isHostChar (c : ascii) : bool :=
  JS.isAlnum c || Ascii.eqb c "-" || Ascii.eqb c ".".

Definition isPathChar (c : ascii) : bool := isUnreserved c || Ascii.eqb c "/".

Definition isQueryChar (c : ascii) : bool :=
  JS.isAlnum c || Ascii.eqb c "-" || Ascii.eqb c "." || Ascii.eqb c "_"
  || Ascii.eqb c "*" || Ascii.eqb c "&" || Ascii.eqb c "=".

Definition isIp6Char (c : ascii) : bool := JS.isHexDigit c || Ascii.eqb c ":".

Definition defaultPort (proto : string) : string :=
  if String.eqb proto "http:" then "80"
  else if String.eqb proto "https:" then "443"
  else if String.eqb proto "ftp:" then "21"
  else "".

(** The urlencoded parser on a query without escapes. *)
Definition parseQuery (q : string) : list (string * string) :=
  map (fun piece =>
         let '(k, rest) := JS.cut (fun c => Ascii.eqb c "=") piece in
         (k, JS.drop 1 rest))
      (filter JS.truthy (JS.split "&" q)).

Definition serializeQuery (l : list (string * string)) : string :=
  JS.join "&" (map (fun kv => fst kv ++ "=" ++ snd kv) l).

(** A decimal octet without leading zero. *)
Definition octetOk (s : string) : bool :=
  JS.digits1to3 s && (JS.Number s <=? 255)
  && (negb (JS.startsWith s "0") || String.eqb s "0").

(** A host whose last label is a number must be four plain octets. *)
Definition hostOk (h : string) : bool :=
  JS.truthy h && JS.all isHostChar h
  && (let labels := JS.split "." h in
      if JS.all JS.isDigit (last labels EmptyString)
      then (List.length labels =? 4)%nat && forallb octetOk labels
      else true).

Definition segmentOk (seg : string) : bool :=
  negb (String.eqb seg "." || String.eqb seg "..").

Definition specialScheme (proto : string) : bool :=
  JS.includes ["http:"; "https:"; "ftp:"] proto.

(** Host and port of the authority. *)
Definition parseAuthority (a : string) : option (string * string) :=
  match a with
  | String "[" r =>
      let '(lit, rest) := JS.cut (fun c => Ascii.eqb c "]") r in
      if JS.truthy lit && JS.all isIp6Char lit then
        match rest with
        | String "]" EmptyString => Some ("[" ++ lit ++ "]", EmptyString)
        | String "]" (String ":" p) => Some ("[" ++ lit ++ "]", p)
        | _ => None
        end
      else None
  | _ =>
      let '(h, rest) := JS.cut (fun c => Ascii.eqb c ":") a in
      if hostOk h then Some (h, JS.drop 1 rest) else None
  end.

(** A port without leading zero, at most five digits. *)
Definition portOk (p : string) : bool :=
  JS.all JS.isDigit p && (String.length p <=? 5)%nat && (JS.Number p <=? 65535)
  && negb (JS.startsWith p "0").

Definition modelParse (s : string) : option URL :=
  let '(scheme, r1) := JS.cut (fun c => Ascii.eqb c ":") s in
  if negb (specialScheme (JS.toLowerCase scheme ++ ":")
           && JS.startsWith r1 "://") then None
  else
    let proto := JS.toLowerCase scheme ++ ":" in
    let '(auth, r2) :=
      JS.cut (fun c => Ascii.eqb c "/" || Ascii.eqb c "?" || Ascii.eqb c "#") (JS.drop 3 r1) in
    match parseAuthority auth with
    | None => None
    | Some (h, p) =>
        let '(path, r3) := JS.cut (fun c => Ascii.eqb c "?" || Ascii.eqb c "#") r2 in
        let '(q, r4) := JS.cut (fun c => Ascii.eqb c "#") (if JS.startsWith r3 "?" then JS.drop 1 r3 else r3) in
        let frag := if JS.startsWith r4 "#" then Some (JS.drop 1 r4) else None in
        if portOk p && JS.all isPathChar path
           && forallb segmentOk (JS.split "/" path) && JS.all isQueryChar q
           && JS.all isUnreserved (match frag with Some f => f | None => EmptyString end)
        then Some (mkURL proto EmptyString EmptyString (JS.toLowerCase h)
                         (if String.eqb p (defaultPort proto) then EmptyString else p)
                         (if JS.truthy path then path else "/")
                         (parseQuery q) frag)
        else None
    end.

Definition modelHref (u : URL) : string :=
  protocol u ++ "//"
  ++ (if JS.truthy (username u) || JS.truthy (password u)
      then username u
           ++ (if JS.truthy (password u) then ":" ++ password u else EmptyString)
           ++ "@"
      else EmptyString)
  ++ hostname u
  ++ (if JS.truthy (port u) then ":" ++ port u else EmptyString)
  ++ pathname u
  ++ (match searchParams u with
      | [] => EmptyString
      | l => "?" ++ serializeQuery l
      end)
  ++ (match fragment u with Some f => "#" ++ f | None => EmptyString end).

Definition model : Platform := {| parseURL := modelParse; href := modelHref |}.

End Url.

(** ** Exceptions and results *)

Inductive Exception :=
| BadRequestException (message : string)
| NotFoundException (message : string)
| Error (message : string).              (* any other thrown value *)

Inductive Result (A : Type) :=
| Ok (a : A)
| Throw (e : Exception).

Arguments Ok {A} a.
Arguments Throw {A} e.

(** ** entities/url.entity.ts *)

Module UrlEntity.

(** The generated [id] plays no part in the code below and is left out. *)
Record t := mk {
  code : string;
  original : string;
  normalized : string;
  hitCount : Z;
  customAlias : option string;
  expiresAt : option Z;
  createdAt : Z;
  updatedAt : Z;
  creatorIp : option string;
  creatorUserAgent : option string;
  metadata : option string
}.

(** [this.expiresAt ? new Date() > this.expiresAt : false] *)
Definition isExpired (now : Z) (u : t) : bool :=
  match expiresAt u with
  | Some e => now >? e
  | None => false
  end.

Definition getShortUrl (baseUrl : string) (u : t) : string :=
  baseUrl ++ "/" ++ code u.

Definition set_hitCount (n : Z) (u : t) : t :=
  mk (code u) (original u) (normalized u) n (customAlias u) (expiresAt u)
     (createdAt u) (updatedAt u) (creatorIp u) (creatorUserAgent u) (metadata u).

End UrlEntity.

(** ** dto/create-url.dto.ts, dto/url-response.dto.ts, dto/analytics.dto.ts *)

Module CreateUrlDto.
Record t := mk {
  url : string;
  customAlias : option string;
  expiresAt : option Z;
  metadata : option string;
  clientIp : option string;
  userAgent : option string
}.
End CreateUrlDto.

Module CreateUrlResponseDto.
Record t := mk {
  code : string;
  shortUrl : string;
  original : string;
  createdAt : Z;
  expiresAt : option Z;
  isNew : bool
}.
End CreateUrlResponseDto.

(** A [Date] object holds an instant, in milliseconds since the epoch,
    or is the Invalid Date, whose time value is [NaN].  The decoder of
    the hit events builds [new Date(data.timestamp)], which is the
    Invalid Date when the field is missing or unreadable. *)
Module JsDate.

Inductive t :=
| instant (ms : Z)
| invalid.

(** [getTime()]; [None] stands for [NaN]. *)
Definition getTime (d : t) : option Z :=
  match d with
  | instant ms => Some ms
  | invalid => None
  end.

(** [a < b] and [a > b] on numbers: a comparison with [NaN] is false. *)
Definition lt (a : option Z) (b : Z) : bool :=
  match a with
  | Some x => x <? b
  | None => false
  end.

Definition gt (a : option Z) (b : Z) : bool :=
  match a with
  | Some x => x >? b
  | None => false
  end.

End JsDate.

Module HitEventDto.
(** A field that is [undefined] at run time is [None]. *)
Record t := mk {
  code : option string;
  timestamp : option JsDate.t;
  ip : option string;
  userAgent : option string;
  referrer : option string;
  country : option string;
  city : option string;
  deviceType : option string;
  browser : option string;
  os : option string
}.
End HitEventDto.

Definition isSome {A} (o : option A) : bool :=
  match o with
  | Some _ => true
  | None => false
  end.

(** Truthiness of an optional string, and [x || d]. *)
Definition truthyO (o : option string) : bool :=
  match o with
  | Some s => JS.truthy s
  | None => false
  end.

Definition orElse (o : option string) (d : string) : string :=
  match o with
  | Some s => if JS.truthy s then s else d
  | None => d
  end.

(** ** Configuration, collaborators and the state the services act on *)

Record Config := mkConfig {
  baseUrl : string;
  defaultCodeLength : nat;
  maxUrlLength : nat;
  customAliasMinLength : nat;
  customAliasMaxLength : nat;
  enableUrlScanning : bool;
  redisTtl : Z                              (* seconds *)
}.

(** The defaults read in the constructor of [UrlService]. *)
Definition defaultConfig (base : string) : Config :=
  mkConfig base 7 2048 3 50 false 3600.

Record DeviceInfo := mkDeviceInfo {
  di_deviceType : string;
  di_browser : string;
  di_os : string
}.

Record GeoLocation := mkGeoLocation {
  geo_country : option string;
  geo_city : option string
}.

(** What the surroundings answer during one request.  A collaborator
    that fails answers [Throw]. *)
Record Env := mkEnv {
  now : Z;                                                  (* [new Date()] *)
  nanoid : nat -> nat -> string;                            (* k-th draw, size *)
  virusTotal_checkUrl : string -> Result bool;
  userAgentParser_parse : option string -> Result DeviceInfo;
  geoLocation_getLocationFromIp : string -> Result (option GeoLocation);
  repository_increment : Result unit;                       (* the UPDATE of hitCount *)
  producer_send : Result unit                               (* the Kafka producer *)
}.

Record CachedUrl := mkCachedUrl {
  c_original : string;
  c_expiresAt : option Z;
  c_hitCount : Z
}.

Record World := mkWorld {
  urls : list UrlEntity.t;                      (* table [urls] *)
  redis : list (string * (CachedUrl * Z));      (* key, value, end of life *)
  draws : nat;                                  (* calls of [nanoid] so far *)
  topic : list HitEventDto.t                    (* messages on [url.hits] *)
}.

Definition emptyWorld : World := mkWorld [] [] 0 [].

Definition set_urls (v : list UrlEntity.t) (w : World) : World :=
  mkWorld v (redis w) (draws w) (topic w).
Definition set_redis (v : list (string * (CachedUrl * Z))) (w : World) : World :=
  mkWorld (urls w) v (draws w) (topic w).
Definition set_draws (v : nat) (w : World) : World :=
  mkWorld (urls w) (redis w) v (topic w).
Definition set_topic (v : list HitEventDto.t) (w : World) : World :=
  mkWorld (urls w) (redis w) (draws w) v.

(** ** A state and exception monad for the [async] methods *)

Definition M (A : Type) : Type := World -> Result A * World.

Definition ret {A} (a : A) : M A := fun w => (Ok a, w).

Definition throw {A} (e : Exception) : M A := fun w => (Throw e, w).

Definition bind {A B} (m : M A) (k : A -> M B) : M B :=
  fun w =>
    match m w with
    | (Ok a, w') => k a w'
    | (Throw e, w') => (Throw e, w')
    end.

(** [try { m } catch (error) { h error }] *)
Definition tryCatch {A} (m : M A) (h : Exception -> M A) : M A :=
  fun w =>
    match m w with
    | (Ok a, w') => (Ok a, w')
    | (Throw e, w') => h e w'
    end.

Definition lift {A} (r : Result A) : M A := fun w => (r, w).

Definition gets {A} (f : World -> A) : M A := fun w => (Ok (f w), w).

Definition modify (f : World -> World) : M unit := fun w => (Ok tt, f w).

Declare Scope monad_scope.
Delimit Scope monad_scope with monad.
Notation "x <- m ;; k" := (bind m (fun x => k))
  (at level 61, m at next level, right associativity) : monad_scope.
Notation "m ;;; k" := (bind m (fun _ => k))
  (at level 61, right associativity) : monad_scope.
Open Scope monad_scope.

(** ** services/redis.service.ts, as far as [UrlService] uses it *)

Module RedisService.

Definition get (now : Z) (key : string) (w : World) : option CachedUrl :=
  match find (fun kv => String.eqb (fst kv) key) (redis w) with
  | Some (_, (v, eol)) => if now <? eol then Some v else None
  | None => None
  end.

Definition setex (now : Z) (key : string) (ttl : Z) (v : CachedUrl) (w : World) : World :=
  set_redis ((key, (v, now + ttl * 1000))
             :: filter (fun kv => negb (String.eqb (fst kv) key)) (redis w)) w.

Definition del (key : string) (w : World) : World :=
  set_redis (filter (fun kv => negb (String.eqb (fst kv) key)) (redis w)) w.

End RedisService.

(** ** services/url.service.ts *)

Module UrlService.

Import Url.

Definition trackingParams : list string :=
  [ "utm_source"; "utm_medium"; "utm_campaign"; "utm_term"; "utm_content";
    "gclid"; "fbclid"; "msclkid"; "dclid"; "source"; "medium"; "campaign" ].

(** The body of [normalizeUrl] between [new URL] and [toString]. *)
Definition normalizeParsed (parsedUrl : URL) : URL :=
  let u1 := fold_left (fun u param => searchParams_delete param u) trackingParams parsedUrl in
  let u2 := if String.eqb (protocol u1) "http:" && String.eqb (port u1) "80"
            then set_port "" u1 else u1 in
  let u3 := if String.eqb (protocol u2) "https:" && String.eqb (port u2) "443"
            then set_port "" u2 else u2 in
  let u4 := if JS.endsWith (pathname u3) "/" && (1 <? String.length (pathname u3))%nat
            then set_pathname (JS.dropLast (pathname u3)) u3 else u3 in
  set_hostname (JS.toLowerCase (hostname u4)) u4.

(** The [where] clauses of [getUrls] for the status filter:
    [(url.expiresAt IS NULL OR url.expiresAt > :now)] and
    [url.expiresAt IS NOT NULL AND url.expiresAt <= :now]. *)
Definition whereActive (now : Z) (u : UrlEntity.t) : bool :=
  match UrlEntity.expiresAt u with
  | None => true
  | Some e => e >? now
  end.

Definition whereExpired (now : Z) (u : UrlEntity.t) : bool :=
  match UrlEntity.expiresAt u with
  | None => false
  | Some e => e <=? now
  end.

Record UrlStats := mkUrlStats {
  total : Z;
  active : Z;
  expired : Z
}.

(** The find operators that [getUrlStats] builds, on the nullable
    column [expiresAt]. *)
Inductive FindOperator :=
| IsNull
| NotOperator (child : FindOperator)        (* [Not(IsNull())] *)
| NotValue (value : option Z).              (* [Not(v)]; [None]: [undefined] *)

(** [a && b] on two objects evaluates to the right operand. *)
Definition andObjects (a b : FindOperator) : FindOperator := b.

(** The SQL condition of an operator in three-valued logic, [None]
    being unknown: [column IS NULL], [NOT (...)], and [column != v],
    where an [undefined] value is bound as [NULL] and a comparison with
    [NULL] is unknown. *)
Fixpoint condition (op : FindOperator) (column : option Z) : option bool :=
  match op with
  | IsNull => Some (negb (isSome column))
  | NotOperator child =>
      match condition child column with
      | Some b => Some (negb b)
      | None => None
      end
  | NotValue value =>
      match column, value with
      | Some a, Some b => Some (negb (a =? b))
      | _, _ => None
      end
  end.

(** [WHERE] keeps the rows whose condition is true. *)
Definition selects (op : FindOperator) (column : option Z) : bool :=
  match condition op column with
  | Some true => true
  | _ => false
  end.

(** [getUrlStats]: the count of all rows, and the count of the rows
    with [expiresAt: Not(IsNull()) && Not(undefined)].  No clock is
    read. *)
Definition getUrlStats (w : World) : UrlStats :=
  let total := Z.of_nat (List.length (urls w)) in
  let expired :=
    Z.of_nat (List.length
                (filter (fun u => selects (andObjects (NotOperator IsNull) (NotValue None))
                                          (UrlEntity.expiresAt u))
                        (urls w))) in
  mkUrlStats total (total - expired) expired.

Section WithContext.

Context {P : Platform} (cfg : Config) (env : Env).

Definition normalizeUrl (url : string) : string :=
  match parseURL url with
  | Some parsedUrl => href (normalizeParsed parsedUrl)
  | None => url
  end.

(** *** The repository *)

Definition findOneByCode (code : string) : M (option UrlEntity.t) :=
  gets (fun w => find (fun u => String.eqb (UrlEntity.code u) code) (urls w)).

Definition findByNormalizedUrl (normalizedUrl : string) : M (option UrlEntity.t) :=
  gets (fun w => find (fun u => String.eqb (UrlEntity.normalized u) normalizedUrl) (urls w)).

(** [save] of a fresh entity: both unique indexes are enforced. *)
Definition save (e : UrlEntity.t) : M UrlEntity.t :=
  fun w =>
    if existsb (fun u => String.eqb (UrlEntity.code u) (UrlEntity.code e)
                         || String.eqb (UrlEntity.normalized u) (UrlEntity.normalized e))
               (urls w)
    then (Throw (Error "duplicate key value violates unique constraint"), w)
    else (Ok e, set_urls (urls w ++ [e]) w).

Definition repository_delete (code : string) : M nat :=
  fun w =>
    let hit := filter (fun u => String.eqb (UrlEntity.code u) code) (urls w) in
    (Ok (List.length hit),
     set_urls (filter (fun u => negb (String.eqb (UrlEntity.code u) code)) (urls w)) w).

Definition repository_incrementHitCount (code : string) : M unit :=
  lift (repository_increment env) ;;;
  modify (fun w =>
    set_urls (map (fun u => if String.eqb (UrlEntity.code u) code
                            then UrlEntity.set_hitCount (UrlEntity.hitCount u + 1) u
                            else u) (urls w)) w).

(** *** The cache *)

Definition cacheUrl (url : UrlEntity.t) : M unit :=
  modify (RedisService.setex (now env) ("url:" ++ UrlEntity.code url) (redisTtl cfg)
            (mkCachedUrl (UrlEntity.original url) (UrlEntity.expiresAt url)
                         (UrlEntity.hitCount url))).

(** The partial entity built from a cache entry; the fields the
    cache does not hold stay empty. *)
Definition getCachedUrl (code : string) : M (option UrlEntity.t) :=
  gets (fun w =>
    match RedisService.get (now env) ("url:" ++ code) w with
    | Some data =>
        Some (UrlEntity.mk code (c_original data) "" (c_hitCount data) None
                           (c_expiresAt data) 0 0 None None None)
    | None => None
    end).

(** [removeCachedUrl]; [del] is what the cache answers to the [DEL].
    [RedisService.del] rethrows a failure, and the [catch] here logs and
    swallows it: the entry then stays. *)
Definition removeCachedUrl (del : Result unit) (code : string) : M unit :=
  tryCatch (lift del ;;; modify (RedisService.del ("url:" ++ code)))
           (fun _ => ret tt).

(** *** Lookups *)

Definition findByCode (code : string) : M (option UrlEntity.t) :=
  tryCatch
    (cachedUrl <- getCachedUrl code ;;
     match cachedUrl with
     | Some u => ret (Some u)
     | None =>
         url <- findOneByCode code ;;
         match url with
         | Some u => cacheUrl u ;;; ret (Some u)
         | None => ret None
         end
     end)
    (fun _ => ret None).

Definition incrementHitCount (code : string) : M unit :=
  tryCatch
    (repository_incrementHitCount code ;;;
     url <- findByCode code ;;
     match url with
     | Some u => cacheUrl u
     | None => ret tt
     end)
    (fun _ => ret tt).

(** [deleteUrl]; the [catch] logs and rethrows. *)
Definition deleteUrl (del : Result unit) (code : string) : M bool :=
  affected <- repository_delete code ;;
  if (0 <? affected)%nat then removeCachedUrl del code ;;; ret true else ret false.

(** *** Creation *)

Definition checkUrlSafety (url : string) : M unit :=
  match virusTotal_checkUrl env url with
  | Ok true => ret tt
  | Ok false =>
      throw (BadRequestException "URL appears to be malicious and cannot be shortened")
  | Throw (BadRequestException m) => throw (BadRequestException m)
  | Throw _ => ret tt
  end.

Definition nanoidM (size : nat) : M string :=
  fun w => (Ok (nanoid env (draws w) size), set_draws (S (draws w)) w).

Fixpoint generateLoop (attempts : nat) : M string :=
  match attempts with
  | O => nanoidM (defaultCodeLength cfg + 2)
  | S k =>
      code <- nanoidM (defaultCodeLength cfg) ;;
      existing <- findOneByCode code ;;
      match existing with
      | None => ret code
      | Some _ => generateLoop k
      end
  end.

Definition generateUniqueCode : M string := generateLoop 10.

Definition validateCustomAlias (alias : string) : M string :=
  if ((String.length alias <? customAliasMinLength cfg)
      || (customAliasMaxLength cfg <? String.length alias))%nat
  then throw (BadRequestException
                ("Custom alias must be between " ++ JS.showNat (customAliasMinLength cfg)
                 ++ " and " ++ JS.showNat (customAliasMaxLength cfg) ++ " characters"))
  else
    existing <- findOneByCode alias ;;
    match existing with
    | Some _ => throw (BadRequestException "Custom alias already exists")
    | None => ret alias
    end.

Definition responseOf (isNew : bool) (u : UrlEntity.t) : CreateUrlResponseDto.t :=
  CreateUrlResponseDto.mk (UrlEntity.code u) (UrlEntity.getShortUrl (baseUrl cfg) u)
    (UrlEntity.original u) (UrlEntity.createdAt u) (UrlEntity.expiresAt u) isNew.

(** The part of [createShortUrl] after the lookup found nothing to
    return. *)
Definition createNew (dto : CreateUrlDto.t) (normalizedUrl : string)
  : M CreateUrlResponseDto.t :=
  code <- (if truthyO (CreateUrlDto.customAlias dto)
           then validateCustomAlias (orElse (CreateUrlDto.customAlias dto) "")
           else generateUniqueCode) ;;
  savedUrl <- save (UrlEntity.mk code (CreateUrlDto.url dto) normalizedUrl 0
                      (CreateUrlDto.customAlias dto) (CreateUrlDto.expiresAt dto)
                      (now env) (now env)
                      (CreateUrlDto.clientIp dto) (CreateUrlDto.userAgent dto)
                      (CreateUrlDto.metadata dto)) ;;
  cacheUrl savedUrl ;;;
  ret (responseOf true savedUrl).

(** The outer [catch] logs and rethrows. *)
Definition createShortUrl (dto : CreateUrlDto.t) : M CreateUrlResponseDto.t :=
  let normalizedUrl := normalizeUrl (CreateUrlDto.url dto) in
  (if enableUrlScanning cfg then checkUrlSafety normalizedUrl else ret tt) ;;;
  existingUrl <- findByNormalizedUrl normalizedUrl ;;
  match existingUrl with
  | Some e =>
      if negb (UrlEntity.isExpired (now env) e)
      then ret (responseOf false e)
      else createNew dto normalizedUrl
  | None => createNew dto normalizedUrl
  end.

End WithContext.

End UrlService.

(** ** services/kafka.service.ts *)

Module KafkaService.

Section WithContext.

Context (env : Env).

(** [publishHitEvent]: the send is inside a [try] whose [catch]
    only logs. *)
Definition publishHitEvent (hitEvent : HitEventDto.t) : M unit :=
  tryCatch
    (lift (producer_send env) ;;;
     modify (fun w => set_topic (topic w ++ [hitEvent]) w))
    (fun _ => ret tt).

End WithContext.

End KafkaService.

(** ** controllers/redirect.controller.ts *)

Module RedirectController.

Import Url.

Record Response := mkResponse {
  status : Z;
  location : option string;
  headers : list (string * string);
  message : option string                   (* of the JSON body, if any *)
}.

(** The status a client sees: an exception that leaves the handler is
    turned into its HTTP status by the framework. *)
Definition httpStatus (r : Result Response) : Z :=
  match r with
  | Ok res => status res
  | Throw (BadRequestException _) => 400
  | Throw (NotFoundException _) => 404
  | Throw (Error _) => 500
  end.

Definition isRedirect (r : Result Response) : bool :=
  match r with
  | Ok res => (status res =? 301) || (status res =? 302)
  | Throw _ => false
  end.

(** [hostname.match(/^(\d{1,3})\.(\d{1,3})\.(\d{1,3})\.(\d{1,3})$/)]
    and [match.map(Number)] *)
Definition matchIpv4 (hostname : string) : option (Z * Z * Z * Z) :=
  match JS.split "." hostname with
  | [a; b; c; d] =>
      if JS.digits1to3 a && JS.digits1to3 b && JS.digits1to3 c && JS.digits1to3 d
      then Some (JS.Number a, JS.Number b, JS.Number c, JS.Number d)
      else None
  | _ => None
  end.

Definition isPrivateIp (hostname : string) : bool :=
  match matchIpv4 hostname with
  | None => false
  | Some (a, b, c, d) =>
      (a =? 10)
      || ((a =? 172) && (16 <=? b) && (b <=? 31))
      || ((a =? 192) && (b =? 168))
      || ((a =? 169) && (b =? 254))
      || (a =? 127)
  end.

(** The dotted-decimal spelling of four numbers. *)
Definition dotted (a b c d : Z) : string :=
  JS.showZ a ++ "." ++ JS.showZ b ++ "." ++ JS.showZ c ++ "." ++ JS.showZ d.

Definition suspiciousTlds : list string := [".tk"; ".ml"; ".ga"; ".cf"].

Definition permanentDomains : list string :=
  [ "youtube.com"; "youtu.be"; "github.com"; "gitlab.com"; "twitter.com"; "x.com";
    "facebook.com"; "instagram.com"; "linkedin.com"; "medium.com"; "stackoverflow.com" ].

Inductive RedirectType := permanent | temporary.

(** [s.replace(/^www\./, '')] *)
Definition stripWww (s : string) : string :=
  if JS.startsWith s "www." then JS.drop 4 s else s.

Definition securityHeaders : list (string * string) :=
  [ ("Cache-Control", "no-cache, no-store, must-revalidate");
    ("Pragma", "no-cache");
    ("Expires", "0");
    ("X-Robots-Tag", "noindex, nofollow") ].

Section WithContext.

Context {P : Platform} (cfg : Config) (env : Env).

Definition isValidRedirectUrl (url : string) : bool :=
  match parseURL url with
  | None => false
  | Some parsedUrl =>
      if negb (JS.includes ["http:"; "https:"] (protocol parsedUrl)) then false
      else
        let hostname := JS.toLowerCase (hostname parsedUrl) in
        if String.eqb hostname "localhost" || String.eqb hostname "127.0.0.1"
           || String.eqb hostname "::1" then false
        else if isPrivateIp hostname then false
        else if existsb (fun tld => JS.endsWith hostname tld) suspiciousTlds then false
        else true
  end.

Definition getRedirectType (url : string) : RedirectType :=
  match parseURL url with
  | None => temporary
  | Some parsedUrl =>
      let hostname := stripWww (JS.toLowerCase (hostname parsedUrl)) in
      if JS.includes permanentDomains hostname then permanent else temporary
  end.

Definition recordHitEvent (code ip : string) (userAgent referrer : option string)
  : M unit :=
  tryCatch
    (deviceInfo <- lift (userAgentParser_parse env userAgent) ;;
     geoInfo <- lift (geoLocation_getLocationFromIp env ip) ;;
     KafkaService.publishHitEvent env
       (HitEventDto.mk (Some code) (Some (JsDate.instant (now env))) (Some ip) userAgent
          (Some (orElse referrer "direct"))
          (match geoInfo with Some g => geo_country g | None => None end)
          (match geoInfo with Some g => geo_city g | None => None end)
          (Some (di_deviceType deviceInfo))
          (Some (di_browser deviceInfo))
          (Some (di_os deviceInfo))))
    (fun _ => ret tt).

Definition statusCodeFor (original : string) : Z :=
  match getRedirectType original with
  | permanent => 301
  | temporary => 302
  end.

Definition gone : Response :=
  mkResponse 410 None [] (Some "This short URL has expired").

Definition redirectTo (original : string) : Response :=
  mkResponse (statusCodeFor original) (Some original) securityHeaders None.

(** [redirect].  The promise of [incrementHitCount] is not awaited
    and carries its own [catch]; it is run where it is created.  The
    outer [catch] logs and rethrows. *)
Definition redirect (code clientIp : string) (userAgent referrer : option string)
  : M Response :=
  if negb (JS.codeFormat code)
  then throw (BadRequestException "Invalid URL code format")
  else
    url <- UrlService.findByCode cfg env code ;;
    match url with
    | None => throw (NotFoundException "Short URL not found")
    | Some url =>
        if UrlEntity.isExpired (now env) url then ret gone
        else if negb (isValidRedirectUrl (UrlEntity.original url))
        then throw (BadRequestException "Invalid redirect URL")
        else
          tryCatch (UrlService.incrementHitCount cfg env code) (fun _ => ret tt) ;;;
          recordHitEvent code clientIp userAgent referrer ;;;
          ret (redirectTo (UrlEntity.original url))
    end.

End WithContext.

End RedirectController.

(** ** services/cassandra.service.ts *)

Module CassandraService.

(** Rows are kept in the order in which the store hands them back on
    a [SELECT]; a table is a list of key-value rows with distinct
    keys.  The process runs in UTC: [date] is the day number of an
    instant, [hour] and [minute] its time of day. *)

Definition msPerDay : Z := 86400000.
Definition dateOf (t : Z) : Z := t / msPerDay.
Definition hourOf (t : Z) : Z := (t mod msPerDay) / 3600000.
Definition minuteOf (t : Z) : Z := (t mod 3600000) / 60000.

Section Table.

Context {K V : Type} (eqb : K -> K -> bool).

(** [UPDATE ... WHERE key = k]: the row is created when missing. *)
Fixpoint upsert (k : K) (f : option V -> V) (t : list (K * V)) : list (K * V) :=
  match t with
  | [] => [(k, f None)]
  | (k', v) :: r =>
      if eqb k k' then (k', f (Some v)) :: r else (k', v) :: upsert k f r
  end.

Definition lookup (k : K) (t : list (K * V)) : option V :=
  match find (fun kv => eqb k (fst kv)) t with
  | Some kv => Some (snd kv)
  | None => None
  end.

End Table.

(** [SET count = count + 1] on a counter column. *)
Definition plus1 (o : option Z) : Z :=
  match o with
  | Some n => n + 1
  | None => 1
  end.

(** [SET count = count + 1, unique_visitors = unique_visitors + 1] *)
Definition plus1both (o : option (Z * Z)) : Z * Z :=
  match o with
  | Some (c, u) => (c + 1, u + 1)
  | None => (1, 1)
  end.

Definition HourKey : Type := string * Z * Z.             (* code, date, hour *)
Definition MinuteKey : Type := string * Z * Z * Z.       (* code, date, hour, minute *)
Definition DeviceKey : Type := string * string * string * string.

Definition eqbHour (a b : HourKey) : bool :=
  let '(c1, d1, h1) := a in let '(c2, d2, h2) := b in
  String.eqb c1 c2 && (d1 =? d2) && (h1 =? h2).

Definition eqbMinute (a b : MinuteKey) : bool :=
  let '(c1, d1, h1, m1) := a in let '(c2, d2, h2, m2) := b in
  String.eqb c1 c2 && (d1 =? d2) && (h1 =? h2) && (m1 =? m2).

Definition eqbPair (a b : string * string) : bool :=
  String.eqb (fst a) (fst b) && String.eqb (snd a) (snd b).

Definition eqbDevice (a b : DeviceKey) : bool :=
  let '(c1, t1, b1, o1) := a in let '(c2, t2, b2, o2) := b in
  String.eqb c1 c2 && String.eqb t1 t2 && String.eqb b1 b2 && String.eqb o1 o2.

Definition eqbVisitor (a b : string * Z * string) : bool :=
  let '(c1, d1, h1) := a in let '(c2, d2, h2) := b in
  String.eqb c1 c2 && (d1 =? d2) && String.eqb h1 h2.

Record Store := mkStore {
  hits_by_hour : list (HourKey * (Z * Z));           (* count, unique_visitors *)
  hits_by_minute : list (MinuteKey * (Z * Z));
  referrers : list ((string * string) * Z);
  geographic : list ((string * string) * Z);
  devices : list (DeviceKey * Z);
  access_times : list (string * (Z * Z));            (* first_accessed, last_accessed *)
  unique_visitors : list (string * Z * string)       (* code, date, visitor_hash *)
}.

Definition emptyStore : Store := mkStore [] [] [] [] [] [] [].

(** The statements [recordHitEvent] puts in its batch. *)
Inductive Query :=
| UpdateHitsByHour (code : string) (date hour : Z)
| UpdateHitsByMinute (code : string) (date hour minute : Z)
| UpdateAccessTimes (first_accessed last_accessed : Z) (code : string)
| InsertUniqueVisitor (code : string) (date : Z) (visitor_hash : string)
| UpdateReferrers (code referrer : string)
| UpdateGeographic (code country : string)
| UpdateDevices (code device_type browser os : string).

Definition execute (q : Query) (s : Store) : Store :=
  match q with
  | UpdateHitsByHour c d h =>
      mkStore (upsert eqbHour (c, d, h) plus1both (hits_by_hour s)) (hits_by_minute s)
              (referrers s) (geographic s) (devices s) (access_times s) (unique_visitors s)
  | UpdateHitsByMinute c d h m =>
      mkStore (hits_by_hour s) (upsert eqbMinute (c, d, h, m) plus1both (hits_by_minute s))
              (referrers s) (geographic s) (devices s) (access_times s) (unique_visitors s)
  | UpdateAccessTimes f l c =>
      mkStore (hits_by_hour s) (hits_by_minute s) (referrers s) (geographic s) (devices s)
              (upsert String.eqb c (fun _ => (f, l)) (access_times s)) (unique_visitors s)
  | InsertUniqueVisitor c d v =>
      mkStore (hits_by_hour s) (hits_by_minute s) (referrers s) (geographic s) (devices s)
              (access_times s)
              (if existsb (eqbVisitor (c, d, v)) (unique_visitors s)
               then unique_visitors s else unique_visitors s ++ [(c, d, v)])
  | UpdateReferrers c r =>
      mkStore (hits_by_hour s) (hits_by_minute s)
              (upsert eqbPair (c, r) plus1 (referrers s))
              (geographic s) (devices s) (access_times s) (unique_visitors s)
  | UpdateGeographic c g =>
      mkStore (hits_by_hour s) (hits_by_minute s) (referrers s)
              (upsert eqbPair (c, g) plus1 (geographic s))
              (devices s) (access_times s) (unique_visitors s)
  | UpdateDevices c t b o =>
      mkStore (hits_by_hour s) (hits_by_minute s) (referrers s) (geographic s)
              (upsert eqbDevice (c, t, b, o) plus1 (devices s))
              (access_times s) (unique_visitors s)
  end.

(** [client.batch(queries)] *)
Definition batch (queries : list Query) (s : Store) : Store :=
  fold_left (fun acc q => execute q acc) queries s.

Section WithHash.

(** [crypto.createHash('sha256').update(s).digest('hex')] *)
Context (sha256hex : string -> string).

Definition createVisitorHash (ip userAgent : string) : string :=
  JS.take 16 (sha256hex (ip ++ ":" ++ userAgent)).

(** The batch built by [recordHitEvent] for an event with a
    timestamp.  An [undefined] string parameter is bound as the
    empty string. *)
Definition queriesFor (hitEvent : HitEventDto.t) (timestamp : Z) : list Query :=
  let code := orElse (HitEventDto.code hitEvent) "" in
  let date := dateOf timestamp in
  let hour := hourOf timestamp in
  let minute := minuteOf timestamp in
  let visitorHash :=
    createVisitorHash (orElse (HitEventDto.ip hitEvent) "")
                      (orElse (HitEventDto.userAgent hitEvent) "") in
  [ UpdateHitsByHour code date hour;
    UpdateHitsByMinute code date hour minute;
    UpdateAccessTimes timestamp timestamp code;
    InsertUniqueVisitor code date visitorHash ]
  ++ (if truthyO (HitEventDto.referrer hitEvent)
         && negb (String.eqb (orElse (HitEventDto.referrer hitEvent) "") "direct")
      then [UpdateReferrers code (orElse (HitEventDto.referrer hitEvent) "")] else [])
  ++ (if truthyO (HitEventDto.country hitEvent)
      then [UpdateGeographic code (orElse (HitEventDto.country hitEvent) "")] else [])
  ++ (if truthyO (HitEventDto.deviceType hitEvent) || truthyO (HitEventDto.browser hitEvent)
         || truthyO (HitEventDto.os hitEvent)
      then [UpdateDevices code
              (orElse (HitEventDto.deviceType hitEvent) "unknown")
              (orElse (HitEventDto.browser hitEvent) "unknown")
              (orElse (HitEventDto.os hitEvent) "unknown")]
      else []).

(** [recordHitEvent]: reading the parts of a missing timestamp
    throws.  The parts of the Invalid Date are [NaN] and the day built
    from them is the Invalid Date again; the batch is prepared, and the
    driver refuses to encode these as the [date] and the [int] of the
    keys, so the batch is not sent.  The [catch] logs and rethrows. *)
Definition recordHitEvent (hitEvent : HitEventDto.t) (s : Store) : Result Store :=
  match HitEventDto.timestamp hitEvent with
  | None => Throw (Error "Cannot read properties of undefined")
  | Some JsDate.invalid => Throw (Error "Invalid date")
  | Some (JsDate.instant timestamp) => Ok (batch (queriesFor hitEvent timestamp) s)
  end.

(** The store after a sequence of events has been handed to
    [recordHitEvent], one after the other; a call that throws
    leaves the store as it was. *)
Definition recordAll (hitEvents : list HitEventDto.t) (s : Store) : Store :=
  fold_left (fun acc hitEvent =>
               match recordHitEvent hitEvent acc with
               | Ok acc' => acc'
               | Throw _ => acc
               end) hitEvents s.

End WithHash.

(** *** The queries *)

Record ReferrerStat := mkReferrerStat {
  rs_referrer : string;
  rs_hits : Z;
  rs_percentage : Q
}.

(** [arr.sort(cmp)]: a stable sort; [b] is moved in front of an
    earlier [a] only when [cmp(b, a) < 0]. *)
Fixpoint insertBy {A} (cmp : A -> A -> Z) (x : A) (l : list A) : list A :=
  match l with
  | [] => [x]
  | y :: r => if cmp y x <? 0 then y :: insertBy cmp x r else x :: l
  end.

Fixpoint sortBy {A} (cmp : A -> A -> Z) (l : list A) : list A :=
  match l with
  | [] => []
  | x :: r => insertBy cmp x (sortBy cmp r)
  end.

(** [totalHits > 0 ? (hits / totalHits) * 100 : 0], in exact
    arithmetic. *)
Definition percentageOf (hits totalHits : Z) : Q :=
  if 0 <? totalHits then (inject_Z hits / inject_Z totalHits) * 100 else 0.

Definition sumZ (l : list Z) : Z := fold_left Z.add l 0.

(** [SELECT referrer, count FROM referrers WHERE code = ?] *)
Definition selectReferrers (code : string) (s : Store) : list (string * Z) :=
  map (fun row => (snd (fst row), snd row))
      (filter (fun row => String.eqb (fst (fst row)) code) (referrers s)).

Definition getTopReferrers (code : string) (limit : nat) (s : Store) : list ReferrerStat :=
  let referrers :=
    firstn limit
      (sortBy (fun a b => snd b - snd a) (selectReferrers code s)) in
  let totalHits := fold_left (fun sum ref => sum + snd ref) referrers 0 in
  map (fun ref => mkReferrerStat (fst ref) (snd ref) (percentageOf (snd ref) totalHits))
      referrers.

Record TotalStats := mkTotalStats {
  totalHits : Z;
  uniqueVisitors : Z
}.

(** The [date >= ? AND date <= ?] clause is added only when both ends
    are given.  The ends are instants: the controller refuses a date it
    cannot read before it asks. *)
Definition inRange (startDate endDate : option Z) (date : Z) : bool :=
  match startDate, endDate with
  | Some a, Some b => (dateOf a <=? date) && (date <=? dateOf b)
  | _, _ => true
  end.

(** [WHERE code = ?], with [AND date >= ? AND date <= ?] when the
    range is given, on a row of [hits_by_hour]. *)
Definition whereCodeAndRange (code : string) (startDate endDate : option Z)
           (k : HourKey) : bool :=
  let '(c, d, _) := k in String.eqb c code && inRange startDate endDate d.

(** [SELECT SUM(count), SUM(unique_visitors) FROM hits_by_hour WHERE ...] *)
Definition getTotalStats (code : string) (startDate endDate : option Z) (s : Store)
  : TotalStats :=
  let rows :=
    filter (fun row => whereCodeAndRange code startDate endDate (fst row))
           (hits_by_hour s) in
  mkTotalStats (sumZ (map (fun row => fst (snd row)) rows))
               (sumZ (map (fun row => snd (snd row)) rows)).

(** [SELECT first_accessed, last_accessed FROM access_times WHERE code = ?] *)
Definition getAccessTimes (code : string) (s : Store) : option Z * option Z :=
  match lookup String.eqb code (access_times s) with
  | Some (f, l) => (Some f, Some l)
  | None => (None, None)
  end.

(** [SELECT country, count FROM geographic WHERE code = ?] *)
Definition getGeographicDistribution (code : string) (s : Store) : list ReferrerStat :=
  let countries :=
    map (fun row => (snd (fst row), snd row))
        (filter (fun row => String.eqb (fst (fst row)) code) (geographic s)) in
  let totalHits := fold_left (fun sum country => sum + snd country) countries 0 in
  map (fun c => mkReferrerStat (fst c) (snd c) (percentageOf (snd c) totalHits)) countries.

(** [map.set(k, (map.get(k) || 0) + count)] on a [Map], which keeps
    the order of first insertion. *)
Definition mapAdd (k : string) (count : Z) (m : list (string * Z)) : list (string * Z) :=
  upsert String.eqb k (fun o => match o with Some n => n + count | None => 0 + count end) m.

Definition withPercentages (m : list (string * Z)) : list ReferrerStat :=
  let total := fold_left (fun sum kv => sum + snd kv) m 0 in
  map (fun kv => mkReferrerStat (fst kv) (snd kv) (percentageOf (snd kv) total)) m.

(** [SELECT device_type, browser, os, count FROM devices WHERE code = ?] *)
Definition getDeviceDistribution (code : string) (s : Store)
  : list ReferrerStat * list ReferrerStat :=
  let rows := filter (fun row => let '(c, _, _, _) := fst row in String.eqb c code)
                     (devices s) in
  let deviceMap :=
    fold_left (fun m row => let '(_, t, _, _) := fst row in mapAdd t (snd row) m) rows [] in
  let browserMap :=
    fold_left (fun m row => let '(_, _, b, _) := fst row in mapAdd b (snd row) m) rows [] in
  (withPercentages deviceMap, withPercentages browserMap).

Inductive Granularity := minute | hour | day.

(** [result.rows.map(row => ...)] of [getTimeSeries].  The callback
    calls [row.date.getFullYear()]; the driver hands a [date] column
    back as its own [LocalDate], which has no such method, so the
    callback throws at the first row.  Without rows there is nothing to
    map and nothing to sort. *)
Definition mapRows {A} (rows : list A) : Result (list (Z * Z)) :=
  match rows with
  | [] => Ok []
  | _ :: _ => Throw (Error "row.date.getFullYear is not a function")
  end.

(** [getTimeSeries]: the rows of [hits_by_minute] for the granularity
    [minute] and of [hits_by_hour] otherwise, for the code and, when
    both ends are given, with [date >= ? AND date <= ?]. *)
Definition getTimeSeries (code : string) (startDate endDate : option Z) (g : Granularity)
           (s : Store) : Result (list (Z * Z)) :=
  match g with
  | minute =>
      mapRows (filter (fun row => let '(c, d, _, _) := fst row in
                                  String.eqb c code && inRange startDate endDate d)
                      (hits_by_minute s))
  | _ =>
      mapRows (filter (fun row => whereCodeAndRange code startDate endDate (fst row))
                      (hits_by_hour s))
  end.

Record AnalyticsResponseDto := mkAnalytics {
  a_code : string;
  a_totalHits : Z;
  a_uniqueVisitors : Z;
  a_firstAccessed : option Z;
  a_lastAccessed : option Z;
  a_timeSeries : list (Z * Z);
  a_topReferrers : list ReferrerStat;
  a_geographic : list ReferrerStat;
  a_devices : list ReferrerStat;
  a_browsers : list ReferrerStat
}.

(** [getAnalytics]: the six queries are awaited together, so the
    failure of one is the failure of the whole; the [catch] logs and
    rethrows. *)
Definition getAnalytics (code : string) (startDate endDate : option Z) (g : Granularity)
           (s : Store) : Result AnalyticsResponseDto :=
  match getTimeSeries code startDate endDate g s with
  | Throw e => Throw e
  | Ok timeSeries =>
      let referrers := getTopReferrers code 10 s in
      let geographic := getGeographicDistribution code s in
      let devices := getDeviceDistribution code s in
      let accessTimes := getAccessTimes code s in
      let totalStats := getTotalStats code startDate endDate s in
      Ok (mkAnalytics code (totalHits totalStats) (uniqueVisitors totalStats)
                      (fst accessTimes) (snd accessTimes)
                      timeSeries referrers geographic (fst devices) (snd devices))
  end.

End CassandraService.

(** ** services/analytics-consumer.service.ts *)

Module AnalyticsConsumerService.

(** [/^(?:[0-9]{1,3}\.){3}[0-9]{1,3}$|^([0-9a-fA-F]{1,4}:){7}[0-9a-fA-F]{1,4}$/] *)
Definition ipRegex (ip : string) : bool :=
  (let parts := JS.split "." ip in
   (List.length parts =? 4)%nat && forallb JS.digits1to3 parts)
  || (let parts := JS.split ":" ip in
      (List.length parts =? 8)%nat && forallb JS.hex1to4 parts).

Definition maxAge : Z := 24 * 60 * 60 * 1000.
Definition maxFuture : Z := 5 * 60 * 1000.

(** [isValidHitEvent].  A [Date] object is truthy, the Invalid Date
    too; its time value is [NaN], for which both comparisons of the
    window check are false. *)
Definition isValidHitEvent (now : Z) (hitEvent : HitEventDto.t) : bool :=
  if negb (truthyO (HitEventDto.code hitEvent))
     || negb (isSome (HitEventDto.timestamp hitEvent))
     || negb (truthyO (HitEventDto.ip hitEvent))
     || negb (truthyO (HitEventDto.userAgent hitEvent))
  then false
  else
    let eventTime :=
      match HitEventDto.timestamp hitEvent with
      | Some d => JsDate.getTime d
      | None => None
      end in
    if JsDate.lt eventTime (now - maxAge) || JsDate.gt eventTime (now + maxFuture)
    then false
    else if negb (ipRegex (orElse (HitEventDto.ip hitEvent) "")) then false
    else true.

(** What [processHitEvent] reports: the warning for a refused event,
    or the status of the processing metric. *)
Inductive Disposition := skipped | success | error.

Section WithHash.

Context (sha256hex : string -> string).

Definition processHitEvent (now : Z) (hitEvent : HitEventDto.t)
           (s : CassandraService.Store) : Disposition * CassandraService.Store :=
  if negb (isValidHitEvent now hitEvent) then (skipped, s)
  else
    match CassandraService.recordHitEvent sha256hex hitEvent s with
    | Ok s' => (success, s')
    | Throw _ => (error, s)
    end.

End WithHash.

End AnalyticsConsumerService.

(** ** Sample data for the worked scenarios *)

Module Sample.

Definition cfg : Config := defaultConfig "https://sho.rt".

Definition cfgScanning : Config := mkConfig "https://sho.rt" 7 2048 3 50 true 3600.

(** Surroundings in which every collaborator answers. *)
Definition env (now : Z) : Env :=
  mkEnv now (fun _ _ => "aB3xY9q")
        (fun _ => Ok true)
        (fun _ => Ok (mkDeviceInfo "desktop" "Chrome" "Linux"))
        (fun _ => Ok None)
        (Ok tt) (Ok tt).

(** Every best-effort collaborator of the redirect fails. *)
Definition envFailing (now : Z) : Env :=
  mkEnv now (fun _ _ => "aB3xY9q")
        (fun _ => Ok true)
        (fun _ => Throw (Error "user agent parser failed"))
        (fun _ => Throw (Error "geo lookup failed"))
        (Throw (Error "connection to the database lost"))
        (Throw (Error "broker not available")).

(** The reputation service flags every URL. *)
Definition envFlagging (now : Z) : Env :=
  mkEnv now (fun _ _ => "aB3xY9q")
        (fun _ => Ok false)
        (fun _ => Ok (mkDeviceInfo "desktop" "Chrome" "Linux"))
        (fun _ => Ok None)
        (Ok tt) (Ok tt).

Definition post (url : string) : CreateUrlDto.t :=
  CreateUrlDto.mk url None None None None None.

Definition post1 : CreateUrlDto.t := post "https://Example.COM/path?utm_source=x&a=1".
Definition post2 : CreateUrlDto.t := post "https://example.com/path/?a=1&utm_medium=y".

(** A stand-in for the SHA-256 digest; the results do not depend on
    which function it is. *)
Definition digest (s : string) : string := s.

(** A hit as the redirect publishes it for a direct visit. *)
Definition hit (code : string) (t : Z) (ip userAgent : string) : HitEventDto.t :=
  HitEventDto.mk (Some code) (Some (JsDate.instant t)) (Some ip) (Some userAgent)
                 (Some "direct")
                 None None (Some "desktop") (Some "Chrome") (Some "Linux").

(** 2024-01-01T12:00:00Z, 12:00:30Z and 13:00:00Z. *)
Definition noon : Z := 1704110400000.
Definition noon30s : Z := 1704110430000.
Definition onePm : Z := 1704114000000.

Definition threeHits : list HitEventDto.t :=
  [ hit "c" noon "198.51.100.1" "Mozilla/5.0";
    hit "c" noon30s "198.51.100.2" "Mozilla/5.0";
    hit "c" onePm "198.51.100.3" "Mozilla/5.0" ].

(** Eleven referrers of code [c]: one with 5 hits, ten with 10. *)
Definition elevenReferrers : CassandraService.Store :=
  CassandraService.mkStore [] []
    [ (("c", "https://r00.example"), 5);
      (("c", "https://r01.example"), 10); (("c", "https://r02.example"), 10);
      (("c", "https://r03.example"), 10); (("c", "https://r04.example"), 10);
      (("c", "https://r05.example"), 10); (("c", "https://r06.example"), 10);
      (("c", "https://r07.example"), 10); (("c", "https://r08.example"), 10);
      (("c", "https://r09.example"), 10); (("c", "https://r10.example"), 10) ]
    [] [] [] [].

(** A stored record with the given code, target and expiry. *)
Definition record (code original : string) (expiresAt : option Z) : UrlEntity.t :=
  UrlEntity.mk code original original 0 None expiresAt 0 0 None None None.

Definition worldWith (u : UrlEntity.t) : World := mkWorld [u] [] 0 [].

End Sample.

(** ** The preview route of the redirect controller *)

Module Preview.

Record t := mk {
  code : string;
  original : string;
  createdAt : Z;
  expiresAt : option Z;
  hitCount : Z;
  isExpired : bool;
  metadata : option string
}.

(** [previewUrl]: the [catch] logs and rethrows. *)
Definition previewUrl (cfg : Config) (env : Env) (code : string) : M t :=
  if negb (JS.codeFormat code)
  then throw (BadRequestException "Invalid URL code format")
  else
    url <- UrlService.findByCode cfg env code ;;
    match url with
    | None => throw (NotFoundException "Short URL not found")
    | Some url =>
        ret (mk (UrlEntity.code url) (UrlEntity.original url) (UrlEntity.createdAt url)
                (UrlEntity.expiresAt url) (UrlEntity.hitCount url)
                (UrlEntity.isExpired (now env) url) (UrlEntity.metadata url))
    end.

End Preview.

(** ** guards/api-key.guard.ts *)

Module ApiKeyGuard.

Inductive Verdict :=
| activated
| unauthorized (message : string).

(** [request.headers[name]]: the header names of a request are in
    lower case. *)
Definition header (name : string) (headers : list (string * string)) : option string :=
  match find (fun kv => String.eqb (fst kv) name) headers with
  | Some kv => Some (snd kv)
  | None => None
  end.

(** [a !== b] for a string and a possibly undefined string. *)
Definition strictNeq (a : string) (b : option string) : bool :=
  match b with
  | Some s => negb (String.eqb a s)
  | None => true
  end.

Definition canActivate (adminApiKey : option string) (apiKeyHeader : string)
           (headers : list (string * string)) : Verdict :=
  let providedApiKey := header (JS.toLowerCase apiKeyHeader) headers in
  if negb (truthyO providedApiKey) then unauthorized "API key is required"
  else if strictNeq (orElse providedApiKey "") adminApiKey
       then unauthorized "Invalid API key"
       else activated.

End ApiKeyGuard.

(** ** The controller of [/api/urls] *)

Module UrlController.

(** What a guarded route answers: the refusal of the guard, or what the
    handler does. *)
Inductive Guarded (A : Type) :=
| refused (message : string)
| handled (r : Result A * World).

Arguments refused {A} message.
Arguments handled {A} r.

Definition guardedBy {A} (adminApiKey : option string) (apiKeyHeader : string)
           (headers : list (string * string)) (handler : M A) (w : World) : Guarded A :=
  match ApiKeyGuard.canActivate adminApiKey apiKeyHeader headers with
  | ApiKeyGuard.unauthorized m => refused m
  | ApiKeyGuard.activated => handled (handler w)
  end.

(** [deleteUrl]: the [catch] logs and rethrows.  [del] is what the
    cache answers to the [DEL] of the service. *)
Definition deleteUrl (del : Result unit) (code : string) : M unit :=
  if negb (JS.truthy code) || (String.length code <? 3)%nat || (50 <? String.length code)%nat
  then throw (BadRequestException "Invalid URL code format")
  else
    deleted <- UrlService.deleteUrl del code ;;
    if negb deleted then throw (NotFoundException "URL not found") else ret tt.

Record BatchError := mkBatchError {
  be_url : string;
  be_error : string
}.

(** [error.message] *)
Definition messageOf (e : Exception) : string :=
  match e with
  | BadRequestException m => m
  | NotFoundException m => m
  | Error m => m
  end.

(** [{...urlDto, clientIp, userAgent}] *)
Definition withContext (clientIp userAgent : option string) (d : CreateUrlDto.t)
  : CreateUrlDto.t :=
  CreateUrlDto.mk (CreateUrlDto.url d) (CreateUrlDto.customAlias d) (CreateUrlDto.expiresAt d)
                  (CreateUrlDto.metadata d) clientIp userAgent.

Section WithContext.

Context {P : Url.Platform} (cfg : Config) (env : Env).

(** One closure of [batchDto.urls.map]: it settles with the response
    or with the URL and the message of what was thrown. *)
Definition batchOne (clientIp userAgent : option string) (urlDto : CreateUrlDto.t)
  : M (CreateUrlResponseDto.t + BatchError) :=
  tryCatch
    (result <- UrlService.createShortUrl cfg env (withContext clientIp userAgent urlDto) ;;
     ret (inl result))
    (fun error => ret (inr (mkBatchError (CreateUrlDto.url urlDto) (messageOf error)))).

Fixpoint batchAll (clientIp userAgent : option string) (urls : list CreateUrlDto.t)
  : M (list (CreateUrlResponseDto.t + BatchError)) :=
  match urls with
  | [] => ret []
  | urlDto :: rest =>
      r <- batchOne clientIp userAgent urlDto ;;
      rs <- batchAll clientIp userAgent rest ;;
      ret (r :: rs)
  end.

(** The [forEach] that sorts the settled results into the two lists. *)
Fixpoint sortResults (results : list (CreateUrlResponseDto.t + BatchError))
  : list CreateUrlResponseDto.t * list BatchError :=
  match results with
  | [] => ([], [])
  | inl result :: rest => let '(s, e) := sortResults rest in (result :: s, e)
  | inr err :: rest => let '(s, e) := sortResults rest in (s, err :: e)
  end.

(** [batchCreateUrls]; [None] stands for a body whose [urls] is missing
    or not an array. *)
Definition batchCreateUrls (urls : option (list CreateUrlDto.t))
           (clientIp userAgent : option string)
  : M (list CreateUrlResponseDto.t * list BatchError) :=
  match urls with
  | None => throw (BadRequestException "Invalid batch format: urls array is required")
  | Some urls =>
      if (List.length urls =? 0)%nat
      then throw (BadRequestException "At least one URL is required")
      else if (100 <? List.length urls)%nat
      then throw (BadRequestException "Maximum 100 URLs allowed per batch")
      else
        results <- batchAll clientIp userAgent urls ;;
        ret (sortResults results)
  end.

End WithContext.

End UrlController.

(** ** dto/query-params.dto.ts and the paging of [getUrls] *)

Module PaginationQueryDto.

Record t := mk {
  page : Z;
  limit : Z
}.

(** [normalize] *)
Definition normalize (q : t) : t :=
  mk (Z.max 1 (Z.min 1000 (page q))) (Z.max 1 (Z.min 100 (limit q))).

(** [get offset] *)
Definition offset (q : t) : Z := (page q - 1) * limit q.

(** [Math.ceil(a / b)] for whole numbers, [b] positive. *)
Definition ceilDiv (a b : Z) : Z := (a + b - 1) / b.

Record PageInfo := mkPageInfo {
  totalPages : Z;
  hasNext : bool;
  hasPrev : bool
}.

(** The figures [getUrls] derives from the normalised query and the
    count of the matching rows. *)
Definition pageInfo (queryParams : t) (total : Z) : PageInfo :=
  let q := normalize queryParams in
  let totalPages := ceilDiv total (limit q) in
  mkPageInfo totalPages (page q <? totalPages) (1 <? page q).

(** [skip(offset).take(limit)] on the matching rows. *)
Definition pageOf {A} (queryParams : t) (rows : list A) : list A :=
  let q := normalize queryParams in
  firstn (Z.to_nat (limit q)) (skipn (Z.to_nat (offset q)) rows).

End PaginationQueryDto.

(** ** The rate limiter of services/redis.service.ts *)

Module RateLimit.

(** A counter key with its value and its end of life, if it has one. *)
Definition Counters : Type := list (string * (Z * option Z)).

Definition alive (now : Z) (entry : Z * option Z) : bool :=
  match snd entry with
  | Some eol => now <? eol
  | None => true
  end.

Definition lookup (now : Z) (key : string) (c : Counters) : option (Z * option Z) :=
  match find (fun kv => String.eqb (fst kv) key) c with
  | Some kv => if alive now (snd kv) then Some (snd kv) else None
  | None => None
  end.

Definition store (key : string) (entry : Z * option Z) (c : Counters) : Counters :=
  (key, entry) :: filter (fun kv => negb (String.eqb (fst kv) key)) c.

(** [INCR]: a missing key counts from zero and has no end of life. *)
Definition incr (now : Z) (key : string) (c : Counters) : Z * Counters :=
  match lookup now key c with
  | Some (v, eol) => (v + 1, store key (v + 1, eol) c)
  | None => (1, store key (1, None) c)
  end.

(** [EXPIRE key seconds] *)
Definition expire (now : Z) (key : string) (seconds : Z) (c : Counters) : Counters :=
  match lookup now key c with
  | Some (v, _) => store key (v, Some (now + seconds * 1000)) c
  | None => c
  end.

Record Verdict := mkVerdict {
  allowed : bool;
  remaining : Z;
  resetTime : Z
}.

(** [checkRateLimit]; [up] tells whether the cache answers.  When it
    does not, [incr] throws and the [catch] lets the request pass. *)
Definition checkRateLimit (up : bool) (now : Z) (key : string) (limit windowMs : Z)
           (c : Counters) : Verdict * Counters :=
  if up then
    let window := now / windowMs in
    let rateKey := "rate:" ++ key ++ ":" ++ JS.showZ window in
    let '(count, c1) := incr now rateKey c in
    let c2 := expire now rateKey (PaginationQueryDto.ceilDiv windowMs 1000) c1 in
    (mkVerdict (count <=? limit) (Z.max 0 (limit - count)) ((window + 1) * windowMs), c2)
  else (mkVerdict true limit (now + windowMs), c).

(** The verdicts of a run of calls for one key, made at the given
    instants. *)
Fixpoint checkAll (key : string) (limit windowMs : Z) (instants : list Z) (c : Counters)
  : list Verdict :=
  match instants with
  | [] => []
  | now :: rest =>
      let '(v, c') := checkRateLimit true now key limit windowMs c in
      v :: checkAll key limit windowMs rest c'
  end.

End RateLimit.

(** ** The batch path of the analytics consumer *)

Module AnalyticsBatch.

(** [for (i = 0; i < xs.length; i += size) out.push(xs.slice(i, i + size))] *)
Fixpoint slices {A} (fuel size : nat) (xs : list A) : list (list A) :=
  match fuel, xs with
  | O, _ => []
  | _, [] => []
  | S f, _ => firstn size xs :: slices f size (skipn size xs)
  end.

(** The batches [processBatchEvents] cuts, of 100 events each, and the
    groups of five batches it takes them in. *)
Definition batches (events : list HitEventDto.t) : list (list HitEventDto.t) :=
  slices (List.length events) 100 events.

Definition batchGroups (events : list HitEventDto.t) : list (list (list HitEventDto.t)) :=
  let batches := batches events in
  slices (List.length batches) 5 batches.

End AnalyticsBatch.

(* ================================================================== *)
(** * Part II. Results                                                  *)
(* ================================================================== *)

(** ** Facts about the string operations *)

Module JSFacts.

Lemma lowerChar_idem (c : ascii) : JS.lowerChar (JS.lowerChar c) = JS.lowerChar c.
Proof.
  destruct c as [b0 b1 b2 b3 b4 b5 b6 b7].
  destruct b0, b1, b2, b3, b4, b5, b6, b7; reflexivity.
Qed.

Lemma toLowerCase_idem (s : string) :
  JS.toLowerCase (JS.toLowerCase s) = JS.toLowerCase s.
Proof.
  induction s as [|c r IH]; simpl.
  - reflexivity.
  - now rewrite lowerChar_idem, IH.
Qed.

Lemma endsWith_cons (c : ascii) (r suf : string) :
  JS.endsWith (String c r) suf = String.eqb (String c r) suf || JS.endsWith r suf.
Proof. reflexivity. Qed.

Lemma endsWith_nil (suf : string) :
  JS.endsWith EmptyString suf = String.eqb EmptyString suf.
Proof. simpl. now rewrite orb_false_r. Qed.

(** Once the one trailing slash of a path that does not end in two is
    cut, no trailing slash is left. *)
Lemma endsWith_dropLast (s : string) :
  JS.endsWith s "/" = true ->
  JS.endsWith s "//" = false ->
  JS.endsWith (JS.dropLast s) "/" = false.
Proof.
  induction s as [|c r IH]; intros H1 H2.
  - reflexivity.
  - destruct r as [|c' r'].
    + reflexivity.
    + rewrite endsWith_cons in H1, H2.
      apply orb_false_iff in H2 as [H2a H2b].
      assert (Hr : JS.endsWith (String c' r') "/" = true).
      { destruct (String.eqb (String c (String c' r')) "/") eqn:E.
        - apply String.eqb_eq in E. discriminate.
        - exact H1. }
      change (JS.dropLast (String c (String c' r')))
        with (String c (JS.dropLast (String c' r'))).
      rewrite endsWith_cons, (IH Hr H2b), orb_false_r.
      apply String.eqb_neq. intros E. injection E as Ec Ed.
      destruct r' as [|c'' r''].
      * rewrite endsWith_cons, endsWith_nil in Hr.
        destruct (String.eqb (String c' "") "/") eqn:E1.
        -- apply String.eqb_eq in E1. injection E1 as Hc'. subst c c'.
           discriminate H2a.
        -- discriminate Hr.
      * discriminate Ed.
Qed.

End JSFacts.

(** ** The normaliser *)

Module NormalizeFacts.

Import Url UrlService.

Lemma filter_filter {A} (f g : A -> bool) (l : list A) :
  filter f (filter g l) = filter (fun x => g x && f x) l.
Proof.
  induction l as [|x l IH]; simpl.
  - reflexivity.
  - destruct (g x); simpl; [destruct (f x)|]; now rewrite IH.
Qed.

Lemma filter_ext_all {A} (f : A -> bool) (l : list A) :
  (forall x, f x = true) -> filter f l = l.
Proof.
  intros H. induction l as [|x l IH]; simpl.
  - reflexivity.
  - now rewrite H, IH.
Qed.

Lemma url_eta (u : URL) :
  mkURL (protocol u) (username u) (password u) (hostname u) (port u) (pathname u)
        (searchParams u) (fragment u) = u.
Proof. now destruct u. Qed.

(** Deleting a list of names keeps exactly the pairs whose name is
    not in the list, in their order. *)
Lemma fold_delete (ps : list string) (u : URL) :
  fold_left (fun u param => searchParams_delete param u) ps u
  = mkURL (protocol u) (username u) (password u) (hostname u) (port u) (pathname u)
          (filter (fun kv => negb (JS.includes ps (fst kv))) (searchParams u))
          (fragment u).
Proof.
  revert u. induction ps as [|p ps IH]; intros u; simpl.
  - rewrite filter_ext_all by reflexivity. symmetry. apply url_eta.
  - rewrite IH. unfold searchParams_delete; simpl.
    rewrite filter_filter. f_equal.
    apply filter_ext. intros kv. unfold JS.includes. simpl.
    now rewrite negb_orb.
Qed.

Lemma np_protocol (p : URL) : protocol (normalizeParsed p) = protocol p.
Proof.
  unfold normalizeParsed. rewrite fold_delete. destruct p; cbn.
  repeat match goal with |- context [if ?b then _ else _] => destruct b end; reflexivity.
Qed.

Lemma np_fragment (p : URL) : fragment (normalizeParsed p) = fragment p.
Proof.
  unfold normalizeParsed. rewrite fold_delete. destruct p; cbn.
  repeat match goal with |- context [if ?b then _ else _] => destruct b end; reflexivity.
Qed.

Lemma np_hostname (p : URL) :
  hostname (normalizeParsed p) = JS.toLowerCase (hostname p).
Proof.
  unfold normalizeParsed. rewrite fold_delete. destruct p; cbn.
  repeat match goal with |- context [if ?b then _ else _] => destruct b end; reflexivity.
Qed.

Lemma np_searchParams (p : URL) :
  searchParams (normalizeParsed p)
  = filter (fun kv => negb (JS.includes trackingParams (fst kv))) (searchParams p).
Proof.
  unfold normalizeParsed. rewrite fold_delete. destruct p; cbn.
  repeat match goal with |- context [if ?b then _ else _] => destruct b end; reflexivity.
Qed.

Lemma np_port (p : URL) :
  port (normalizeParsed p)
  = if (String.eqb (protocol p) "http:" && String.eqb (port p) "80")
       || (String.eqb (protocol p) "https:" && String.eqb (port p) "443")
    then EmptyString else port p.
Proof.
  unfold normalizeParsed. rewrite fold_delete. destruct p as [pr us pw h po pa sp fr]; cbn.
  destruct (String.eqb pr "http:") eqn:E1, (String.eqb po "80") eqn:E2; cbn;
    rewrite ?E1, ?E2; cbn;
    destruct (String.eqb pr "https:") eqn:E3; cbn;
    try (destruct (String.eqb po "443") eqn:E4; cbn);
    repeat match goal with |- context [if ?b then _ else _] => destruct b end;
    reflexivity.
Qed.

Lemma np_pathname (p : URL) :
  pathname (normalizeParsed p)
  = if JS.endsWith (pathname p) "/" && (1 <? String.length (pathname p))%nat
    then JS.dropLast (pathname p) else pathname p.
Proof.
  unfold normalizeParsed. rewrite fold_delete. destruct p as [pr us pw h po pa sp fr]; cbn.
  destruct (String.eqb pr "http:" && String.eqb po "80"); cbn;
    destruct (String.eqb pr "https:" && _); cbn;
    destruct (JS.endsWith pa "/" && _); reflexivity.
Qed.

Lemma np_username (p : URL) : username (normalizeParsed p) = username p.
Proof.
  unfold normalizeParsed. rewrite fold_delete. destruct p; cbn.
  repeat match goal with |- context [if ?b then _ else _] => destruct b end; reflexivity.
Qed.

Lemma np_password (p : URL) : password (normalizeParsed p) = password p.
Proof.
  unfold normalizeParsed. rewrite fold_delete. destruct p; cbn.
  repeat match goal with |- context [if ?b then _ else _] => destruct b end; reflexivity.
Qed.

Lemma url_ext (u v : URL) :
  protocol u = protocol v -> username u = username v -> password u = password v ->
  hostname u = hostname v -> port u = port v ->
  pathname u = pathname v -> searchParams u = searchParams v ->
  fragment u = fragment v -> u = v.
Proof. destruct u, v; simpl; intros; subst; reflexivity. Qed.

(** The steps are idempotent on a parsed URL whose path does not end
    in two slashes. *)
Lemma normalizeParsed_idem (p : URL) :
  JS.endsWith (pathname p) "//" = false ->
  normalizeParsed (normalizeParsed p) = normalizeParsed p.
Proof.
  intros Hp. apply url_ext.
  - now rewrite !np_protocol.
  - now rewrite !np_username.
  - now rewrite !np_password.
  - rewrite !np_hostname. apply JSFacts.toLowerCase_idem.
  - rewrite np_port, np_protocol. rewrite (np_port p).
    destruct ((String.eqb (protocol p) "http:" && String.eqb (port p) "80")
              || (String.eqb (protocol p) "https:" && String.eqb (port p) "443")) eqn:E.
    + simpl. now rewrite !andb_false_r.
    + now rewrite E.
  - rewrite np_pathname. rewrite (np_pathname p).
    destruct (JS.endsWith (pathname p) "/" && (1 <? String.length (pathname p))%nat) eqn:E.
    + apply andb_true_iff in E as [E1 _].
      now rewrite (JSFacts.endsWith_dropLast _ E1 Hp).
    + now rewrite E.
  - rewrite !np_searchParams, filter_filter. apply filter_ext.
    intros kv. now rewrite andb_diag.
  - now rewrite !np_fragment.
Qed.

End NormalizeFacts.

(** C7 (amended): applying [normalizeUrl] to its own output returns
    that output, for every string the platform does not parse, and for
    every URL whose parsed path does not end in two or more slashes and
    whose normalised form the platform reads back as it was written. *)
Theorem normalizeUrl_idempotent_single_slash {P : Url.Platform} (u : string) :
  (forall p, Url.parseURL u = Some p ->
     JS.endsWith (Url.pathname p) "//" = false
     /\ Url.parseURL (Url.href (UrlService.normalizeParsed p))
        = Some (UrlService.normalizeParsed p)) ->
  UrlService.normalizeUrl (UrlService.normalizeUrl u) = UrlService.normalizeUrl u.
Proof.
  intros H. unfold UrlService.normalizeUrl at 2 3.
  destruct (Url.parseURL u) as [p|] eqn:E.
  - destruct (H p eq_refl) as [Hs Hr].
    unfold UrlService.normalizeUrl. rewrite Hr.
    now rewrite NormalizeFacts.normalizeParsed_idem.
  - unfold UrlService.normalizeUrl. now rewrite E.
Qed.

Lemma normalizeUrl_idempotent_single_slash_witness :
  let u := "https://Example.COM/path/?utm_source=x&a=1" in
  (forall p, Url.modelParse u = Some p ->
     JS.endsWith (Url.pathname p) "//" = false
     /\ Url.modelParse (Url.modelHref (UrlService.normalizeParsed p))
        = Some (UrlService.normalizeParsed p))
  /\ UrlService.normalizeUrl (P:=Url.model) (UrlService.normalizeUrl (P:=Url.model) u)
     = UrlService.normalizeUrl (P:=Url.model) u.
Proof.
  intros u.
  assert (H : forall p, Url.modelParse u = Some p ->
     JS.endsWith (Url.pathname p) "//" = false
     /\ Url.modelParse (Url.modelHref (UrlService.normalizeParsed p))
        = Some (UrlService.normalizeParsed p)).
  { intros p Hp. vm_compute in Hp. injection Hp as <-. vm_compute. split; reflexivity. }
  split.
  - exact H.
  - exact (normalizeUrl_idempotent_single_slash (P:=Url.model) u H).
Defined.

(** C7 (as stated) fails: only one trailing slash is cut per pass, so a
    path ending in two slashes loses one at each application. *)
Lemma normalizeUrl_not_idempotent :
  let u := "http://a.com/a//" in
  UrlService.normalizeUrl (P:=Url.model) u = "http://a.com/a/"
  /\ UrlService.normalizeUrl (P:=Url.model) (UrlService.normalizeUrl (P:=Url.model) u)
     = "http://a.com/a"
  /\ UrlService.normalizeUrl (P:=Url.model) (UrlService.normalizeUrl (P:=Url.model) u)
     <> UrlService.normalizeUrl (P:=Url.model) u.
Proof.
  vm_compute. repeat split. discriminate.
Qed.

(** ** Creation and deduplication *)

Module CreateFacts.

Import UrlService.

(** With distinct normalised URLs in the table, the lookup by
    normalised URL returns the record that carries it. *)
Lemma find_normalized (l : list UrlEntity.t) (e : UrlEntity.t) :
  NoDup (map UrlEntity.normalized l) ->
  In e l ->
  find (fun u => String.eqb (UrlEntity.normalized u) (UrlEntity.normalized e)) l = Some e.
Proof.
  induction l as [|x l IH]; intros Hnd Hin.
  - destruct Hin.
  - simpl in Hnd. inversion Hnd as [|? ? Hx Hl]; subst.
    simpl. destruct Hin as [->|Hin].
    + now rewrite String.eqb_refl.
    + destruct (String.eqb (UrlEntity.normalized x) (UrlEntity.normalized e)) eqn:E.
      * apply String.eqb_eq in E. exfalso. apply Hx. rewrite E.
        now apply in_map.
      * now apply IH.
Qed.

(** A record the [active] filter of the listing selects is not
    expired for [isExpired]. *)
Lemma active_not_expired (now : Z) (e : UrlEntity.t) :
  whereActive now e = true -> UrlEntity.isExpired now e = false.
Proof.
  unfold whereActive, UrlEntity.isExpired.
  destruct (UrlEntity.expiresAt e) as [x|]; [|reflexivity].
  intros H. apply Z.gtb_lt in H. rewrite Z.gtb_ltb. apply Z.ltb_ge. lia.
Qed.

Lemma scan_passes (cfg : Config) (env : Env) (n : string) (w : World) :
  enableUrlScanning cfg = false
  \/ virusTotal_checkUrl env n = Ok true
  \/ (exists m, virusTotal_checkUrl env n = Throw (Error m))
  \/ (exists m, virusTotal_checkUrl env n = Throw (NotFoundException m)) ->
  (if enableUrlScanning cfg then checkUrlSafety env n else ret tt) w = (Ok tt, w).
Proof.
  intros [H|[H|[[m H]|[m H]]]]; destruct (enableUrlScanning cfg); try discriminate;
    try reflexivity; unfold checkUrlSafety; now rewrite H.
Qed.

End CreateFacts.

(** C4 (amended): whenever the reputation scan does not reject the URL
    (it is switched off, answers safe, or fails), the table holds
    distinct normalised URLs and one of its records is resolvable and
    carries the normalised form of the submitted URL, [createShortUrl]
    answers with that record's code, short URL, original, creation and
    expiry instants and [isNew = false], and changes nothing. *)
Theorem createShortUrl_returns_existing {P : Url.Platform}
    (cfg : Config) (env : Env) (dto : CreateUrlDto.t) (w : World) (e : UrlEntity.t) :
  enableUrlScanning cfg = false
  \/ virusTotal_checkUrl env (UrlService.normalizeUrl (CreateUrlDto.url dto)) = Ok true
  \/ (exists m, virusTotal_checkUrl env (UrlService.normalizeUrl (CreateUrlDto.url dto))
                = Throw (Error m))
  \/ (exists m, virusTotal_checkUrl env (UrlService.normalizeUrl (CreateUrlDto.url dto))
                = Throw (NotFoundException m)) ->
  NoDup (map UrlEntity.normalized (urls w)) ->
  In e (urls w) ->
  UrlEntity.normalized e = UrlService.normalizeUrl (CreateUrlDto.url dto) ->
  UrlService.whereActive (now env) e = true ->
  UrlService.createShortUrl cfg env dto w
  = (Ok (CreateUrlResponseDto.mk (UrlEntity.code e)
           (baseUrl cfg ++ "/" ++ UrlEntity.code e)
           (UrlEntity.original e) (UrlEntity.createdAt e) (UrlEntity.expiresAt e) false),
     w).
Proof.
  intros Hscan Hnd Hin Hn Hact.
  unfold UrlService.createShortUrl, bind.
  rewrite (CreateFacts.scan_passes cfg env _ w Hscan).
  unfold UrlService.findByNormalizedUrl, gets.
  rewrite <- Hn, (CreateFacts.find_normalized _ _ Hnd Hin).
  now rewrite (CreateFacts.active_not_expired _ _ Hact).
Qed.

Lemma createShortUrl_returns_existing_witness :
  let w1 := snd (UrlService.createShortUrl (P:=Url.model) Sample.cfg (Sample.env 1000)
                   Sample.post1 emptyWorld) in
  let e := UrlEntity.mk "aB3xY9q" "https://Example.COM/path?utm_source=x&a=1"
             "https://example.com/path?a=1" 0 None None 1000 1000 None None None in
  In e (urls w1)
  /\ UrlEntity.normalized e
     = UrlService.normalizeUrl (P:=Url.model) (CreateUrlDto.url Sample.post2)
  /\ UrlService.whereActive 2000 e = true
  /\ UrlService.createShortUrl (P:=Url.model) Sample.cfg (Sample.env 2000) Sample.post2 w1
     = (Ok (CreateUrlResponseDto.mk "aB3xY9q" "https://sho.rt/aB3xY9q"
              "https://Example.COM/path?utm_source=x&a=1" 1000 None false),
        w1).
Proof.
  intros w1 e.
  assert (Hin : In e (urls w1)) by (left; reflexivity).
  assert (Hn : UrlEntity.normalized e
               = UrlService.normalizeUrl (P:=Url.model) (CreateUrlDto.url Sample.post2))
    by reflexivity.
  assert (Hact : UrlService.whereActive (now (Sample.env 2000)) e = true) by reflexivity.
  assert (Hnd : NoDup (map UrlEntity.normalized (urls w1))).
  { constructor; [intros []|constructor]. }
  split; [exact Hin|]. split; [exact Hn|]. split; [exact Hact|].
  exact (createShortUrl_returns_existing (P:=Url.model) Sample.cfg (Sample.env 2000)
           Sample.post2 w1 e (or_introl eq_refl) Hnd Hin Hn Hact).
Defined.

(** C4 (as stated) fails: with URL scanning switched on and the
    reputation service flagging the URL, the second request is refused
    although a resolvable record with the same normalised URL exists. *)
Lemma createShortUrl_blocked_despite_existing :
  let w1 := snd (UrlService.createShortUrl (P:=Url.model) Sample.cfg (Sample.env 1000)
                   Sample.post1 emptyWorld) in
  (exists e, In e (urls w1)
             /\ UrlEntity.normalized e
                = UrlService.normalizeUrl (P:=Url.model) (CreateUrlDto.url Sample.post2)
             /\ UrlService.whereActive 2000 e = true)
  /\ UrlService.createShortUrl (P:=Url.model) Sample.cfgScanning (Sample.envFlagging 2000)
       Sample.post2 w1
     = (Throw (BadRequestException "URL appears to be malicious and cannot be shortened"),
        w1).
Proof.
  split.
  - eexists. split; [left; reflexivity|]. split; reflexivity.
  - reflexivity.
Qed.

(** The worked scenario of C4, for any surroundings in which the scan
    is switched off: on a fresh service the first request creates the
    record under the first code drawn, the second returns that code
    with [isNew = false], and the one stored record has the normalised
    URL [https://example.com/path?a=1]. *)
Lemma deduplication_across_tracking_noise (cfg : Config) (env1 env2 : Env) :
  enableUrlScanning cfg = false ->
  let c := nanoid env1 0%nat (defaultCodeLength cfg) in
  let r1 := UrlService.createShortUrl (P:=Url.model) cfg env1 Sample.post1 emptyWorld in
  let r2 := UrlService.createShortUrl (P:=Url.model) cfg env2 Sample.post2 (snd r1) in
  fst r1 = Ok (CreateUrlResponseDto.mk c (baseUrl cfg ++ "/" ++ c)
                 "https://Example.COM/path?utm_source=x&a=1" (now env1) None true)
  /\ fst r2 = Ok (CreateUrlResponseDto.mk c (baseUrl cfg ++ "/" ++ c)
                    "https://Example.COM/path?utm_source=x&a=1" (now env1) None false)
  /\ map UrlEntity.normalized (urls (snd r2)) = ["https://example.com/path?a=1"].
Proof.
  intros Hs c r1 r2.
  assert (N1 : UrlService.normalizeUrl (P:=Url.model) (CreateUrlDto.url Sample.post1)
               = "https://example.com/path?a=1") by (vm_compute; reflexivity).
  assert (N2 : UrlService.normalizeUrl (P:=Url.model) (CreateUrlDto.url Sample.post2)
               = "https://example.com/path?a=1") by (vm_compute; reflexivity).
  subst r1 r2. unfold UrlService.createShortUrl. rewrite N1, N2, Hs.
  cbn. repeat split.
Qed.

(** ** The redirect *)

Module RedirectFacts.

Import RedirectController.

Lemma tryCatch_swallow (m : M unit) (w : World) :
  exists w', tryCatch m (fun _ => ret tt) w = (Ok tt, w').
Proof.
  unfold tryCatch. destruct (m w) as [[[]|e] w'].
  - now exists w'.
  - now exists w'.
Qed.

(** [incrementHitCount] resolves whatever its collaborators do. *)
Lemma incrementHitCount_resolves {P : Url.Platform} (cfg : Config) (env : Env)
      (code : string) (w : World) :
  exists w', UrlService.incrementHitCount cfg env code w = (Ok tt, w').
Proof. apply tryCatch_swallow. Qed.

(** [recordHitEvent] resolves whatever its collaborators do. *)
Lemma recordHitEvent_resolves (env : Env) (code ip : string)
      (ua ref : option string) (w : World) :
  exists w', recordHitEvent env code ip ua ref w = (Ok tt, w').
Proof. apply tryCatch_swallow. Qed.

(** The answer of [redirect] for a well-formed code whose record is
    found. *)
Lemma redirect_found {P : Url.Platform} (cfg : Config) (env : Env)
      (code ip : string) (ua ref : option string) (w w1 : World) (url : UrlEntity.t) :
  JS.codeFormat code = true ->
  UrlService.findByCode cfg env code w = (Ok (Some url), w1) ->
  fst (redirect cfg env code ip ua ref w)
  = if UrlEntity.isExpired (now env) url then Ok gone
    else if negb (isValidRedirectUrl (UrlEntity.original url))
         then Throw (BadRequestException "Invalid redirect URL")
         else Ok (redirectTo (UrlEntity.original url)).
Proof.
  intros Hc Hf. unfold redirect. rewrite Hc.
  change (negb true) with false. cbv iota.
  unfold bind at 1. rewrite Hf.
  destruct (UrlEntity.isExpired (now env) url); [reflexivity|].
  destruct (isValidRedirectUrl (UrlEntity.original url)); [|reflexivity].
  change (negb true) with false. cbv iota. unfold bind.
  destruct (tryCatch_swallow (UrlService.incrementHitCount cfg env code) w1) as [w2 ->].
  destruct (recordHitEvent_resolves env code ip ua ref w2) as [w3 ->].
  reflexivity.
Qed.

Lemma statusCodeFor_redirect {P : Url.Platform} (original : string) :
  statusCodeFor original = 301 \/ statusCodeFor original = 302.
Proof. unfold statusCodeFor. destruct (getRedirectType original); auto. Qed.

End RedirectFacts.

(** C6: for a request with a well-formed code whose record is found, is
    not expired and passes the open-redirect check, the response is the
    301 or 302 chosen for the original URL with [Location] set to it,
    whatever the hit-count update, the user-agent parser, the geo
    lookup and the producer answer, failures included. *)
Theorem redirect_isolated_from_side_effects {P : Url.Platform}
    (cfg : Config) (env : Env) (code ip : string) (ua ref : option string)
    (w w1 : World) (url : UrlEntity.t) :
  JS.codeFormat code = true ->
  UrlService.findByCode cfg env code w = (Ok (Some url), w1) ->
  UrlEntity.isExpired (now env) url = false ->
  RedirectController.isValidRedirectUrl (UrlEntity.original url) = true ->
  forall (increment : Result unit) (parse : option string -> Result DeviceInfo)
         (geo : string -> Result (option GeoLocation)) (send : Result unit),
    let env' := mkEnv (now env) (nanoid env) (virusTotal_checkUrl env)
                      parse geo increment send in
    fst (RedirectController.redirect cfg env' code ip ua ref w)
    = Ok (RedirectController.mkResponse
            (RedirectController.statusCodeFor (UrlEntity.original url))
            (Some (UrlEntity.original url))
            RedirectController.securityHeaders None)
    /\ (RedirectController.statusCodeFor (UrlEntity.original url) = 301
        \/ RedirectController.statusCodeFor (UrlEntity.original url) = 302).
Proof.
  intros Hc Hf He Hv increment parse geo send env'.
  split; [|apply RedirectFacts.statusCodeFor_redirect].
  assert (Hf' : UrlService.findByCode cfg env' code w = (Ok (Some url), w1)) by exact Hf.
  rewrite (RedirectFacts.redirect_found cfg env' code ip ua ref w w1 url Hc Hf').
  change (now env') with (now env). now rewrite He, Hv.
Qed.

Lemma redirect_isolated_from_side_effects_witness :
  let url := Sample.record "gh1" "https://github.com/rocq" None in
  let w := Sample.worldWith url in
  let w1 := snd (UrlService.findByCode Sample.cfg (Sample.env 5000) "gh1" w) in
  JS.codeFormat "gh1" = true
  /\ UrlService.findByCode Sample.cfg (Sample.env 5000) "gh1" w
     = (Ok (Some url), w1)
  /\ UrlEntity.isExpired 5000 url = false
  /\ RedirectController.isValidRedirectUrl (P:=Url.model) (UrlEntity.original url) = true
  /\ fst (RedirectController.redirect (P:=Url.model) Sample.cfg (Sample.envFailing 5000)
            "gh1" "203.0.113.7" (Some "Mozilla/5.0") None w)
     = Ok (RedirectController.mkResponse 301 (Some "https://github.com/rocq")
             RedirectController.securityHeaders None).
Proof.
  intros url w w1.
  assert (Hc : JS.codeFormat "gh1" = true) by reflexivity.
  assert (Hf : UrlService.findByCode Sample.cfg (Sample.env 5000) "gh1" w
               = (Ok (Some url), w1)) by reflexivity.
  assert (He : UrlEntity.isExpired (now (Sample.env 5000)) url = false) by reflexivity.
  assert (Hv : RedirectController.isValidRedirectUrl (P:=Url.model) (UrlEntity.original url)
               = true) by reflexivity.
  split; [exact Hc|]. split; [exact Hf|]. split; [exact He|]. split; [exact Hv|].
  exact (proj1 (redirect_isolated_from_side_effects (P:=Url.model) Sample.cfg
                  (Sample.env 5000) "gh1" "203.0.113.7" (Some "Mozilla/5.0") None
                  w w1 url Hc Hf He Hv
                  (Throw (Error "connection to the database lost"))
                  (fun _ => Throw (Error "user agent parser failed"))
                  (fun _ => Throw (Error "geo lookup failed"))
                  (Throw (Error "broker not available")))).
Defined.

(** ** Dotted-decimal host names *)

Module Ipv4Facts.

Import RedirectController.

Lemma digit_not_dot (c : ascii) : JS.isDigit c = true -> Ascii.eqb c "." = false.
Proof.
  destruct c as [b0 b1 b2 b3 b4 b5 b6 b7].
  destruct b0, b1, b2, b3, b4, b5, b6, b7; try reflexivity; discriminate.
Qed.

Lemma split_digits_dot (s rest : string) :
  JS.all JS.isDigit s = true ->
  JS.split "." (s ++ "." ++ rest) = s :: JS.split "." rest.
Proof.
  induction s as [|c r IH]; intros H.
  - reflexivity.
  - simpl in H. apply andb_true_iff in H as [Hc Hr].
    change ((String c r ++ "." ++ rest)%string) with (String c (r ++ "." ++ rest)).
    cbn [JS.split]. rewrite (digit_not_dot c Hc), (IH Hr). reflexivity.
Qed.

Lemma split_digits (s : string) :
  JS.all JS.isDigit s = true -> JS.split "." s = [s].
Proof.
  induction s as [|c r IH]; intros H.
  - reflexivity.
  - simpl in H. apply andb_true_iff in H as [Hc Hr].
    cbn [JS.split]. rewrite (digit_not_dot c Hc), (IH Hr). reflexivity.
Qed.

Lemma octets_checked :
  forallb (fun n => JS.all JS.isDigit (JS.showNat n) && JS.digits1to3 (JS.showNat n)
                    && (JS.Number (JS.showNat n) =? Z.of_nat n))
          (seq 0 256) = true.
Proof. vm_compute. reflexivity. Qed.

(** The decimal spelling of an octet is one to three digits that read
    back as the octet. *)
Lemma octet_spelling (a : Z) :
  0 <= a <= 255 ->
  JS.all JS.isDigit (JS.showZ a) = true
  /\ JS.digits1to3 (JS.showZ a) = true
  /\ JS.Number (JS.showZ a) = a.
Proof.
  intros Ha. unfold JS.showZ.
  assert (Hin : In (Z.to_nat a) (seq 0 256)) by (apply in_seq; lia).
  pose proof (proj1 (forallb_forall _ _) octets_checked _ Hin) as H.
  cbv beta in H.
  apply andb_true_iff in H as [H H3]. apply andb_true_iff in H as [H1 H2].
  apply Z.eqb_eq in H3. rewrite Z2Nat.id in H3 by lia. auto.
Qed.

Lemma matchIpv4_dotted (a b c d : Z) :
  0 <= a <= 255 -> 0 <= b <= 255 -> 0 <= c <= 255 -> 0 <= d <= 255 ->
  matchIpv4 (dotted a b c d) = Some (a, b, c, d).
Proof.
  intros Ha Hb Hc Hd.
  destruct (octet_spelling a Ha) as (A1 & A2 & A3).
  destruct (octet_spelling b Hb) as (B1 & B2 & B3).
  destruct (octet_spelling c Hc) as (C1 & C2 & C3).
  destruct (octet_spelling d Hd) as (D1 & D2 & D3).
  unfold matchIpv4, dotted.
  rewrite (split_digits_dot _ _ A1), (split_digits_dot _ _ B1),
    (split_digits_dot _ _ C1), (split_digits _ D1).
  rewrite A2, B2, C2, D2. simpl. now rewrite A3, B3, C3, D3.
Qed.

(** The ranges 10/8, 172.16/12, 192.168/16, 169.254/16 and 127/8. *)
Lemma isPrivateIp_dotted (a b c d : Z) :
  0 <= a <= 255 -> 0 <= b <= 255 -> 0 <= c <= 255 -> 0 <= d <= 255 ->
  a = 10 \/ (a = 172 /\ 16 <= b <= 31) \/ (a = 192 /\ b = 168)
  \/ (a = 169 /\ b = 254) \/ a = 127 ->
  isPrivateIp (dotted a b c d) = true.
Proof.
  intros Ha Hb Hc Hd H. unfold isPrivateIp.
  rewrite (matchIpv4_dotted a b c d Ha Hb Hc Hd).
  destruct H as [H|[H|[H|[H|H]]]].
  - subst a. reflexivity.
  - destruct H as (Ea & H1 & H2). subst a.
    apply Z.leb_le in H1, H2. simpl. now rewrite H1, H2.
  - destruct H as (Ea & Eb). subst a b. reflexivity.
  - destruct H as (Ea & Eb). subst a b. reflexivity.
  - subst a. reflexivity.
Qed.

End Ipv4Facts.

(** ** The open-redirect check *)

Module GuardFacts.

Import RedirectController.

Lemma includes_In (arr : list string) (s : string) :
  JS.includes arr s = true <-> In s arr.
Proof.
  unfold JS.includes. rewrite existsb_exists. split.
  - intros (x & Hx & E). apply String.eqb_eq in E. now subst.
  - intros H. exists s. split; [exact H|apply String.eqb_refl].
Qed.

Lemma guard_refuses {P : Url.Platform} (original : string) (p : Url.URL) :
  Url.parseURL original = Some p ->
  (~ In (Url.protocol p) ["http:"; "https:"]
     \/ JS.toLowerCase (Url.hostname p) = "localhost"
     \/ JS.toLowerCase (Url.hostname p) = "127.0.0.1"
     \/ (exists a b c d,
            0 <= a <= 255 /\ 0 <= b <= 255 /\ 0 <= c <= 255 /\ 0 <= d <= 255
            /\ JS.toLowerCase (Url.hostname p) = RedirectController.dotted a b c d
            /\ (a = 10 \/ (a = 172 /\ 16 <= b <= 31) \/ (a = 192 /\ b = 168)
                \/ (a = 169 /\ b = 254) \/ a = 127))
     \/ (exists tld, In tld [".tk"; ".ml"; ".ga"; ".cf"]
                     /\ JS.endsWith (JS.toLowerCase (Url.hostname p)) tld = true)) ->
  isValidRedirectUrl original = false.
Proof.
  intros Hp Hbad. unfold isValidRedirectUrl. rewrite Hp.
  destruct (JS.includes ["http:"; "https:"] (Url.protocol p)) eqn:Eproto;
    [|reflexivity].
  change (negb true) with false. cbv iota.
  destruct Hbad as [H|[H|[H|[H|H]]]].
  - exfalso. apply H. now apply includes_In.
  - rewrite H. reflexivity.
  - rewrite H. reflexivity.
  - destruct H as (a & b & c & d & Ha & Hb & Hc & Hd & Hh & Hr).
    rewrite Hh, (Ipv4Facts.isPrivateIp_dotted a b c d Ha Hb Hc Hd Hr).
    now destruct (_ || _).
  - destruct H as (tld & Hin & He).
    assert (Hex : existsb (fun t => JS.endsWith (JS.toLowerCase (Url.hostname p)) t)
                         suspiciousTlds = true).
    { apply existsb_exists. exists tld. split; [exact Hin|exact He]. }
    rewrite Hex.
    destruct (_ || _); [reflexivity|].
    now destruct (isPrivateIp _).
Qed.

End GuardFacts.

(** C5 (amended): for a request with a well-formed code whose record is
    found, when the original URL of the record parses to a scheme other
    than http and https, to the host localhost or 127.0.0.1, to a
    dotted-decimal host in 10/8, 172.16/12, 192.168/16, 169.254/16 or
    127/8, or to a host name ending in .tk, .ml, .ga or .cf, the answer
    is never a redirect: it is the 400 [Invalid redirect URL] when the
    record has not expired and the 410 of an expired record
    otherwise. *)
Theorem redirect_refuses_unsafe_target {P : Url.Platform}
    (cfg : Config) (env : Env) (code ip : string) (ua ref : option string)
    (w w1 : World) (url : UrlEntity.t) (p : Url.URL) :
  JS.codeFormat code = true ->
  UrlService.findByCode cfg env code w = (Ok (Some url), w1) ->
  Url.parseURL (UrlEntity.original url) = Some p ->
  (~ In (Url.protocol p) ["http:"; "https:"]
     \/ JS.toLowerCase (Url.hostname p) = "localhost"
     \/ JS.toLowerCase (Url.hostname p) = "127.0.0.1"
     \/ (exists a b c d,
            0 <= a <= 255 /\ 0 <= b <= 255 /\ 0 <= c <= 255 /\ 0 <= d <= 255
            /\ JS.toLowerCase (Url.hostname p) = RedirectController.dotted a b c d
            /\ (a = 10 \/ (a = 172 /\ 16 <= b <= 31) \/ (a = 192 /\ b = 168)
                \/ (a = 169 /\ b = 254) \/ a = 127))
     \/ (exists tld, In tld [".tk"; ".ml"; ".ga"; ".cf"]
                     /\ JS.endsWith (JS.toLowerCase (Url.hostname p)) tld = true)) ->
  let r := fst (RedirectController.redirect cfg env code ip ua ref w) in
  RedirectController.isRedirect r = false
  /\ (UrlEntity.isExpired (now env) url = false ->
      r = Throw (BadRequestException "Invalid redirect URL")
      /\ RedirectController.httpStatus r = 400)
  /\ (UrlEntity.isExpired (now env) url = true ->
      r = Ok RedirectController.gone /\ RedirectController.httpStatus r = 410).
Proof.
  intros Hc Hf Hp Hbad r. subst r.
  rewrite (RedirectFacts.redirect_found cfg env code ip ua ref w w1 url Hc Hf).
  rewrite (GuardFacts.guard_refuses _ p Hp Hbad).
  destruct (UrlEntity.isExpired (now env) url); simpl; repeat split;
    try reflexivity; intros; discriminate.
Qed.

Lemma redirect_refuses_unsafe_target_witness :
  let url := Sample.record "loc1" "http://127.0.0.1/x" None in
  let w := Sample.worldWith url in
  let p := Url.mkURL "http:" "" "" "127.0.0.1" "" "/x" [] None in
  JS.codeFormat "loc1" = true
  /\ Url.modelParse (UrlEntity.original url) = Some p
  /\ JS.toLowerCase (Url.hostname p) = "127.0.0.1"
  /\ UrlEntity.isExpired 5000 url = false
  /\ fst (RedirectController.redirect (P:=Url.model) Sample.cfg (Sample.env 5000)
            "loc1" "203.0.113.7" (Some "Mozilla/5.0") None w)
     = Throw (BadRequestException "Invalid redirect URL").
Proof.
  intros url w p.
  assert (Hc : JS.codeFormat "loc1" = true) by reflexivity.
  assert (Hf : UrlService.findByCode Sample.cfg (Sample.env 5000) "loc1" w
               = (Ok (Some url),
                  snd (UrlService.findByCode Sample.cfg (Sample.env 5000) "loc1" w)))
    by reflexivity.
  assert (Hp : Url.parseURL (Platform:=Url.model) (UrlEntity.original url) = Some p)
    by reflexivity.
  assert (Hbad : JS.toLowerCase (Url.hostname p) = "127.0.0.1") by reflexivity.
  assert (He : UrlEntity.isExpired (now (Sample.env 5000)) url = false) by reflexivity.
  split; [exact Hc|]. split; [exact Hp|]. split; [exact Hbad|]. split; [exact He|].
  exact (proj1 (proj1 (proj2 (redirect_refuses_unsafe_target (P:=Url.model) Sample.cfg
                  (Sample.env 5000) "loc1" "203.0.113.7" (Some "Mozilla/5.0") None
                  w _ url p Hc Hf Hp (or_intror (or_intror (or_introl Hbad))))) He)).
Defined.

(** C5 (as stated) fails: the expiry check comes first, so an expired
    record whose original URL has the scheme ftp is answered with 410,
    not with the 400 of the open-redirect check. *)
Lemma redirect_expired_unsafe_target_is_gone :
  let url := Sample.record "old1" "ftp://example.com" (Some 1000) in
  let r := fst (RedirectController.redirect (P:=Url.model) Sample.cfg (Sample.env 2000)
                  "old1" "203.0.113.7" (Some "Mozilla/5.0") None (Sample.worldWith url)) in
  Url.modelParse (UrlEntity.original url)
  = Some (Url.mkURL "ftp:" "" "" "example.com" "" "/" [] None)
  /\ r = Ok RedirectController.gone
  /\ RedirectController.httpStatus r = 410
  /\ RedirectController.httpStatus r <> 400.
Proof.
  vm_compute. repeat split. discriminate.
Qed.

(** The comparison with [::1] never holds for a parsed URL: the
    platform writes an IPv6 host in brackets, and a record pointing at
    the IPv6 loopback address is redirected to. *)
Lemma redirect_ipv6_loopback :
  let url := Sample.record "v6lo" "http://[::1]/admin" None in
  Url.hostname (Url.mkURL "http:" "" "" "[::1]" "" "/admin" [] None) = "[::1]"
  /\ Url.modelParse (UrlEntity.original url)
     = Some (Url.mkURL "http:" "" "" "[::1]" "" "/admin" [] None)
  /\ fst (RedirectController.redirect (P:=Url.model) Sample.cfg (Sample.env 2000)
            "v6lo" "203.0.113.7" (Some "Mozilla/5.0") None (Sample.worldWith url))
     = Ok (RedirectController.mkResponse 302 (Some "http://[::1]/admin")
             RedirectController.securityHeaders None).
Proof.
  vm_compute. repeat split.
Qed.

(** ** Expiry *)

Lemma isExpired_iff (now : Z) (u : UrlEntity.t) :
  UrlEntity.isExpired now u = true <-> exists e, UrlEntity.expiresAt u = Some e /\ e < now.
Proof.
  unfold UrlEntity.isExpired. destruct (UrlEntity.expiresAt u) as [e|].
  - rewrite Z.gtb_ltb, Z.ltb_lt. split.
    + intros H. now exists e.
    + intros (e' & E & H). now injection E as ->.
  - split; [discriminate|]. intros (e & E & _). discriminate.
Qed.

(** At the instant of expiry the record is not expired for
    [isExpired], and the request is redirected; the [expired] filter of
    the listing, [expiresAt <= :now], selects the same record at the
    same instant. *)
Lemma redirect_at_expiry_instant :
  let url := Sample.record "abc123" "https://example.com/page" (Some 1000) in
  let r := fst (RedirectController.redirect (P:=Url.model) Sample.cfg (Sample.env 1000)
                  "abc123" "203.0.113.7" (Some "Mozilla/5.0") None (Sample.worldWith url)) in
  UrlEntity.isExpired 1000 url = false
  /\ r = Ok (RedirectController.mkResponse 302 (Some "https://example.com/page")
               RedirectController.securityHeaders None)
  /\ RedirectController.httpStatus r = 302
  /\ UrlService.whereExpired 1000 url = true.
Proof.
  vm_compute. repeat split.
Qed.

(** C2 (amended): for a request with a well-formed code whose record
    is found and whose expiry instant, if any, is not the instant of
    the request, the answer is 410 if and only if the record has an
    expiry instant at or before that of the request, and it is a 301 or
    302 redirect if and only if the record has no expiry instant or a
    later one and its original URL passes the open-redirect check. *)
Theorem redirect_status_by_expiry {P : Url.Platform}
    (cfg : Config) (env : Env) (code ip : string) (ua ref : option string)
    (w w1 : World) (url : UrlEntity.t) :
  JS.codeFormat code = true ->
  UrlService.findByCode cfg env code w = (Ok (Some url), w1) ->
  UrlEntity.expiresAt url <> Some (now env) ->
  let r := fst (RedirectController.redirect cfg env code ip ua ref w) in
  (RedirectController.httpStatus r = 410
   <-> exists e, UrlEntity.expiresAt url = Some e /\ e <= now env)
  /\ (RedirectController.isRedirect r = true
      <-> (UrlEntity.expiresAt url = None
           \/ exists e, UrlEntity.expiresAt url = Some e /\ now env < e)
          /\ RedirectController.isValidRedirectUrl (UrlEntity.original url) = true).
Proof.
  intros Hc Hf Hne r. subst r.
  rewrite (RedirectFacts.redirect_found cfg env code ip ua ref w w1 url Hc Hf).
  unfold UrlEntity.isExpired.
  assert (Hredir : forall o, RedirectController.isRedirect
                               (Ok (RedirectController.redirectTo o)) = true
                             /\ RedirectController.httpStatus
                                  (Ok (RedirectController.redirectTo o)) <> 410).
  { intros o. unfold RedirectController.redirectTo, RedirectController.statusCodeFor.
    destruct (RedirectController.getRedirectType o); split; simpl;
      try reflexivity; discriminate. }
  destruct (UrlEntity.expiresAt url) as [e|] eqn:Ee.
  - destruct (now env >? e) eqn:E.
    + apply Z.gtb_lt in E. split.
      * split; [intros _; exists e; split; [reflexivity|lia]|reflexivity].
      * split; [discriminate|].
        intros [[H|(e' & He' & H)] _]; [discriminate|]. injection He' as <-. lia.
    + rewrite Z.gtb_ltb in E. apply Z.ltb_ge in E.
      assert (Hlt : now env < e).
      { destruct (Z.eq_dec e (now env)) as [->|]; [now contradiction Hne|lia]. }
      destruct (RedirectController.isValidRedirectUrl (UrlEntity.original url)); simpl.
      * destruct (Hredir (UrlEntity.original url)) as [H1 H2]. split.
        -- split; [intros H; now contradiction H2|].
           intros (e' & He' & H). injection He' as <-. lia.
        -- split; [intros _; split; [right; exists e; split; [reflexivity|exact Hlt]|reflexivity]|].
           intros _. exact H1.
      * split.
        -- split; [discriminate|]. intros (e' & He' & H). injection He' as <-. lia.
        -- split; [discriminate|]. intros [_ H]. discriminate.
  - destruct (RedirectController.isValidRedirectUrl (UrlEntity.original url)); simpl.
    + destruct (Hredir (UrlEntity.original url)) as [H1 H2]. split.
      * split; [intros H; now contradiction H2|]. intros (e' & He' & _). discriminate.
      * split; [intros _; split; [now left|reflexivity]|]. intros _. exact H1.
    + split.
      * split; [discriminate|]. intros (e' & He' & _). discriminate.
      * split; [discriminate|]. intros [_ H]. discriminate.
Qed.

Lemma redirect_status_by_expiry_witness :
  let url := Sample.record "abc123" "https://example.com/page" (Some 2000) in
  let w := Sample.worldWith url in
  let r := fst (RedirectController.redirect (P:=Url.model) Sample.cfg (Sample.env 1000)
                  "abc123" "203.0.113.7" (Some "Mozilla/5.0") None w) in
  JS.codeFormat "abc123" = true
  /\ UrlService.findByCode Sample.cfg (Sample.env 1000) "abc123" w
     = (Ok (Some url), snd (UrlService.findByCode Sample.cfg (Sample.env 1000) "abc123" w))
  /\ UrlEntity.expiresAt url <> Some 1000
  /\ (RedirectController.httpStatus r = 410
      <-> exists e, UrlEntity.expiresAt url = Some e /\ e <= 1000)
  /\ (RedirectController.isRedirect r = true
      <-> (UrlEntity.expiresAt url = None
           \/ exists e, UrlEntity.expiresAt url = Some e /\ 1000 < e)
          /\ RedirectController.isValidRedirectUrl (P:=Url.model) (UrlEntity.original url)
             = true).
Proof.
  intros url w r.
  assert (Hc : JS.codeFormat "abc123" = true) by reflexivity.
  assert (Hf : UrlService.findByCode Sample.cfg (Sample.env 1000) "abc123" w
               = (Ok (Some url),
                  snd (UrlService.findByCode Sample.cfg (Sample.env 1000) "abc123" w)))
    by reflexivity.
  assert (Hne : UrlEntity.expiresAt url <> Some (now (Sample.env 1000))) by discriminate.
  split; [exact Hc|]. split; [exact Hf|]. split; [exact Hne|].
  exact (redirect_status_by_expiry (P:=Url.model) Sample.cfg (Sample.env 1000)
           "abc123" "203.0.113.7" (Some "Mozilla/5.0") None w _ url Hc Hf Hne).
Defined.

(** C2 (as stated) fails on both sides: a record without expiry whose
    original URL has the scheme ftp is answered with 400, not with a
    redirect; and a record whose expiry instant is the instant of the
    request is answered with the 302 redirect, not with 410. *)
Lemma redirect_not_decided_by_expiry_alone :
  (let url := Sample.record "ftp1" "ftp://example.com" None in
   let r := fst (RedirectController.redirect (P:=Url.model) Sample.cfg (Sample.env 1000)
                   "ftp1" "203.0.113.7" (Some "Mozilla/5.0") None (Sample.worldWith url)) in
   UrlEntity.expiresAt url = None
   /\ r = Throw (BadRequestException "Invalid redirect URL")
   /\ RedirectController.httpStatus r = 400)
  /\ (let url := Sample.record "abc123" "https://example.com/page" (Some 1000) in
      let r := fst (RedirectController.redirect (P:=Url.model) Sample.cfg (Sample.env 1000)
                      "abc123" "203.0.113.7" (Some "Mozilla/5.0") None
                      (Sample.worldWith url)) in
      UrlEntity.expiresAt url = Some 1000
      /\ RedirectController.httpStatus r = 302).
Proof.
  vm_compute. repeat split.
Qed.

(** ** Statistics *)

(** The filter of the second count selects no row: its condition is
    unknown for every value of the column. *)
Lemma getUrlStats_expired_zero (w : World) :
  UrlService.getUrlStats w
  = UrlService.mkUrlStats (Z.of_nat (List.length (urls w)))
                          (Z.of_nat (List.length (urls w))) 0.
Proof.
  unfold UrlService.getUrlStats.
  assert (E : filter (fun u => UrlService.selects
                                 (UrlService.andObjects
                                    (UrlService.NotOperator UrlService.IsNull)
                                    (UrlService.NotValue None))
                                 (UrlEntity.expiresAt u)) (urls w) = []).
  { induction (urls w) as [|u l IH]; [reflexivity|].
    cbn [filter]. destruct (UrlEntity.expiresAt u); exact IH. }
  rewrite E. cbn [List.length]. f_equal. lia.
Qed.

(** C1: [getUrlStats] reports no record as expired, whatever the
    table holds and whatever the time: [expired] is 0 and [active] is
    [total].  With the three records of the repository's own test, one
    without expiry, one expiring in the future and one expired in the
    past, it answers total 3, active 3, expired 0, where the [expired]
    filter of the listing selects one record. *)
Theorem getUrlStats_reports_no_expired_record :
  (forall w : World,
     UrlService.expired (UrlService.getUrlStats w) = 0
     /\ UrlService.active (UrlService.getUrlStats w)
        = UrlService.total (UrlService.getUrlStats w))
  /\ (let w := mkWorld [ Sample.record "ex1" "https://example1.com/" None;
                         Sample.record "ex2" "https://example2.com/" (Some 160000);
                         Sample.record "ex3" "https://example3.com/" (Some 40000) ]
                       [] 0 [] in
      Z.of_nat (List.length (filter (UrlService.whereExpired 100000) (urls w))) = 1
      /\ UrlService.getUrlStats w = UrlService.mkUrlStats 3 3 0).
Proof.
  split.
  - intros w. rewrite getUrlStats_expired_zero. split; reflexivity.
  - split; reflexivity.
Qed.

(** ** The analytics store *)

Module StoreFacts.

Import CassandraService.

Section WithHash.

Context (sha256hex : string -> string).

(** The tables a batch of [recordHitEvent] leaves behind, one by
    one. *)
Lemma batch_access_times (ev : HitEventDto.t) (t : Z) (s : Store) :
  access_times (batch (queriesFor sha256hex ev t) s)
  = upsert String.eqb (orElse (HitEventDto.code ev) "") (fun _ => (t, t))
           (access_times s).
Proof.
  unfold queriesFor, batch.
  destruct (truthyO (HitEventDto.referrer ev) && _),
           (truthyO (HitEventDto.country ev)),
           (truthyO (HitEventDto.deviceType ev) || _ || _); reflexivity.
Qed.

Lemma batch_hits_by_hour (ev : HitEventDto.t) (t : Z) (s : Store) :
  hits_by_hour (batch (queriesFor sha256hex ev t) s)
  = upsert eqbHour (orElse (HitEventDto.code ev) "", dateOf t, hourOf t) plus1both
           (hits_by_hour s).
Proof.
  unfold queriesFor, batch.
  destruct (truthyO (HitEventDto.referrer ev) && _),
           (truthyO (HitEventDto.country ev)),
           (truthyO (HitEventDto.deviceType ev) || _ || _); reflexivity.
Qed.

Lemma lookup_upsert_same {V} (k : string) (f : option V -> V) (t : list (string * V)) :
  lookup String.eqb k (upsert String.eqb k f t)
  = Some (f (lookup String.eqb k t)).
Proof.
  unfold lookup. induction t as [|[k' v] r IH]; simpl.
  - now rewrite String.eqb_refl.
  - destruct (String.eqb k k') eqn:E; simpl; rewrite E.
    + reflexivity.
    + exact IH.
Qed.

(** After an event is recorded, both access times of its code are
    the instant of that event. *)
Lemma getAccessTimes_after_record (ev : HitEventDto.t) (t : Z) (s s' : Store) :
  HitEventDto.timestamp ev = Some (JsDate.instant t) ->
  recordHitEvent sha256hex ev s = Ok s' ->
  getAccessTimes (orElse (HitEventDto.code ev) "") s' = (Some t, Some t).
Proof.
  intros Ht Hr. unfold recordHitEvent in Hr. rewrite Ht in Hr.
  assert (E : s' = batch (queriesFor sha256hex ev t) s) by congruence.
  subst s'. unfold getAccessTimes.
  now rewrite batch_access_times, lookup_upsert_same.
Qed.

End WithHash.

End StoreFacts.

(** C3: after the three events of 12:00:00Z, 12:00:30Z and 13:00:00Z
    are recorded in that order, both [first_accessed] and
    [last_accessed] are 13:00:00Z: every event overwrites both columns
    with its own instant, so the first access time is not the
    minimum. *)
Theorem recordHitEvent_overwrites_first_accessed (sha256hex : string -> string) :
  CassandraService.getAccessTimes "c"
    (CassandraService.recordAll sha256hex Sample.threeHits CassandraService.emptyStore)
  = (Some Sample.onePm, Some Sample.onePm)
  /\ Sample.noon < Sample.onePm.
Proof.
  split; [|reflexivity].
  unfold CassandraService.recordAll, Sample.threeHits. cbn [fold_left].
  destruct (CassandraService.recordHitEvent sha256hex
              (Sample.hit "c" Sample.onePm "198.51.100.3" "Mozilla/5.0") _) as [s'|e] eqn:E.
  - exact (StoreFacts.getAccessTimes_after_record sha256hex
             (Sample.hit "c" Sample.onePm "198.51.100.3" "Mozilla/5.0") Sample.onePm
             _ s' eq_refl E).
  - discriminate E.
Qed.

(** ** Sorting and the top referrers *)

Module SortFacts.

Import CassandraService.

Section Sorting.

Context {A : Type} (cmp : A -> A -> Z) (R : A -> A -> Prop).
Hypothesis cmp_neg : forall a b, cmp a b < 0 -> R a b.
Hypothesis cmp_nonneg : forall a b, 0 <= cmp a b -> R b a.

Lemma insertBy_perm (x : A) (l : list A) : Permutation (insertBy cmp x l) (x :: l).
Proof.
  induction l as [|y r IH]; simpl.
  - apply Permutation_refl.
  - destruct (cmp y x <? 0).
    + eapply Permutation_trans; [apply perm_skip, IH|apply perm_swap].
    + apply Permutation_refl.
Qed.

Lemma sortBy_perm (l : list A) : Permutation (sortBy cmp l) l.
Proof.
  induction l as [|x r IH]; simpl.
  - apply Permutation_refl.
  - eapply Permutation_trans; [apply insertBy_perm|now apply perm_skip].
Qed.

Lemma insertBy_HdRel (a x : A) (l : list A) :
  HdRel R a l -> R a x -> HdRel R a (insertBy cmp x l).
Proof.
  intros H Hax. destruct l as [|y r]; simpl.
  - now constructor.
  - destruct (cmp y x <? 0); constructor; [now inversion H|exact Hax].
Qed.

Lemma insertBy_Sorted (x : A) (l : list A) :
  Sorted R l -> Sorted R (insertBy cmp x l).
Proof.
  induction l as [|y r IH]; intros H; simpl.
  - repeat constructor.
  - inversion H as [|? ? Hr Hhd]; subst.
    destruct (cmp y x <? 0) eqn:E.
    + apply Z.ltb_lt in E. constructor.
      * now apply IH.
      * apply insertBy_HdRel; [exact Hhd|now apply cmp_neg].
    + apply Z.ltb_ge in E. constructor; [exact H|].
      constructor. now apply cmp_nonneg.
Qed.

Lemma sortBy_Sorted (l : list A) : Sorted R (sortBy cmp l).
Proof.
  induction l as [|x r IH]; simpl.
  - constructor.
  - now apply insertBy_Sorted.
Qed.

Lemma Sorted_firstn (n : nat) (l : list A) : Sorted R l -> Sorted R (firstn n l).
Proof.
  revert l. induction n as [|n IH]; intros l H.
  - constructor.
  - destruct l as [|x r]; [constructor|]. simpl.
    inversion H as [|? ? Hr Hhd]; subst. constructor.
    + now apply IH.
    + destruct r as [|y r']; [destruct n; constructor|].
      destruct n; simpl; constructor. now inversion Hhd.
Qed.

End Sorting.

Lemma Sorted_map {A B} (f : A -> B) (R : B -> B -> Prop) (l : list A) :
  Sorted (fun a b => R (f a) (f b)) l -> Sorted R (map f l).
Proof.
  induction 1 as [|x l Hs IH Hhd]; simpl.
  - constructor.
  - constructor; [exact IH|]. destruct Hhd; simpl; now constructor.
Qed.

(** The entries come out by descending hits. *)
Lemma getTopReferrers_sorted (code : string) (limit : nat) (s : Store) :
  Sorted (fun a b => rs_hits b <= rs_hits a) (getTopReferrers code limit s).
Proof.
  unfold getTopReferrers.
  apply (Sorted_map (fun ref : string * Z => mkReferrerStat (fst ref) (snd ref) _)
           (fun a b => rs_hits b <= rs_hits a)).
  simpl. apply Sorted_firstn.
  apply (sortBy_Sorted (fun a b : string * Z => snd b - snd a)
           (fun a b => snd b <= snd a)); intros a b H; lia.
Qed.

(** At most [limit] entries come out. *)
Lemma getTopReferrers_length (code : string) (limit : nat) (s : Store) :
  (List.length (getTopReferrers code limit s) <= limit)%nat.
Proof.
  unfold getTopReferrers. rewrite length_map. apply firstn_le_length.
Qed.

Lemma fold_add_acc (l : list Z) (acc : Z) :
  fold_left Z.add l acc = acc + fold_left Z.add l 0.
Proof.
  revert acc. induction l as [|x r IH]; intros acc; simpl.
  - lia.
  - rewrite (IH (acc + x)), (IH x). lia.
Qed.

Lemma sumZ_cons (x : Z) (l : list Z) : sumZ (x :: l) = x + sumZ l.
Proof. unfold sumZ. simpl. apply fold_add_acc. Qed.

Lemma fold_add_map {A} (f : A -> Z) (l : list A) (acc : Z) :
  fold_left (fun sum x => sum + f x) l acc = acc + sumZ (map f l).
Proof.
  revert acc. induction l as [|x r IH]; intros acc.
  - unfold sumZ. simpl. lia.
  - cbn [fold_left map]. rewrite IH, sumZ_cons. lia.
Qed.

(** Every percentage is taken over the hits of the entries that come
    out, not over all the rows of the code. *)
Lemma getTopReferrers_percentage (code : string) (limit : nat) (s : Store) :
  let top := getTopReferrers code limit s in
  Forall (fun r => rs_percentage r = percentageOf (rs_hits r) (sumZ (map rs_hits top))) top.
Proof.
  unfold getTopReferrers. cbv zeta.
  set (rows := firstn limit _).
  rewrite map_map. cbn [rs_hits].
  rewrite fold_add_map, Z.add_0_l.
  apply Forall_forall. intros r Hr.
  apply in_map_iff in Hr as (ref & <- & _). reflexivity.
Qed.

End SortFacts.

(** C8: with eleven referrer rows for a code, one of 5 hits and ten of
    10 hits, the ten entries returned are those of 10 hits and each
    carries the percentage 10, that is 100 * 10 / 100 over the returned
    rows, while the rows of the code sum to 105 and 100 * 10 / 105 is
    not 10. *)
Theorem getTopReferrers_percentage_over_returned_rows :
  let top := CassandraService.getTopReferrers "c" 10 Sample.elevenReferrers in
  map CassandraService.rs_hits top = [10; 10; 10; 10; 10; 10; 10; 10; 10; 10]
  /\ Forall (fun r => CassandraService.rs_percentage r == 10) top
  /\ CassandraService.sumZ
       (map snd (CassandraService.selectReferrers "c" Sample.elevenReferrers)) = 105
  /\ ~ (100 * inject_Z 10 / inject_Z 105 == 10).
Proof.
  split; [reflexivity|]. split; [|split; [reflexivity|]].
  - repeat constructor.
  - intros H. vm_compute in H. discriminate H.
Qed.

(** ** The consumer *)

Module ConsumerFacts.

Import AnalyticsConsumerService.

(** What [isValidHitEvent] accepts: the window check lets the
    Invalid Date through. *)
Lemma isValidHitEvent_iff (now : Z) (ev : HitEventDto.t) :
  isValidHitEvent now ev = true
  <-> truthyO (HitEventDto.code ev) = true
      /\ truthyO (HitEventDto.ip ev) = true
      /\ truthyO (HitEventDto.userAgent ev) = true
      /\ (HitEventDto.timestamp ev = Some JsDate.invalid
          \/ exists t, HitEventDto.timestamp ev = Some (JsDate.instant t)
                       /\ now - 86400000 <= t <= now + 300000)
      /\ ipRegex (orElse (HitEventDto.ip ev) "") = true.
Proof.
  unfold isValidHitEvent.
  destruct (truthyO (HitEventDto.code ev)); simpl;
    [|split; [discriminate|intros (H & _); discriminate]].
  destruct (HitEventDto.timestamp ev) as [[t|]|]; simpl.
  3:{ split; [discriminate|].
      intros (_ & _ & _ & [H|(t & H & _)] & _); discriminate. }
  - destruct (truthyO (HitEventDto.ip ev)); simpl;
      [|split; [discriminate|intros (_ & H & _); discriminate]].
    destruct (truthyO (HitEventDto.userAgent ev)); simpl;
      [|split; [discriminate|intros (_ & _ & H & _); discriminate]].
    change maxAge with 86400000. change maxFuture with 300000.
    destruct (t <? now - 86400000) eqn:E1; simpl.
    { apply Z.ltb_lt in E1. split; [discriminate|].
      intros (_ & _ & _ & [Ht|(t' & Ht & H)] & _); [discriminate Ht|].
      assert (t' = t) by congruence. lia. }
    apply Z.ltb_ge in E1.
    destruct (t >? now + 300000) eqn:E2.
    { apply Z.gtb_lt in E2. split; [discriminate|].
      intros (_ & _ & _ & [Ht|(t' & Ht & H)] & _); [discriminate Ht|].
      assert (t' = t) by congruence. lia. }
    rewrite Z.gtb_ltb in E2. apply Z.ltb_ge in E2.
    destruct (ipRegex (orElse (HitEventDto.ip ev) "")); simpl.
    + split; [|reflexivity]. intros _. repeat split; try reflexivity.
      right. exists t. split; [reflexivity|lia].
    + split; [discriminate|]. intros (_ & _ & _ & _ & H). discriminate.
  - destruct (truthyO (HitEventDto.ip ev)); simpl;
      [|split; [discriminate|intros (_ & H & _); discriminate]].
    destruct (truthyO (HitEventDto.userAgent ev)); simpl;
      [|split; [discriminate|intros (_ & _ & H & _); discriminate]].
    destruct (ipRegex (orElse (HitEventDto.ip ev) "")); simpl.
    + split; [|reflexivity]. intros _. repeat split; try reflexivity. now left.
    + split; [discriminate|]. intros (_ & _ & _ & _ & H). discriminate.
Qed.

End ConsumerFacts.


(** With a driver that refuses the Invalid Date, the events that are
    applied are the ones that are passed on with an instant. *)
Lemma processHitEvent_success_iff
    (sha256hex : string -> string) (now : Z) (ev : HitEventDto.t)
    (s : CassandraService.Store) :
  fst (AnalyticsConsumerService.processHitEvent sha256hex now ev s)
  = AnalyticsConsumerService.success
  <-> truthyO (HitEventDto.code ev) = true
      /\ truthyO (HitEventDto.ip ev) = true
      /\ truthyO (HitEventDto.userAgent ev) = true
      /\ (exists t, HitEventDto.timestamp ev = Some (JsDate.instant t)
                    /\ now - 86400000 <= t <= now + 300000)
      /\ AnalyticsConsumerService.ipRegex (orElse (HitEventDto.ip ev) "") = true.
Proof.
  unfold AnalyticsConsumerService.processHitEvent.
  destruct (AnalyticsConsumerService.isValidHitEvent now ev) eqn:E; cbn [negb].
  - apply ConsumerFacts.isValidHitEvent_iff in E as (H1 & H2 & H3 & H4 & H5).
    unfold CassandraService.recordHitEvent.
    destruct (HitEventDto.timestamp ev) as [[t|]|]; cbn [fst].
    + split; [|reflexivity]. intros _. repeat split; try assumption.
      destruct H4 as [H4|(t' & H4 & Hw)]; [discriminate H4|].
      exists t. split; [reflexivity|]. assert (t' = t) by congruence. lia.
    + split; [discriminate|]. intros (_ & _ & _ & (t & Ht & _) & _). discriminate Ht.
    + split; [discriminate|]. intros (_ & _ & _ & (t & Ht & _) & _). discriminate Ht.
  - cbn [fst]. split; [discriminate|]. intros (H1 & H2 & H3 & (t & Ht & Hw) & H5).
    assert (X : AnalyticsConsumerService.isValidHitEvent now ev = true).
    { apply ConsumerFacts.isValidHitEvent_iff. repeat split; try assumption.
      right. exists t. auto. }
    rewrite X in E. discriminate E.
Qed.


(** An event whose timestamp the decoder could not read carries the
    Invalid Date: it is not skipped, although no instant of it lies in
    the window. *)
Lemma processHitEvent_passes_on_invalid_date :
  let ev := HitEventDto.mk (Some "c") (Some JsDate.invalid) (Some "198.51.100.1")
              (Some "Mozilla/5.0") (Some "direct") None None None None None in
  AnalyticsConsumerService.isValidHitEvent Sample.noon ev = true
  /\ fst (AnalyticsConsumerService.processHitEvent Sample.digest Sample.noon ev
            CassandraService.emptyStore)
     <> AnalyticsConsumerService.skipped.
Proof. split; [reflexivity|]. intros H. discriminate H. Qed.

(** ** Totals *)

Module TotalsFacts.

Import CassandraService.

(** The sum of a column over the selected rows grows by one when the
    row of a selected key is incremented, and stays when the key is
    not selected. *)
Lemma sum_upsert_plus1both (sel : HourKey -> bool) (col : Z * Z -> Z) (k : HourKey)
      (t : list (HourKey * (Z * Z))) :
  (forall k', eqbHour k k' = true -> sel k' = sel k) ->
  (forall c u, col (c + 1, u + 1) = col (c, u) + 1) ->
  col (1, 1) = 1 ->
  sumZ (map (fun row => col (snd row))
            (filter (fun row => sel (fst row)) (upsert eqbHour k plus1both t)))
  = sumZ (map (fun row => col (snd row)) (filter (fun row => sel (fst row)) t))
    + (if sel k then 1 else 0).
Proof.
  intros Hsel Hcol H1. induction t as [|[k' [c u]] r IH]; simpl.
  - destruct (sel k); simpl.
    + rewrite SortFacts.sumZ_cons, H1. reflexivity.
    + reflexivity.
  - destruct (eqbHour k k') eqn:E; simpl.
    + rewrite (Hsel k' E). destruct (sel k); simpl.
      * rewrite !SortFacts.sumZ_cons, Hcol. simpl. lia.
      * lia.
    + destruct (sel k'); simpl.
      * rewrite !SortFacts.sumZ_cons, IH. simpl. lia.
      * exact IH.
Qed.

Lemma eqbHour_eq (a b : HourKey) : eqbHour a b = true -> a = b.
Proof.
  destruct a as [[c1 d1] h1], b as [[c2 d2] h2]. simpl.
  intros H. apply andb_true_iff in H as [H H3]. apply andb_true_iff in H as [H1 H2].
  apply String.eqb_eq in H1. apply Z.eqb_eq in H2, H3. now subst.
Qed.

Section WithHash.

Context (sha256hex : string -> string).

Lemma getTotalStats_after_record (code : string) (startDate endDate : option Z)
      (ev : HitEventDto.t) (t : Z) (s : Store) :
  let s' := batch (queriesFor sha256hex ev t) s in
  let k := (orElse (HitEventDto.code ev) "", dateOf t, hourOf t) in
  totalHits (getTotalStats code startDate endDate s')
  = totalHits (getTotalStats code startDate endDate s)
    + (if whereCodeAndRange code startDate endDate k then 1 else 0)
  /\ uniqueVisitors (getTotalStats code startDate endDate s')
     = uniqueVisitors (getTotalStats code startDate endDate s)
       + (if whereCodeAndRange code startDate endDate k then 1 else 0).
Proof.
  intros s' k. subst s'. unfold getTotalStats. cbn [totalHits uniqueVisitors].
  rewrite StoreFacts.batch_hits_by_hour. fold k.
  split.
  - apply (sum_upsert_plus1both (whereCodeAndRange code startDate endDate) fst k).
    + intros k' E. apply eqbHour_eq in E. now subst.
    + reflexivity.
    + reflexivity.
  - apply (sum_upsert_plus1both (whereCodeAndRange code startDate endDate) snd k).
    + intros k' E. apply eqbHour_eq in E. now subst.
    + reflexivity.
    + reflexivity.
Qed.

Lemma recordAll_cons (ev : HitEventDto.t) (evs : list HitEventDto.t) (s : Store) :
  recordAll sha256hex (ev :: evs) s
  = recordAll sha256hex evs
      match recordHitEvent sha256hex ev s with
      | Ok s' => s'
      | Throw _ => s
      end.
Proof. reflexivity. Qed.

(** Recording a sequence of events adds to both totals the number
    of events that carry a timestamp and fall under the query. *)
Lemma getTotalStats_recordAll (code : string) (startDate endDate : option Z)
      (evs : list HitEventDto.t) (s : Store) :
  let n := Z.of_nat (List.length (filter (fun ev =>
             match HitEventDto.timestamp ev with
             | Some (JsDate.instant t) =>
                 whereCodeAndRange code startDate endDate
                   (orElse (HitEventDto.code ev) "", dateOf t, hourOf t)
             | _ => false
             end) evs)) in
  totalHits (getTotalStats code startDate endDate (recordAll sha256hex evs s))
  = totalHits (getTotalStats code startDate endDate s) + n
  /\ uniqueVisitors (getTotalStats code startDate endDate (recordAll sha256hex evs s))
     = uniqueVisitors (getTotalStats code startDate endDate s) + n.
Proof.
  cbv zeta. revert s. induction evs as [|ev evs IH]; intros s.
  - simpl. split; lia.
  - rewrite recordAll_cons. cbn [filter].
    unfold recordHitEvent.
    destruct (HitEventDto.timestamp ev) as [[t|]|].
    + destruct (IH (batch (queriesFor sha256hex ev t) s)) as [IH1 IH2].
      destruct (getTotalStats_after_record code startDate endDate ev t s) as [H1 H2].
      rewrite IH1, IH2, H1, H2.
      destruct (whereCodeAndRange code startDate endDate _); cbn [List.length];
        split; lia.
    + apply IH.
    + apply IH.
Qed.

End WithHash.

End TotalsFacts.


(* ================================================================== *)
(** * Part III. Further results on the same code                        *)
(* ================================================================== *)

(** ** The cache and the lookups of [UrlService] *)

Module CacheFacts.

Lemma find_filter_out {A} (key : string) (l : list (string * A)) :
  find (fun kv => String.eqb (fst kv) key)
       (filter (fun kv => negb (String.eqb (fst kv) key)) l) = None.
Proof.
  induction l as [|[k v] r IH]; simpl.
  - reflexivity.
  - destruct (String.eqb k key) eqn:E; simpl.
    + exact IH.
    + now rewrite E.
Qed.

Lemma get_del (now : Z) (key : string) (w : World) :
  RedisService.get now key (RedisService.del key w) = None.
Proof.
  unfold RedisService.get, RedisService.del. simpl. now rewrite find_filter_out.
Qed.

Lemma get_setex (now now' : Z) (key : string) (ttl : Z) (v : CachedUrl) (w : World) :
  RedisService.get now' key (RedisService.setex now key ttl v w)
  = if now' <? now + ttl * 1000 then Some v else None.
Proof.
  unfold RedisService.get, RedisService.setex. simpl. now rewrite String.eqb_refl.
Qed.

Lemma set_urls_same (w : World) : set_urls (urls w) w = w.
Proof. now destruct w. Qed.

(** The entity [getCachedUrl] builds from a cache entry. *)
Lemma findByCode_unfold (cfg : Config) (env : Env) (code : string) (w : World) :
  UrlService.findByCode cfg env code w
  = match RedisService.get (now env) ("url:" ++ code) w with
    | Some data =>
        (Ok (Some (UrlEntity.mk code (c_original data) "" (c_hitCount data) None
                                (c_expiresAt data) 0 0 None None None)), w)
    | None =>
        match find (fun u => String.eqb (UrlEntity.code u) code) (urls w) with
        | Some u =>
            (Ok (Some u),
             RedisService.setex (now env) ("url:" ++ UrlEntity.code u) (redisTtl cfg)
               (mkCachedUrl (UrlEntity.original u) (UrlEntity.expiresAt u)
                            (UrlEntity.hitCount u)) w)
        | None => (Ok None, w)
        end
    end.
Proof.
  unfold UrlService.findByCode, tryCatch, bind, UrlService.getCachedUrl,
    UrlService.findOneByCode, UrlService.cacheUrl, gets, modify, ret.
  cbv beta iota.
  destruct (RedisService.get (now env) ("url:" ++ code) w); cbv beta iota; [reflexivity|].
  destruct (find _ (urls w)); reflexivity.
Qed.

(** A lookup always resolves, and touches nothing but the cache. *)
Lemma findByCode_resolves (cfg : Config) (env : Env) (code : string) (w : World) :
  exists o w1,
    UrlService.findByCode cfg env code w = (Ok o, w1)
    /\ urls w1 = urls w /\ topic w1 = topic w /\ draws w1 = draws w.
Proof.
  rewrite findByCode_unfold.
  destruct (RedisService.get (now env) ("url:" ++ code) w).
  - eexists _, _. repeat split.
  - destruct (find _ (urls w)); eexists _, _; repeat split.
Qed.

Lemma find_code_in (code : string) (l : list UrlEntity.t) (u : UrlEntity.t) :
  find (fun x => String.eqb (UrlEntity.code x) code) l = Some u ->
  In u l /\ UrlEntity.code u = code.
Proof.
  intros H. apply find_some in H as [H1 H2]. apply String.eqb_eq in H2. auto.
Qed.

Lemma find_code_none (code : string) (l : list UrlEntity.t) :
  (forall u, In u l -> UrlEntity.code u <> code) ->
  find (fun x => String.eqb (UrlEntity.code x) code) l = None.
Proof.
  intros H. induction l as [|x l IH]; simpl.
  - reflexivity.
  - destruct (String.eqb (UrlEntity.code x) code) eqn:E.
    + apply String.eqb_eq in E. exfalso. apply (H x); [now left|exact E].
    + apply IH. intros u Hu. apply H. now right.
Qed.

Lemma filter_code_out (code : string) (l : list UrlEntity.t) :
  find (fun x => String.eqb (UrlEntity.code x) code)
       (filter (fun u => negb (String.eqb (UrlEntity.code u) code)) l) = None.
Proof.
  apply find_code_none. intros u Hu. apply filter_In in Hu as [_ Hu].
  apply negb_true_iff, String.eqb_neq in Hu. exact Hu.
Qed.

End CacheFacts.

(** The world a successful admin delete leaves: the rows of the code
    are gone, and the cache entry is gone when the cache answered the
    [DEL]. *)
Lemma deleteUrl_done (del : Result unit) (code : string) (w : World) :
  fst (UrlController.deleteUrl del code w) = Ok tt ->
  snd (UrlController.deleteUrl del code w)
  = let w1 := set_urls (filter (fun u => negb (String.eqb (UrlEntity.code u) code))
                               (urls w)) w in
    match del with
    | Ok _ => RedisService.del ("url:" ++ code) w1
    | Throw _ => w1
    end.
Proof.
  unfold UrlController.deleteUrl.
  destruct (negb (JS.truthy code) || (String.length code <? 3)%nat
            || (50 <? String.length code)%nat); [intros H; discriminate H|].
  unfold bind, UrlService.deleteUrl, UrlService.repository_delete,
    UrlService.removeCachedUrl, tryCatch, bind, lift, modify, ret, throw.
  cbv beta iota.
  destruct (0 <? List.length (filter (fun u => String.eqb (UrlEntity.code u) code) (urls w)))%nat;
    cbv beta iota; cbn [negb fst snd]; [|intros H; discriminate H].
  intros _. destruct del as [[]|x]; reflexivity.
Qed.

(** X1: once the admin route has answered a delete with success, no
    row carries the code any more.  When the cache answered the [DEL],
    the next lookup of the code finds nothing, in the cache or in the
    table, and a request for it is answered with 404.  When the [DEL]
    failed, the route has answered with success all the same and the
    cache is as it was: an entry of the code that is still alive keeps
    answering the lookups. *)
Theorem delete_then_not_found {P : Url.Platform}
    (cfg : Config) (env : Env) (del : Result unit) (code ip : string)
    (ua ref : option string) (w : World) :
  fst (UrlController.deleteUrl del code w) = Ok tt ->
  JS.codeFormat code = true ->
  let w' := snd (UrlController.deleteUrl del code w) in
  find (fun u => String.eqb (UrlEntity.code u) code) (urls w') = None
  /\ (del = Ok tt ->
      UrlService.findByCode cfg env code w' = (Ok None, w')
      /\ RedirectController.redirect cfg env code ip ua ref w'
         = (Throw (NotFoundException "Short URL not found"), w'))
  /\ (forall x data,
        del = Throw x ->
        RedisService.get (now env) ("url:" ++ code) w = Some data ->
        redis w' = redis w
        /\ UrlService.findByCode cfg env code w'
           = (Ok (Some (UrlEntity.mk code (c_original data) "" (c_hitCount data) None
                                     (c_expiresAt data) 0 0 None None None)), w')).
Proof.
  intros Hd Hc w'. subst w'. rewrite (deleteUrl_done del code w Hd). cbv zeta.
  set (w1 := set_urls (filter (fun u => negb (String.eqb (UrlEntity.code u) code))
                              (urls w)) w).
  split; [|split].
  - destruct del as [[]|x]; cbn [urls RedisService.del set_redis];
      subst w1; cbn [urls set_urls]; apply CacheFacts.filter_code_out.
  - intros ->.
    assert (Hf : UrlService.findByCode cfg env code (RedisService.del ("url:" ++ code) w1)
                 = (Ok None, RedisService.del ("url:" ++ code) w1)).
    { rewrite CacheFacts.findByCode_unfold, CacheFacts.get_del.
      subst w1. cbn [urls RedisService.del set_redis set_urls].
      now rewrite CacheFacts.filter_code_out. }
    split; [exact Hf|].
    unfold RedirectController.redirect. rewrite Hc. change (negb true) with false. cbv iota.
    unfold bind. now rewrite Hf.
  - intros x data -> Hlive. split; [reflexivity|].
    rewrite CacheFacts.findByCode_unfold.
    assert (G : RedisService.get (now env) ("url:" ++ code) w1 = Some data) by exact Hlive.
    now rewrite G.
Qed.

Lemma delete_then_not_found_witness :
  let w := mkWorld [Sample.record "abc123" "https://example.com/" None]
                   [("url:abc123", (mkCachedUrl "https://example.com/" None 4, 9000))] 0 [] in
  let w' := snd (UrlController.deleteUrl (Ok tt) "abc123" w) in
  fst (UrlController.deleteUrl (Ok tt) "abc123" w) = Ok tt
  /\ JS.codeFormat "abc123" = true
  /\ UrlService.findByCode Sample.cfg (Sample.env 1000) "abc123" w' = (Ok None, w')
  /\ RedirectController.redirect (P:=Url.model) Sample.cfg (Sample.env 1000)
       "abc123" "203.0.113.7" None None w'
     = (Throw (NotFoundException "Short URL not found"), w').
Proof.
  intros w w'.
  assert (Hd : fst (UrlController.deleteUrl (Ok tt) "abc123" w) = Ok tt) by reflexivity.
  assert (Hc : JS.codeFormat "abc123" = true) by reflexivity.
  split; [exact Hd|]. split; [exact Hc|].
  exact (proj1 (proj2 (delete_then_not_found (P:=Url.model) Sample.cfg (Sample.env 1000)
                         (Ok tt) "abc123" "203.0.113.7" None None w Hd Hc)) eq_refl).
Defined.

(** A delete whose cache invalidation fails, on an example: the
    cache refuses the [DEL], the route answers with success, the row is
    gone, and the code still redirects from its cache entry. *)
Lemma delete_with_failed_invalidation_keeps_resolving :
  let w := mkWorld [Sample.record "abc123" "https://example.com/" None]
                   [("url:abc123", (mkCachedUrl "https://example.com/" None 4, 9000))] 0 [] in
  let w' := snd (UrlController.deleteUrl (Throw (Error "connection lost")) "abc123" w) in
  fst (UrlController.deleteUrl (Throw (Error "connection lost")) "abc123" w) = Ok tt
  /\ urls w' = []
  /\ RedirectController.httpStatus
       (fst (RedirectController.redirect (P:=Url.model) Sample.cfg (Sample.env 1000)
               "abc123" "203.0.113.7" None None w')) = 302.
Proof. vm_compute. repeat split. Qed.

Module DeleteFacts.

Lemma filter_none_negb {A} (f : A -> bool) (l : list A) :
  List.length (filter f l) = 0%nat -> filter (fun x => negb (f x)) l = l.
Proof.
  induction l as [|x l IH]; simpl; intros H.
  - reflexivity.
  - destruct (f x); simpl in *; [discriminate H|]. now rewrite IH.
Qed.

End DeleteFacts.

(** X2: a delete that the admin route refuses, with 400 for a code of
    the wrong length or with 404 for a code no record carries, changes
    nothing: the table, the cache, the topic and the draws are as
    before. *)
Theorem deleteUrl_refused_changes_nothing (del : Result unit) (code : string) (w : World) :
  fst (UrlController.deleteUrl del code w) <> Ok tt ->
  snd (UrlController.deleteUrl del code w) = w
  /\ (fst (UrlController.deleteUrl del code w)
      = Throw (BadRequestException "Invalid URL code format")
      \/ fst (UrlController.deleteUrl del code w) = Throw (NotFoundException "URL not found")).
Proof.
  unfold UrlController.deleteUrl.
  destruct (negb (JS.truthy code) || (String.length code <? 3)%nat
            || (50 <? String.length code)%nat).
  - intros _. split; [reflexivity|left; reflexivity].
  - unfold bind, UrlService.deleteUrl, UrlService.repository_delete,
      UrlService.removeCachedUrl, tryCatch, bind, lift, modify, ret, throw.
    cbv beta iota.
    destruct (0 <? List.length (filter (fun u => String.eqb (UrlEntity.code u) code) (urls w)))%nat
      eqn:E; cbv beta iota; cbn [negb fst snd]; intros H.
    + exfalso. apply H. destruct del as [[]|x]; reflexivity.
    + apply Nat.ltb_ge in E.
      rewrite DeleteFacts.filter_none_negb by lia.
      split; [apply CacheFacts.set_urls_same|right; reflexivity].
Qed.

Lemma deleteUrl_refused_changes_nothing_witness :
  let w := mkWorld [Sample.record "abc123" "https://example.com/" None]
                   [("url:zzz999", (mkCachedUrl "https://example.org/" None 4, 9000))] 0 [] in
  fst (UrlController.deleteUrl (Ok tt) "zzz999" w) <> Ok tt
  /\ snd (UrlController.deleteUrl (Ok tt) "zzz999" w) = w.
Proof.
  intros w.
  assert (H : fst (UrlController.deleteUrl (Ok tt) "zzz999" w) <> Ok tt)
    by (intros E; discriminate E).
  split; [exact H|].
  exact (proj1 (deleteUrl_refused_changes_nothing (Ok tt) "zzz999" w H)).
Defined.

(** X3: with a cache that answers its commands, a lookup that misses
    the cache fills it, and until the entry's time to live has passed
    every later lookup of the code is answered from that entry alone:
    whatever the table holds by then, it returns the original URL,
    expiry and hit count of the first lookup, and none of the other
    columns. *)
Theorem findByCode_served_from_cache (cfg : Config) (env env' : Env)
    (code : string) (w : World) (u : UrlEntity.t) :
  RedisService.get (now env) ("url:" ++ code) w = None ->
  find (fun x => String.eqb (UrlEntity.code x) code) (urls w) = Some u ->
  now env <= now env' < now env + redisTtl cfg * 1000 ->
  fst (UrlService.findByCode cfg env code w) = Ok (Some u)
  /\ forall table : list UrlEntity.t,
       let w1 := set_urls table (snd (UrlService.findByCode cfg env code w)) in
       UrlService.findByCode cfg env' code w1
       = (Ok (Some (UrlEntity.mk code (UrlEntity.original u) "" (UrlEntity.hitCount u) None
                                 (UrlEntity.expiresAt u) 0 0 None None None)), w1).
Proof.
  intros Hmiss Hfind Hlive.
  destruct (CacheFacts.find_code_in _ _ _ Hfind) as [_ Hcode].
  rewrite (CacheFacts.findByCode_unfold cfg env), Hmiss, Hfind. cbn [fst snd].
  split; [reflexivity|].
  intros table. cbv zeta.
  rewrite (CacheFacts.findByCode_unfold cfg env'), Hcode.
  assert (G : RedisService.get (now env') ("url:" ++ code)
                (set_urls table
                   (RedisService.setex (now env) ("url:" ++ code) (redisTtl cfg)
                      (mkCachedUrl (UrlEntity.original u) (UrlEntity.expiresAt u)
                                   (UrlEntity.hitCount u)) w))
              = Some (mkCachedUrl (UrlEntity.original u) (UrlEntity.expiresAt u)
                                  (UrlEntity.hitCount u))).
  { unfold RedisService.get, RedisService.setex. cbn [redis set_urls set_redis find fst].
    rewrite String.eqb_refl.
    destruct (Z.ltb_spec (now env') (now env + redisTtl cfg * 1000)); [reflexivity|lia]. }
  rewrite G. reflexivity.
Qed.

Lemma findByCode_served_from_cache_witness :
  let u := UrlEntity.mk "gh1" "https://github.com/rocq" "https://github.com/rocq" 7
             (Some "gh1") None 10 10 (Some "203.0.113.7") None (Some "notes") in
  let w := Sample.worldWith u in
  let w1 := set_urls [] (snd (UrlService.findByCode Sample.cfg (Sample.env 1000) "gh1" w)) in
  RedisService.get 1000 "url:gh1" w = None
  /\ 1000 <= 2000 < 1000 + 3600 * 1000
  /\ UrlService.findByCode Sample.cfg (Sample.env 2000) "gh1" w1
     = (Ok (Some (UrlEntity.mk "gh1" "https://github.com/rocq" "" 7 None None 0 0
                               None None None)), w1).
Proof.
  intros u w w1.
  assert (H1 : RedisService.get (now (Sample.env 1000)) ("url:" ++ "gh1") w = None)
    by reflexivity.
  assert (H2 : find (fun x => String.eqb (UrlEntity.code x) "gh1") (urls w) = Some u)
    by reflexivity.
  assert (H3 : now (Sample.env 1000) <= now (Sample.env 2000)
               < now (Sample.env 1000) + redisTtl Sample.cfg * 1000)
    by (vm_compute; split; [discriminate|reflexivity]).
  split; [exact H1|]. split; [exact H3|].
  exact (proj2 (findByCode_served_from_cache Sample.cfg (Sample.env 1000) (Sample.env 2000)
                  "gh1" w u H1 H2 H3) []).
Defined.

(** X4: with a cache that answers its commands, while a code has a
    live cache entry, counting a hit adds one to the stored hit count of
    the code but writes the old count back to the cache, so lookups keep
    reporting the count the entry was created with. *)
Theorem incrementHitCount_keeps_cached_count (cfg : Config) (env : Env)
    (code : string) (w : World) (data : CachedUrl) :
  RedisService.get (now env) ("url:" ++ code) w = Some data ->
  repository_increment env = Ok tt ->
  0 < redisTtl cfg ->
  let w' := snd (UrlService.incrementHitCount cfg env code w) in
  urls w' = map (fun u => if String.eqb (UrlEntity.code u) code
                          then UrlEntity.set_hitCount (UrlEntity.hitCount u + 1) u
                          else u) (urls w)
  /\ RedisService.get (now env) ("url:" ++ code) w' = Some data
  /\ exists u', fst (UrlService.findByCode cfg env code w') = Ok (Some u')
                /\ UrlEntity.hitCount u' = c_hitCount data.
Proof.
  intros Hhit Hinc Httl w'.
  set (w2 := set_urls (map (fun u => if String.eqb (UrlEntity.code u) code
                          then UrlEntity.set_hitCount (UrlEntity.hitCount u + 1) u
                          else u) (urls w)) w).
  assert (Hhit2 : RedisService.get (now env) ("url:" ++ code) w2 = Some data) by exact Hhit.
  assert (E : UrlService.incrementHitCount cfg env code w
              = (Ok tt, RedisService.setex (now env) ("url:" ++ code) (redisTtl cfg) data w2)).
  { unfold UrlService.incrementHitCount, tryCatch, bind at 1.
    unfold UrlService.repository_incrementHitCount, bind at 1, lift, modify.
    rewrite Hinc. cbv beta iota. fold w2.
    unfold bind. rewrite CacheFacts.findByCode_unfold, Hhit2.
    unfold UrlService.cacheUrl, modify. cbn [UrlEntity.code UrlEntity.original
      UrlEntity.expiresAt UrlEntity.hitCount].
    destruct data; reflexivity. }
  subst w'. rewrite E. cbn [snd].
  assert (G : RedisService.get (now env) ("url:" ++ code)
                (RedisService.setex (now env) ("url:" ++ code) (redisTtl cfg) data w2)
              = Some data).
  { rewrite CacheFacts.get_setex.
    destruct (Z.ltb_spec (now env) (now env + redisTtl cfg * 1000)); [reflexivity|lia]. }
  split; [reflexivity|]. split; [exact G|].
  rewrite CacheFacts.findByCode_unfold, G. eexists. split; reflexivity.
Qed.

Lemma incrementHitCount_keeps_cached_count_witness :
  let w := mkWorld [Sample.record "abc123" "https://example.com/" None]
                   [("url:abc123", (mkCachedUrl "https://example.com/" None 0, 9000000))] 0 [] in
  let w' := snd (UrlService.incrementHitCount Sample.cfg (Sample.env 1000) "abc123" w) in
  map UrlEntity.hitCount (urls w') = [1]
  /\ RedisService.get 1000 "url:abc123" w' = Some (mkCachedUrl "https://example.com/" None 0).
Proof.
  intros w w'.
  assert (H1 : RedisService.get (now (Sample.env 1000)) ("url:" ++ "abc123") w
               = Some (mkCachedUrl "https://example.com/" None 0)) by reflexivity.
  assert (H2 : repository_increment (Sample.env 1000) = Ok tt) by reflexivity.
  assert (H3 : 0 < redisTtl Sample.cfg) by (vm_compute; reflexivity).
  pose proof (incrementHitCount_keeps_cached_count Sample.cfg (Sample.env 1000) "abc123" w
                _ H1 H2 H3) as (Ha & Hb & _).
  split.
  - fold w' in Ha. rewrite Ha. reflexivity.
  - exact Hb.
Defined.

(** ** Creation *)

Module CreationFacts.

Lemma generateLoop_spec (cfg : Config) (env : Env) (k : nat) (w : World) :
  exists c n,
    UrlService.generateLoop cfg env k w = (Ok c, set_draws (draws w + n) w)
    /\ (1 <= n <= k + 1)%nat
    /\ (find (fun u => String.eqb (UrlEntity.code u) c) (urls w) = None
        /\ c = nanoid env (draws w + n - 1) (defaultCodeLength cfg)
        \/ n = (k + 1)%nat /\ c = nanoid env (draws w + k) (defaultCodeLength cfg + 2))
    /\ (forall i, (i < n - 1)%nat ->
          find (fun u => String.eqb (UrlEntity.code u)
                           (nanoid env (draws w + i) (defaultCodeLength cfg))) (urls w)
          <> None).
Proof.
  revert w. induction k as [|k IH]; intros w.
  - exists (nanoid env (draws w) (defaultCodeLength cfg + 2)), 1%nat.
    cbn [UrlService.generateLoop]. unfold UrlService.nanoidM.
    replace (draws w + 1)%nat with (S (draws w)) by lia.
    split; [reflexivity|]. split; [lia|]. split.
    + right. split; [reflexivity|]. now rewrite Nat.add_0_r.
    + intros i Hi. lia.
  - cbn [UrlService.generateLoop].
    unfold bind at 1. unfold UrlService.nanoidM at 1.
    unfold bind at 1. unfold UrlService.findOneByCode at 1. unfold gets.
    cbn [urls set_draws].
    destruct (find (fun u => String.eqb (UrlEntity.code u)
                               (nanoid env (draws w) (defaultCodeLength cfg))) (urls w))
      eqn:E.
    + destruct (IH (set_draws (S (draws w)) w)) as (c & n & H1 & H2 & H3 & H4).
      cbn [urls draws set_draws] in H1, H3, H4.
      exists c, (S n). split.
      { rewrite H1. f_equal. unfold set_draws. cbn [urls redis topic draws].
        f_equal. lia. }
      split; [lia|]. split.
      * destruct H3 as [[H3 H3']|[H3 H3']].
        -- left. split; [exact H3|]. rewrite H3'. f_equal. lia.
        -- right. split; [lia|]. rewrite H3'. f_equal. lia.
      * intros i Hi. destruct i as [|i].
        -- rewrite Nat.add_0_r, E. discriminate.
        -- replace (draws w + S i)%nat with (S (draws w) + i)%nat by lia.
           apply H4. lia.
    + exists (nanoid env (draws w) (defaultCodeLength cfg)), 1%nat.
      replace (draws w + 1)%nat with (S (draws w)) by lia.
      split; [reflexivity|]. split; [lia|]. split.
      * left. split; [exact E|]. f_equal. lia.
      * intros i Hi. lia.
Qed.

Lemma existsb_false_free (c n : string) (l : list UrlEntity.t) :
  existsb (fun u => String.eqb (UrlEntity.code u) c
                    || String.eqb (UrlEntity.normalized u) n) l
  = false ->
  forall u, In u l -> UrlEntity.code u <> c /\ UrlEntity.normalized u <> n.
Proof.
  intros H u Hu.
  assert (G : (String.eqb (UrlEntity.code u) c
               || String.eqb (UrlEntity.normalized u) n) = false).
  { destruct (String.eqb (UrlEntity.code u) c
              || String.eqb (UrlEntity.normalized u) n) eqn:E;
      [|reflexivity].
    rewrite <- H. symmetry. apply existsb_exists. exists u. auto. }
  apply orb_false_iff in G as [G1 G2].
  split; apply String.eqb_neq; assumption.
Qed.

(** What [createNew] leaves behind: nothing when it throws, and
    otherwise one more row, whose code and normalised URL no earlier
    row has, and a cache entry for it. *)
Lemma createNew_spec {P : Url.Platform} (cfg : Config) (env : Env)
      (dto : CreateUrlDto.t) (n : string) (w : World) :
  let r := UrlService.createNew cfg env dto n w in
  (exists x, fst r = Throw x /\ urls (snd r) = urls w /\ redis (snd r) = redis w
             /\ topic (snd r) = topic w)
  \/ (exists c,
        let e := UrlEntity.mk c (CreateUrlDto.url dto) n 0
                   (CreateUrlDto.customAlias dto) (CreateUrlDto.expiresAt dto)
                   (now env) (now env)
                   (CreateUrlDto.clientIp dto) (CreateUrlDto.userAgent dto)
                   (CreateUrlDto.metadata dto) in
        fst r = Ok (UrlService.responseOf cfg true e)
        /\ urls (snd r) = (urls w ++ [e])%list
        /\ topic (snd r) = topic w
        /\ redis (snd r)
           = (("url:" ++ c)%string,
              (mkCachedUrl (CreateUrlDto.url dto) (CreateUrlDto.expiresAt dto) 0,
               now env + redisTtl cfg * 1000))
             :: filter (fun kv => negb (String.eqb (fst kv) ("url:" ++ c))) (redis w)
        /\ (forall u, In u (urls w) ->
              UrlEntity.code u <> c /\ UrlEntity.normalized u <> n)
        /\ (truthyO (CreateUrlDto.customAlias dto) = true ->
              CreateUrlDto.customAlias dto = Some c
              /\ (customAliasMinLength cfg <= String.length c <= customAliasMaxLength cfg)%nat)).
Proof.
  intros r. assert (Er : r = UrlService.createNew cfg env dto n w) by reflexivity.
  clearbody r. unfold UrlService.createNew in Er.
  set (gen := if truthyO (CreateUrlDto.customAlias dto)
              then UrlService.validateCustomAlias cfg
                     (orElse (CreateUrlDto.customAlias dto) "")
              else UrlService.generateUniqueCode cfg env) in Er.
  assert (Hgen : (exists x, gen w = (Throw x, w))
                 \/ (exists c w1, gen w = (Ok c, w1) /\ urls w1 = urls w
                       /\ redis w1 = redis w /\ topic w1 = topic w
                       /\ (truthyO (CreateUrlDto.customAlias dto) = true ->
                             CreateUrlDto.customAlias dto = Some c
                             /\ (customAliasMinLength cfg <= String.length c
                                 <= customAliasMaxLength cfg)%nat))).
  { subst gen. destruct (CreateUrlDto.customAlias dto) as [a|] eqn:Ea; cbn [truthyO orElse].
    - destruct (JS.truthy a) eqn:Et.
      + unfold UrlService.validateCustomAlias.
        destruct ((String.length a <? customAliasMinLength cfg)%nat
                  || (customAliasMaxLength cfg <? String.length a)%nat) eqn:El.
        * left. eexists. reflexivity.
        * apply orb_false_iff in El as [El1 El2].
          apply Nat.ltb_ge in El1, El2.
          unfold bind, UrlService.findOneByCode, gets.
          destruct (find _ (urls w)).
          -- left. eexists. reflexivity.
          -- right. exists a, w. repeat split; auto.
      + right. destruct (generateLoop_spec cfg env 10 w) as (c & k & H1 & _).
        exists c, (set_draws (draws w + k) w). split; [exact H1|].
        repeat split; discriminate.
    - right. destruct (generateLoop_spec cfg env 10 w) as (c & k & H1 & _).
      exists c, (set_draws (draws w + k) w). split; [exact H1|].
      repeat split; discriminate. }
  unfold bind at 1 in Er.
  destruct Hgen as [[x Hx]|(c & w1 & Hc & Hu & Hr & Ht & Ha)].
  - rewrite Hx in Er. subst r. left. exists x. repeat split.
  - rewrite Hc in Er. unfold bind at 1 in Er. unfold UrlService.save in Er.
    cbn [UrlEntity.code UrlEntity.normalized] in Er.
    destruct (existsb _ (urls w1)) eqn:Ex.
    + subst r. left. eexists. cbn [fst snd]. repeat split; assumption.
    + unfold bind, UrlService.cacheUrl, modify, ret in Er.
      cbn [fst snd UrlEntity.code UrlEntity.original UrlEntity.expiresAt UrlEntity.hitCount]
        in Er.
      unfold RedisService.setex in Er. subst r.
      right. exists c. cbv zeta.
      cbn [fst snd urls redis topic set_redis set_urls].
      rewrite Hu, Hr, Ht.
      split; [reflexivity|]. split; [reflexivity|]. split; [reflexivity|].
      split; [reflexivity|]. split; [|exact Ha].
      intros u Hin. rewrite <- Hu in Hin.
      exact (existsb_false_free _ _ _ Ex u Hin).
Qed.

(** What [createShortUrl] leaves behind, whichever branch it takes. *)
Lemma createShortUrl_spec {P : Url.Platform} (cfg : Config) (env : Env)
      (dto : CreateUrlDto.t) (w : World) :
  let n := UrlService.normalizeUrl (CreateUrlDto.url dto) in
  let r := UrlService.createShortUrl cfg env dto w in
  (exists x, fst r = Throw x /\ urls (snd r) = urls w /\ redis (snd r) = redis w
             /\ topic (snd r) = topic w)
  \/ (exists e, fst r = Ok (UrlService.responseOf cfg false e) /\ snd r = w
                /\ In e (urls w) /\ UrlEntity.normalized e = n
                /\ UrlEntity.isExpired (now env) e = false)
  \/ (exists c,
        let e := UrlEntity.mk c (CreateUrlDto.url dto) n 0
                   (CreateUrlDto.customAlias dto) (CreateUrlDto.expiresAt dto)
                   (now env) (now env)
                   (CreateUrlDto.clientIp dto) (CreateUrlDto.userAgent dto)
                   (CreateUrlDto.metadata dto) in
        fst r = Ok (UrlService.responseOf cfg true e)
        /\ urls (snd r) = (urls w ++ [e])%list
        /\ topic (snd r) = topic w
        /\ redis (snd r)
           = (("url:" ++ c)%string,
              (mkCachedUrl (CreateUrlDto.url dto) (CreateUrlDto.expiresAt dto) 0,
               now env + redisTtl cfg * 1000))
             :: filter (fun kv => negb (String.eqb (fst kv) ("url:" ++ c))) (redis w)
        /\ (forall u, In u (urls w) ->
              UrlEntity.code u <> c /\ UrlEntity.normalized u <> n)
        /\ (truthyO (CreateUrlDto.customAlias dto) = true ->
              CreateUrlDto.customAlias dto = Some c
              /\ (customAliasMinLength cfg <= String.length c <= customAliasMaxLength cfg)%nat)).
Proof.
  intros n r. assert (Er : r = UrlService.createShortUrl cfg env dto w) by reflexivity.
  clearbody r. unfold UrlService.createShortUrl in Er. fold n in Er.
  unfold bind at 1 in Er.
  assert (Hs : (exists x, (if enableUrlScanning cfg
                           then UrlService.checkUrlSafety env n else ret tt) w = (Throw x, w))
               \/ (if enableUrlScanning cfg
                   then UrlService.checkUrlSafety env n else ret tt) w = (Ok tt, w)).
  { destruct (enableUrlScanning cfg); [|right; reflexivity].
    unfold UrlService.checkUrlSafety.
    destruct (virusTotal_checkUrl env n) as [[|]|[m|m|m]];
      try (right; reflexivity); left; eexists; reflexivity. }
  destruct Hs as [[x Hx]|Hs].
  - rewrite Hx in Er. subst r. left. exists x. repeat split.
  - rewrite Hs in Er. unfold bind at 1 in Er.
    unfold UrlService.findByNormalizedUrl at 1 in Er. unfold gets in Er.
    destruct (find (fun u => String.eqb (UrlEntity.normalized u) n) (urls w)) as [e|] eqn:Ef.
    + destruct (UrlEntity.isExpired (now env) e) eqn:Ee; cbn [negb] in Er.
      * subst r.
        destruct (createNew_spec cfg env dto n w) as [H|H]; [left; exact H|right; right; exact H].
      * subst r. right. left. exists e. apply find_some in Ef as [Hin Hn].
        apply String.eqb_eq in Hn. repeat split; assumption.
    + subst r.
      destruct (createNew_spec cfg env dto n w) as [H|H]; [left; exact H|right; right; exact H].
Qed.

End CreationFacts.

Module UniqueFacts.

Lemma NoDup_snoc {A} (l : list A) (x : A) :
  NoDup l -> ~ In x l -> NoDup (l ++ [x]).
Proof.
  intros Hl Hx. apply (Permutation_NoDup (l := x :: l)).
  - apply Permutation_cons_append.
  - now constructor.
Qed.

Lemma find_app_last (c : string) (l : list UrlEntity.t) (e : UrlEntity.t) :
  (forall u, In u l -> UrlEntity.code u <> c) ->
  UrlEntity.code e = c ->
  find (fun x => String.eqb (UrlEntity.code x) c) (l ++ [e]) = Some e.
Proof.
  intros Hl He. induction l as [|x l IH]; simpl.
  - rewrite He, String.eqb_refl. reflexivity.
  - destruct (String.eqb (UrlEntity.code x) c) eqn:E.
    + apply String.eqb_eq in E. exfalso. apply (Hl x); [now left|exact E].
    + apply IH. intros u Hu. apply Hl. now right.
Qed.

End UniqueFacts.

(** X5: [createShortUrl] keeps both unique indexes of the table: if no
    two rows share a code and no two share a normalised URL before the
    call, the same holds after it, whatever the request and whatever
    the answer. *)
Theorem createShortUrl_keeps_rows_unique {P : Url.Platform} (cfg : Config) (env : Env)
    (dto : CreateUrlDto.t) (w : World) :
  NoDup (map UrlEntity.code (urls w)) ->
  NoDup (map UrlEntity.normalized (urls w)) ->
  NoDup (map UrlEntity.code (urls (snd (UrlService.createShortUrl cfg env dto w))))
  /\ NoDup (map UrlEntity.normalized
              (urls (snd (UrlService.createShortUrl cfg env dto w)))).
Proof.
  intros Hc Hn.
  destruct (CreationFacts.createShortUrl_spec cfg env dto w)
    as [(x & _ & Hu & _)|[(e & _ & Hw & _)|(c & _ & Hu & _ & _ & Hfree & _)]].
  - rewrite Hu. split; assumption.
  - rewrite Hw. split; assumption.
  - rewrite Hu, !map_app. cbn [map UrlEntity.code UrlEntity.normalized].
    split; apply UniqueFacts.NoDup_snoc; try assumption.
    + intros Hin. apply in_map_iff in Hin as (u & Hu1 & Hu2).
      exact (proj1 (Hfree u Hu2) Hu1).
    + intros Hin. apply in_map_iff in Hin as (u & Hu1 & Hu2).
      exact (proj2 (Hfree u Hu2) Hu1).
Qed.

Lemma createShortUrl_keeps_rows_unique_witness :
  let w := Sample.worldWith (Sample.record "abc123" "https://example.com/a" None) in
  let w' := snd (UrlService.createShortUrl (P:=Url.model) Sample.cfg (Sample.env 1000)
                   (Sample.post "https://example.com/b") w) in
  NoDup (map UrlEntity.code (urls w))
  /\ NoDup (map UrlEntity.normalized (urls w))
  /\ List.length (urls w') = 2%nat
  /\ NoDup (map UrlEntity.code (urls w')).
Proof.
  intros w w'.
  assert (H1 : NoDup (map UrlEntity.code (urls w))).
  { constructor; [intros []|constructor]. }
  assert (H2 : NoDup (map UrlEntity.normalized (urls w))).
  { constructor; [intros []|constructor]. }
  split; [exact H1|]. split; [exact H2|]. split; [reflexivity|].
  exact (proj1 (createShortUrl_keeps_rows_unique (P:=Url.model) Sample.cfg (Sample.env 1000)
                  (Sample.post "https://example.com/b") w H1 H2)).
Defined.

(** X6: once the record of a URL has expired, the URL cannot be
    shortened again while that record stays in the table: the lookup
    skips the expired record, the insert then breaks the unique index on
    the normalised URL, and every such request ends in an exception with
    the table as it was. *)
Theorem createShortUrl_blocked_by_expired_record {P : Url.Platform}
    (cfg : Config) (env : Env) (dto : CreateUrlDto.t) (w : World) (e : UrlEntity.t) :
  In e (urls w) ->
  UrlEntity.normalized e = UrlService.normalizeUrl (CreateUrlDto.url dto) ->
  (forall u, In u (urls w) ->
     UrlEntity.normalized u = UrlService.normalizeUrl (CreateUrlDto.url dto) ->
     UrlEntity.isExpired (now env) u = true) ->
  (exists x, fst (UrlService.createShortUrl cfg env dto w) = Throw x)
  /\ urls (snd (UrlService.createShortUrl cfg env dto w)) = urls w.
Proof.
  intros Hin Hn Hexp.
  destruct (CreationFacts.createShortUrl_spec cfg env dto w)
    as [(x & Hx & Hu & _)|[(e' & _ & _ & Hin' & Hn' & He')|(c & _ & _ & _ & _ & Hfree & _)]].
  - split; [exists x; exact Hx|exact Hu].
  - rewrite (Hexp e' Hin' Hn') in He'. discriminate He'.
  - exfalso. exact (proj2 (Hfree e Hin) Hn).
Qed.

Lemma createShortUrl_blocked_by_expired_record_witness :
  let e := Sample.record "abc123" "https://example.com/a" (Some 500) in
  let w := Sample.worldWith e in
  UrlEntity.normalized e
  = UrlService.normalizeUrl (P:=Url.model) "https://example.com/a"
  /\ UrlEntity.isExpired 1000 e = true
  /\ (exists x, fst (UrlService.createShortUrl (P:=Url.model) Sample.cfg (Sample.env 1000)
                       (Sample.post "https://example.com/a") w) = Throw x)
  /\ urls (snd (UrlService.createShortUrl (P:=Url.model) Sample.cfg (Sample.env 1000)
                  (Sample.post "https://example.com/a") w)) = urls w.
Proof.
  intros e w.
  assert (H1 : In e (urls w)) by (left; reflexivity).
  assert (H2 : UrlEntity.normalized e
               = UrlService.normalizeUrl (P:=Url.model)
                   (CreateUrlDto.url (Sample.post "https://example.com/a"))) by reflexivity.
  assert (H3 : forall u, In u (urls w) ->
                 UrlEntity.normalized u
                 = UrlService.normalizeUrl (P:=Url.model)
                     (CreateUrlDto.url (Sample.post "https://example.com/a")) ->
                 UrlEntity.isExpired (now (Sample.env 1000)) u = true).
  { intros u [<-|[]] _. reflexivity. }
  split; [exact H2|]. split; [reflexivity|].
  exact (createShortUrl_blocked_by_expired_record (P:=Url.model) Sample.cfg
           (Sample.env 1000) (Sample.post "https://example.com/a") w e H1 H2 H3).
Defined.

(** X7: a short URL that [createShortUrl] reports as new can be looked
    up at once and at any later instant, from the cache or from the
    table: the lookup of the returned code finds an entity with that
    code, the submitted URL, the submitted expiry and no hits. *)
Theorem createShortUrl_new_is_found {P : Url.Platform} (cfg : Config) (env env' : Env)
    (dto : CreateUrlDto.t) (w : World) (r : CreateUrlResponseDto.t) :
  fst (UrlService.createShortUrl cfg env dto w) = Ok r ->
  CreateUrlResponseDto.isNew r = true ->
  exists u,
    fst (UrlService.findByCode cfg env' (CreateUrlResponseDto.code r)
           (snd (UrlService.createShortUrl cfg env dto w))) = Ok (Some u)
    /\ UrlEntity.code u = CreateUrlResponseDto.code r
    /\ UrlEntity.original u = CreateUrlDto.url dto
    /\ UrlEntity.expiresAt u = CreateUrlDto.expiresAt dto
    /\ UrlEntity.hitCount u = 0.
Proof.
  intros Hr Hnew.
  destruct (CreationFacts.createShortUrl_spec cfg env dto w)
    as [(x & Hx & _)|[(e' & He' & _)|(c & Hc & Hu & _ & Hred & Hfree & _)]].
  - rewrite Hx in Hr. discriminate Hr.
  - rewrite He' in Hr. assert (E : r = UrlService.responseOf cfg false e') by congruence.
    subst r. discriminate Hnew.
  - cbv zeta in Hc, Hu. rewrite Hc in Hr.
    assert (E : r = UrlService.responseOf cfg true
                      (UrlEntity.mk c (CreateUrlDto.url dto)
                         (UrlService.normalizeUrl (CreateUrlDto.url dto)) 0
                         (CreateUrlDto.customAlias dto) (CreateUrlDto.expiresAt dto)
                         (now env) (now env) (CreateUrlDto.clientIp dto)
                         (CreateUrlDto.userAgent dto) (CreateUrlDto.metadata dto)))
      by congruence.
    subst r. cbn [UrlService.responseOf CreateUrlResponseDto.code UrlEntity.code].
    rewrite CacheFacts.findByCode_unfold.
    unfold RedisService.get. rewrite Hred. cbn [find fst]. rewrite String.eqb_refl.
    destruct (now env' <? now env + redisTtl cfg * 1000).
    + eexists. cbn [fst]. split; [reflexivity|]. repeat split.
    + rewrite Hu, UniqueFacts.find_app_last.
      * eexists. cbn [fst]. split; [reflexivity|]. repeat split.
      * intros u Hin. exact (proj1 (Hfree u Hin)).
      * reflexivity.
Qed.

Lemma createShortUrl_new_is_found_witness :
  let r := CreateUrlResponseDto.mk "aB3xY9q" "https://sho.rt/aB3xY9q"
             "https://example.com/b" 1000 None true in
  let w' := snd (UrlService.createShortUrl (P:=Url.model) Sample.cfg (Sample.env 1000)
                   (Sample.post "https://example.com/b") emptyWorld) in
  fst (UrlService.createShortUrl (P:=Url.model) Sample.cfg (Sample.env 1000)
         (Sample.post "https://example.com/b") emptyWorld) = Ok r
  /\ exists u,
       fst (UrlService.findByCode Sample.cfg (Sample.env 99000000) "aB3xY9q" w') = Ok (Some u)
       /\ UrlEntity.original u = "https://example.com/b".
Proof.
  intros r w'.
  assert (H1 : fst (UrlService.createShortUrl (P:=Url.model) Sample.cfg (Sample.env 1000)
                      (Sample.post "https://example.com/b") emptyWorld) = Ok r)
    by reflexivity.
  assert (H2 : CreateUrlResponseDto.isNew r = true) by reflexivity.
  split; [exact H1|].
  destruct (createShortUrl_new_is_found (P:=Url.model) Sample.cfg (Sample.env 1000)
              (Sample.env 99000000) (Sample.post "https://example.com/b") emptyWorld r H1 H2)
    as (u & Hf & _ & Ho & _).
  exists u. split; [exact Hf|exact Ho].
Defined.

(** X8: [generateUniqueCode] always returns, after at most eleven
    draws.  Either the code it returns is the first draw that no row
    carries, or the first ten draws were all taken and it returns the
    eleventh draw, two characters longer, without looking it up. *)
Theorem generateUniqueCode_free_or_eleventh_draw (cfg : Config) (env : Env) (w : World) :
  exists c n,
    UrlService.generateUniqueCode cfg env w = (Ok c, set_draws (draws w + n) w)
    /\ (1 <= n <= 11)%nat
    /\ (find (fun u => String.eqb (UrlEntity.code u) c) (urls w) = None
        /\ c = nanoid env (draws w + n - 1) (defaultCodeLength cfg)
        \/ n = 11%nat /\ c = nanoid env (draws w + 10) (defaultCodeLength cfg + 2))
    /\ (forall i, (i < n - 1)%nat ->
          find (fun u => String.eqb (UrlEntity.code u)
                           (nanoid env (draws w + i) (defaultCodeLength cfg))) (urls w)
          <> None).
Proof.
  destruct (CreationFacts.generateLoop_spec cfg env 10 w) as (c & n & H1 & H2 & H3 & H4).
  exists c, n. split; [exact H1|]. split; [lia|]. split; [|exact H4].
  destruct H3 as [H3|[H3 H3']]; [left; exact H3|right; split; [lia|exact H3']].
Qed.

(** X9: when a request with a custom alias is answered with a new
    short URL, the code is the alias itself, its length lies within the
    configured bounds, and no row carried it before. *)
Theorem createShortUrl_new_code_is_alias {P : Url.Platform} (cfg : Config) (env : Env)
    (dto : CreateUrlDto.t) (w : World) (r : CreateUrlResponseDto.t) :
  truthyO (CreateUrlDto.customAlias dto) = true ->
  fst (UrlService.createShortUrl cfg env dto w) = Ok r ->
  CreateUrlResponseDto.isNew r = true ->
  CreateUrlDto.customAlias dto = Some (CreateUrlResponseDto.code r)
  /\ (customAliasMinLength cfg <= String.length (CreateUrlResponseDto.code r)
      <= customAliasMaxLength cfg)%nat
  /\ (forall u, In u (urls w) -> UrlEntity.code u <> CreateUrlResponseDto.code r).
Proof.
  intros Ha Hr Hnew.
  destruct (CreationFacts.createShortUrl_spec cfg env dto w)
    as [(x & Hx & _)|[(e' & He' & _)|(c & Hc & _ & _ & _ & Hfree & Halias)]].
  - rewrite Hx in Hr. discriminate Hr.
  - rewrite He' in Hr. assert (E : r = UrlService.responseOf cfg false e') by congruence.
    subst r. discriminate Hnew.
  - cbv zeta in Hc. rewrite Hc in Hr.
    assert (E : CreateUrlResponseDto.code r = c).
    { assert (E : Ok r = Ok (UrlService.responseOf cfg true
                      (UrlEntity.mk c (CreateUrlDto.url dto)
                         (UrlService.normalizeUrl (CreateUrlDto.url dto)) 0
                         (CreateUrlDto.customAlias dto) (CreateUrlDto.expiresAt dto)
                         (now env) (now env) (CreateUrlDto.clientIp dto)
                         (CreateUrlDto.userAgent dto) (CreateUrlDto.metadata dto))))
        by (symmetry; exact Hr).
      injection E as ->. reflexivity. }
    rewrite E. destruct (Halias Ha) as [H1 H2].
    split; [exact H1|]. split; [exact H2|].
    intros u Hin. exact (proj1 (Hfree u Hin)).
Qed.

Lemma createShortUrl_new_code_is_alias_witness :
  let dto := CreateUrlDto.mk "https://example.com/b" (Some "my-link") None None None None in
  let r := CreateUrlResponseDto.mk "my-link" "https://sho.rt/my-link"
             "https://example.com/b" 1000 None true in
  fst (UrlService.createShortUrl (P:=Url.model) Sample.cfg (Sample.env 1000) dto emptyWorld)
  = Ok r
  /\ (customAliasMinLength Sample.cfg <= String.length "my-link"
      <= customAliasMaxLength Sample.cfg)%nat.
Proof.
  intros dto r.
  assert (H0 : truthyO (CreateUrlDto.customAlias dto) = true) by reflexivity.
  assert (H1 : fst (UrlService.createShortUrl (P:=Url.model) Sample.cfg (Sample.env 1000)
                      dto emptyWorld) = Ok r) by reflexivity.
  assert (H2 : CreateUrlResponseDto.isNew r = true) by reflexivity.
  split; [exact H1|].
  exact (proj1 (proj2 (createShortUrl_new_code_is_alias (P:=Url.model) Sample.cfg
                         (Sample.env 1000) dto emptyWorld r H0 H1 H2))).
Defined.

(** ** What a request leaves behind *)

Module TraceFacts.

Import RedirectController.

Lemma recordHitEvent_trace (env : Env) (code ip : string) (ua ref : option string)
      (w : World) :
  exists w',
    recordHitEvent env code ip ua ref w = (Ok tt, w')
    /\ urls w' = urls w
    /\ (topic w' = topic w
        \/ exists di g, topic w' = (topic w ++
               [HitEventDto.mk (Some code) (Some (JsDate.instant (now env))) (Some ip) ua
                  (Some (orElse ref "direct"))
                  (match g with Some g0 => geo_country g0 | None => None end)
                  (match g with Some g0 => geo_city g0 | None => None end)
                  (Some (di_deviceType di)) (Some (di_browser di))
                  (Some (di_os di))])%list)
    /\ (forall di g,
          userAgentParser_parse env ua = Ok di ->
          geoLocation_getLocationFromIp env ip = Ok g ->
          producer_send env = Ok tt ->
          topic w' = (topic w ++
               [HitEventDto.mk (Some code) (Some (JsDate.instant (now env))) (Some ip) ua
                  (Some (orElse ref "direct"))
                  (match g with Some g0 => geo_country g0 | None => None end)
                  (match g with Some g0 => geo_city g0 | None => None end)
                  (Some (di_deviceType di)) (Some (di_browser di))
                  (Some (di_os di))])%list).
Proof.
  unfold recordHitEvent, tryCatch, bind, lift, KafkaService.publishHitEvent, tryCatch,
    bind, lift, modify, ret.
  destruct (userAgentParser_parse env ua) as [di|x].
  2:{ exists w. repeat split; auto. intros di g H. discriminate H. }
  destruct (geoLocation_getLocationFromIp env ip) as [g|x].
  2:{ exists w. repeat split; auto. intros di' g _ H. discriminate H. }
  destruct (producer_send env) as [[]|x].
  2:{ exists w. repeat split; auto. intros di' g' _ _ H. discriminate H. }
  eexists. split; [reflexivity|]. split; [reflexivity|]. split.
  - right. exists di, g. reflexivity.
  - intros di' g' H1 H2 _. injection H1 as <-. injection H2 as <-. reflexivity.
Qed.

Lemma incrementHitCount_trace (cfg : Config) (env : Env) (code : string) (w : World) :
  exists w',
    tryCatch (UrlService.incrementHitCount cfg env code) (fun _ => ret tt) w = (Ok tt, w')
    /\ topic w' = topic w
    /\ (urls w' = urls w \/ urls w' =
          map (fun u => if String.eqb (UrlEntity.code u) code
                        then UrlEntity.set_hitCount (UrlEntity.hitCount u + 1) u
                        else u) (urls w))
    /\ (repository_increment env = Ok tt -> urls w' =
          map (fun u => if String.eqb (UrlEntity.code u) code
                        then UrlEntity.set_hitCount (UrlEntity.hitCount u + 1) u
                        else u) (urls w)).
Proof.
  unfold UrlService.incrementHitCount, tryCatch, bind at 1.
  unfold UrlService.repository_incrementHitCount, bind at 1, lift, modify.
  destruct (repository_increment env) as [[]|x].
  2:{ exists w. repeat split; auto. intros H. discriminate H. }
  cbv beta iota. unfold bind.
  set (w2 := set_urls _ w).
  destruct (CacheFacts.findByCode_resolves cfg env code w2) as (o & w3 & -> & Hu & Ht & _).
  destruct o as [u|]; unfold UrlService.cacheUrl, modify, ret; eexists;
    (split; [reflexivity|]); cbn [urls topic RedisService.setex set_redis];
    rewrite ?Hu, ?Ht; repeat split; auto.
Qed.

(** The three ways a request to [redirect] can end, with what each
    leaves in the table and on the topic. *)
Lemma redirect_trace {P : Url.Platform} (cfg : Config) (env : Env)
      (code ip : string) (ua ref : option string) (w : World) :
  let r := redirect cfg env code ip ua ref w in
  (isRedirect (fst r) = false /\ urls (snd r) = urls w /\ topic (snd r) = topic w)
  \/ (isRedirect (fst r) = true
      /\ JS.codeFormat code = true
      /\ (urls (snd r) = urls w \/ urls (snd r) =
          map (fun u => if String.eqb (UrlEntity.code u) code
                        then UrlEntity.set_hitCount (UrlEntity.hitCount u + 1) u
                        else u) (urls w))
      /\ (repository_increment env = Ok tt -> urls (snd r) =
          map (fun u => if String.eqb (UrlEntity.code u) code
                        then UrlEntity.set_hitCount (UrlEntity.hitCount u + 1) u
                        else u) (urls w))
      /\ (topic (snd r) = topic w
          \/ exists di g,
               topic (snd r) = (topic w ++
               [HitEventDto.mk (Some code) (Some (JsDate.instant (now env))) (Some ip) ua
                  (Some (orElse ref "direct"))
                  (match g with Some g0 => geo_country g0 | None => None end)
                  (match g with Some g0 => geo_city g0 | None => None end)
                  (Some (di_deviceType di)) (Some (di_browser di))
                  (Some (di_os di))])%list)
      /\ (forall di g,
            userAgentParser_parse env ua = Ok di ->
            geoLocation_getLocationFromIp env ip = Ok g ->
            producer_send env = Ok tt ->
            topic (snd r) = (topic w ++
               [HitEventDto.mk (Some code) (Some (JsDate.instant (now env))) (Some ip) ua
                  (Some (orElse ref "direct"))
                  (match g with Some g0 => geo_country g0 | None => None end)
                  (match g with Some g0 => geo_city g0 | None => None end)
                  (Some (di_deviceType di)) (Some (di_browser di))
                  (Some (di_os di))])%list)).
Proof.
  intros r. assert (Er : r = redirect cfg env code ip ua ref w) by reflexivity.
  clearbody r. unfold redirect in Er.
  destruct (JS.codeFormat code) eqn:Hc; cbn [negb] in Er.
  2:{ subst r. left. repeat split. }
  unfold bind at 1 in Er.
  destruct (CacheFacts.findByCode_resolves cfg env code w) as (o & w1 & Hf & Hu & Ht & _).
  rewrite Hf in Er. destruct o as [url|].
  2:{ subst r. left. repeat split; assumption. }
  destruct (UrlEntity.isExpired (now env) url).
  { subst r. left. repeat split; assumption. }
  destruct (isValidRedirectUrl (UrlEntity.original url)); cbn [negb] in Er.
  2:{ subst r. left. repeat split; assumption. }
  unfold bind at 1 in Er.
  destruct (incrementHitCount_trace cfg env code w1) as (w2 & Hi & Ht2 & Hu2 & Hu2').
  rewrite Hi in Er. unfold bind at 1 in Er.
  destruct (recordHitEvent_trace env code ip ua ref w2) as (w3 & Hr & Hu3 & Ht3 & Ht3').
  rewrite Hr in Er. unfold ret in Er. subst r. cbn [fst snd].
  right. rewrite Hu3. rewrite Hu in Hu2, Hu2'. rewrite Ht2, Ht in Ht3, Ht3'.
  split.
  { unfold isRedirect, redirectTo. cbn [status].
    destruct (RedirectFacts.statusCodeFor_redirect (UrlEntity.original url)) as [->| ->];
      reflexivity. }
  repeat split; assumption.
Qed.

End TraceFacts.

(** X10: a request that is not answered with a redirect, whether it
    ends in 400, 404 or 410, leaves no trace: no hit is counted in the
    table and no event is published. *)
Theorem redirect_refused_leaves_no_trace {P : Url.Platform} (cfg : Config) (env : Env)
    (code ip : string) (ua ref : option string) (w : World) :
  RedirectController.isRedirect
    (fst (RedirectController.redirect cfg env code ip ua ref w)) = false ->
  urls (snd (RedirectController.redirect cfg env code ip ua ref w)) = urls w
  /\ topic (snd (RedirectController.redirect cfg env code ip ua ref w)) = topic w.
Proof.
  intros H.
  destruct (TraceFacts.redirect_trace cfg env code ip ua ref w)
    as [(_ & Hu & Ht)|(H' & _)].
  - split; assumption.
  - rewrite H' in H. discriminate H.
Qed.

Lemma redirect_refused_leaves_no_trace_witness :
  let w := Sample.worldWith (Sample.record "old1" "https://example.com/" (Some 500)) in
  RedirectController.httpStatus
    (fst (RedirectController.redirect (P:=Url.model) Sample.cfg (Sample.env 1000)
            "old1" "203.0.113.7" (Some "Mozilla/5.0") None w)) = 410
  /\ urls (snd (RedirectController.redirect (P:=Url.model) Sample.cfg (Sample.env 1000)
                  "old1" "203.0.113.7" (Some "Mozilla/5.0") None w)) = urls w
  /\ topic (snd (RedirectController.redirect (P:=Url.model) Sample.cfg (Sample.env 1000)
                   "old1" "203.0.113.7" (Some "Mozilla/5.0") None w)) = topic w.
Proof.
  intros w.
  assert (H : RedirectController.isRedirect
                (fst (RedirectController.redirect (P:=Url.model) Sample.cfg (Sample.env 1000)
                        "old1" "203.0.113.7" (Some "Mozilla/5.0") None w)) = false)
    by reflexivity.
  split; [reflexivity|].
  exact (redirect_refused_leaves_no_trace (P:=Url.model) Sample.cfg (Sample.env 1000)
           "old1" "203.0.113.7" (Some "Mozilla/5.0") None w H).
Defined.

(** X11: when the collaborators answer, a request that is redirected
    is counted exactly once on each side: the stored hit count of the
    code grows by one while every other row stays as it is, and exactly
    one event is appended to the topic, carrying the code, the instant,
    the client address, the user agent, and the referrer or [direct]
    when none was sent. *)
Theorem redirect_counts_one_hit {P : Url.Platform} (cfg : Config) (env : Env)
    (code ip : string) (ua ref : option string) (w : World)
    (di : DeviceInfo) (g : option GeoLocation) :
  RedirectController.isRedirect
    (fst (RedirectController.redirect cfg env code ip ua ref w)) = true ->
  repository_increment env = Ok tt ->
  userAgentParser_parse env ua = Ok di ->
  geoLocation_getLocationFromIp env ip = Ok g ->
  producer_send env = Ok tt ->
  urls (snd (RedirectController.redirect cfg env code ip ua ref w))
  = map (fun u => if String.eqb (UrlEntity.code u) code
                  then UrlEntity.set_hitCount (UrlEntity.hitCount u + 1) u
                  else u) (urls w)
  /\ topic (snd (RedirectController.redirect cfg env code ip ua ref w))
     = (topic w
        ++ [HitEventDto.mk (Some code) (Some (JsDate.instant (now env))) (Some ip) ua
              (Some (orElse ref "direct"))
              (match g with Some g => geo_country g | None => None end)
              (match g with Some g => geo_city g | None => None end)
              (Some (di_deviceType di)) (Some (di_browser di)) (Some (di_os di))])%list.
Proof.
  intros H Hinc Hua Hgeo Hsend.
  destruct (TraceFacts.redirect_trace cfg env code ip ua ref w)
    as [(H' & _)|(_ & _ & _ & Hu & _ & Ht)].
  - rewrite H' in H. discriminate H.
  - split; [exact (Hu Hinc)|exact (Ht di g Hua Hgeo Hsend)].
Qed.

Lemma redirect_counts_one_hit_witness :
  let w := mkWorld [Sample.record "gh1" "https://github.com/rocq" None;
                    Sample.record "ex2" "https://example.com/" None] [] 0 [] in
  let w' := snd (RedirectController.redirect (P:=Url.model) Sample.cfg (Sample.env 5000)
                   "gh1" "203.0.113.7" (Some "Mozilla/5.0") None w) in
  map UrlEntity.hitCount (urls w') = [1; 0]
  /\ topic w' = [Sample.hit "gh1" 5000 "203.0.113.7" "Mozilla/5.0"].
Proof.
  intros w w'.
  assert (H : RedirectController.isRedirect
                (fst (RedirectController.redirect (P:=Url.model) Sample.cfg (Sample.env 5000)
                        "gh1" "203.0.113.7" (Some "Mozilla/5.0") None w)) = true)
    by reflexivity.
  pose proof (redirect_counts_one_hit (P:=Url.model) Sample.cfg (Sample.env 5000)
                "gh1" "203.0.113.7" (Some "Mozilla/5.0") None w
                (mkDeviceInfo "desktop" "Chrome" "Linux") None
                H eq_refl eq_refl eq_refl eq_refl) as [Hu Ht].
  split.
  - fold w' in Hu. rewrite Hu. reflexivity.
  - fold w' in Ht. rewrite Ht. reflexivity.
Defined.

(** X12: the preview of a code only reads: it counts no hit and
    publishes no event.  When it answers, its [isExpired] flag is set
    exactly when a redirect request for the same code at the same
    instant is answered with 410. *)
Theorem previewUrl_reads_only {P : Url.Platform} (cfg : Config) (env : Env)
    (code ip : string) (ua ref : option string) (w : World) :
  urls (snd (Preview.previewUrl cfg env code w)) = urls w
  /\ topic (snd (Preview.previewUrl cfg env code w)) = topic w
  /\ forall p, fst (Preview.previewUrl cfg env code w) = Ok p ->
       (Preview.isExpired p = true
        <-> fst (RedirectController.redirect cfg env code ip ua ref w)
            = Ok RedirectController.gone).
Proof.
  unfold Preview.previewUrl.
  destruct (JS.codeFormat code) eqn:Hc; cbn [negb].
  2:{ split; [reflexivity|]. split; [reflexivity|]. intros p H. discriminate H. }
  unfold bind.
  destruct (CacheFacts.findByCode_resolves cfg env code w) as (o & w1 & Hf & Hu & Ht & _).
  rewrite Hf. destruct o as [url|].
  2:{ cbn [fst snd throw]. split; [exact Hu|]. split; [exact Ht|].
      intros p H. discriminate H. }
  unfold ret. cbn [fst snd]. split; [exact Hu|]. split; [exact Ht|].
  intros p Hp. assert (E : p = Preview.mk (UrlEntity.code url) (UrlEntity.original url)
                                 (UrlEntity.createdAt url) (UrlEntity.expiresAt url)
                                 (UrlEntity.hitCount url)
                                 (UrlEntity.isExpired (now env) url)
                                 (UrlEntity.metadata url)) by congruence.
  subst p. cbn [Preview.isExpired].
  rewrite (RedirectFacts.redirect_found cfg env code ip ua ref w w1 url Hc Hf).
  destruct (UrlEntity.isExpired (now env) url).
  - split; reflexivity.
  - split; [discriminate|].
    destruct (RedirectController.isValidRedirectUrl (UrlEntity.original url)); cbn [negb].
    + intros H. exfalso.
      assert (E : RedirectController.httpStatus
                    (Ok (RedirectController.redirectTo (UrlEntity.original url))) = 410)
        by (rewrite H; reflexivity).
      unfold RedirectController.redirectTo in E.
      cbn [RedirectController.httpStatus RedirectController.status] in E.
      destruct (RedirectFacts.statusCodeFor_redirect (UrlEntity.original url)) as [E'|E'];
        rewrite E' in E; discriminate E.
    + discriminate.
Qed.

Module ConsumerTraceFacts.

Import AnalyticsConsumerService.

Lemma ipRegex_orElse (ip : string) : ipRegex (orElse (Some ip) "") = ipRegex ip.
Proof. unfold orElse. destruct ip; reflexivity. Qed.

Lemma ipRegex_truthy (ip : string) : ipRegex ip = true -> JS.truthy ip = true.
Proof. destruct ip; [vm_compute; discriminate|reflexivity]. Qed.

Lemma codeFormat_truthy (code : string) : JS.codeFormat code = true -> JS.truthy code = true.
Proof. unfold JS.codeFormat. intros H. apply andb_true_iff in H as [H _]. exact H. Qed.

Lemma snoc_inj {A} (l : list A) (x y : A) : (l ++ [x])%list = (l ++ [y])%list -> x = y.
Proof. intros H. apply app_inj_tail in H as [_ H]. exact H. Qed.

Lemma snoc_neq {A} (l : list A) (x : A) : l <> (l ++ [x])%list.
Proof.
  intros H. apply (f_equal (@List.length A)) in H. rewrite length_app in H.
  simpl in H. lia.
Qed.

End ConsumerTraceFacts.

(** X13: from the redirect to the analytics store.  The event a
    redirect publishes is accepted by the consumer, at the instant the
    consumer reads it, exactly when the request carried a non-empty user
    agent, the client address has the shape of a dotted IPv4 address or
    of a full IPv6 address, and the consumer reads the event no later
    than 24 hours after, and no earlier than 5 minutes before, the
    instant of the request.  A hit without a user agent, or from a
    client whose address is spelled otherwise, is redirected and counted
    in the table but never reaches the analytics. *)
Theorem redirect_event_accepted_iff {P : Url.Platform} (cfg : Config) (env : Env)
    (code ip : string) (ua ref : option string) (w : World)
    (ev : HitEventDto.t) (readAt : Z) :
  topic (snd (RedirectController.redirect cfg env code ip ua ref w))
  = (topic w ++ [ev])%list ->
  (AnalyticsConsumerService.isValidHitEvent readAt ev = true
   <-> truthyO ua = true
       /\ AnalyticsConsumerService.ipRegex ip = true
       /\ readAt - 86400000 <= now env <= readAt + 300000).
Proof.
  intros Htopic.
  destruct (TraceFacts.redirect_trace cfg env code ip ua ref w)
    as [(_ & _ & Ht)|(_ & Hc & _ & _ & [Ht|(di & g & Ht)] & _)].
  - rewrite Ht in Htopic. exfalso. exact (ConsumerTraceFacts.snoc_neq _ _ Htopic).
  - rewrite Ht in Htopic. exfalso. exact (ConsumerTraceFacts.snoc_neq _ _ Htopic).
  - rewrite Ht in Htopic. apply ConsumerTraceFacts.snoc_inj in Htopic. subst ev.
    rewrite ConsumerFacts.isValidHitEvent_iff.
    cbn [HitEventDto.code HitEventDto.ip HitEventDto.userAgent HitEventDto.timestamp].
    rewrite ConsumerTraceFacts.ipRegex_orElse. cbn [truthyO].
    split.
    + intros (_ & _ & Hua & [Et|(t & Et & Hw)] & Hip); [discriminate Et|].
      assert (E : t = now env) by congruence. subst t.
      split; [exact Hua|]. split; [exact Hip|exact Hw].
    + intros (Hua & Hip & Hw).
      split; [exact (ConsumerTraceFacts.codeFormat_truthy _ Hc)|].
      split; [exact (ConsumerTraceFacts.ipRegex_truthy _ Hip)|].
      split; [exact Hua|]. split; [|exact Hip].
      right. exists (now env). split; [reflexivity|exact Hw].
Qed.

Lemma redirect_event_accepted_iff_witness :
  let w := Sample.worldWith (Sample.record "gh1" "https://github.com/rocq" None) in
  let ev := HitEventDto.mk (Some "gh1") (Some (JsDate.instant 5000))
              (Some "::ffff:203.0.113.7")
              (Some "Mozilla/5.0") (Some "direct") None None
              (Some "desktop") (Some "Chrome") (Some "Linux") in
  topic (snd (RedirectController.redirect (P:=Url.model) Sample.cfg (Sample.env 5000)
                "gh1" "::ffff:203.0.113.7" (Some "Mozilla/5.0") None w))
  = (topic w ++ [ev])%list
  /\ AnalyticsConsumerService.isValidHitEvent 6000 ev <> true.
Proof.
  intros w ev.
  assert (H : topic (snd (RedirectController.redirect (P:=Url.model) Sample.cfg
                            (Sample.env 5000) "gh1" "::ffff:203.0.113.7"
                            (Some "Mozilla/5.0") None w))
              = (topic w ++ [ev])%list) by reflexivity.
  split; [exact H|].
  intros Hv.
  apply (proj1 (redirect_event_accepted_iff (P:=Url.model) Sample.cfg (Sample.env 5000)
                  "gh1" "::ffff:203.0.113.7" (Some "Mozilla/5.0") None w ev 6000 H)) in Hv.
  destruct Hv as (_ & Hip & _). vm_compute in Hip. discriminate Hip.
Defined.

(** ** The analytics store *)

Module SeriesFacts.

Import CassandraService.

(** The generic form of the counter update: under a selection that
    does not tell equal keys apart, the selected sum of the count
    column grows by one exactly when the updated key is selected. *)
Lemma sum_upsert_count {K} (eqb : K -> K -> bool) (sel : K -> bool) (k : K)
      (t : list (K * (Z * Z))) :
  (forall k', eqb k k' = true -> sel k' = sel k) ->
  sumZ (map (fun row => fst (snd row))
            (filter (fun row => sel (fst row)) (upsert eqb k plus1both t)))
  = sumZ (map (fun row => fst (snd row)) (filter (fun row => sel (fst row)) t))
    + (if sel k then 1 else 0).
Proof.
  intros Hsel. induction t as [|[k' [c u]] r IH]; simpl.
  - destruct (sel k); simpl.
    + rewrite SortFacts.sumZ_cons. reflexivity.
    + reflexivity.
  - destruct (eqb k k') eqn:E; simpl.
    + rewrite (Hsel k' E). destruct (sel k); simpl.
      * rewrite !SortFacts.sumZ_cons. simpl. lia.
      * lia.
    + destruct (sel k'); simpl.
      * rewrite !SortFacts.sumZ_cons, IH. simpl. lia.
      * exact IH.
Qed.

Lemma eqbMinute_eq (a b : MinuteKey) : eqbMinute a b = true -> a = b.
Proof.
  destruct a as [[[c1 d1] h1] m1], b as [[[c2 d2] h2] m2]. simpl.
  intros H. apply andb_true_iff in H as [H H4]. apply andb_true_iff in H as [H H3].
  apply andb_true_iff in H as [H1 H2].
  apply String.eqb_eq in H1. apply Z.eqb_eq in H2, H3, H4. now subst.
Qed.

Section WithHash.

Context (sha256hex : string -> string).

Lemma batch_hits_by_minute (ev : HitEventDto.t) (t : Z) (s : Store) :
  hits_by_minute (batch (queriesFor sha256hex ev t) s)
  = upsert eqbMinute (orElse (HitEventDto.code ev) "", dateOf t, hourOf t, minuteOf t)
           plus1both (hits_by_minute s).
Proof.
  unfold queriesFor, batch.
  destruct (truthyO (HitEventDto.referrer ev) && _),
           (truthyO (HitEventDto.country ev)),
           (truthyO (HitEventDto.deviceType ev) || _ || _); reflexivity.
Qed.

Lemma batch_referrers (ev : HitEventDto.t) (t : Z) (s : Store) :
  referrers (batch (queriesFor sha256hex ev t) s)
  = if truthyO (HitEventDto.referrer ev)
       && negb (String.eqb (orElse (HitEventDto.referrer ev) "") "direct")
    then upsert eqbPair (orElse (HitEventDto.code ev) "",
                         orElse (HitEventDto.referrer ev) "") plus1 (referrers s)
    else referrers s.
Proof.
  unfold queriesFor, batch.
  destruct (truthyO (HitEventDto.referrer ev) && _),
           (truthyO (HitEventDto.country ev)),
           (truthyO (HitEventDto.deviceType ev) || _ || _); reflexivity.
Qed.

Lemma batch_unique_visitors (ev : HitEventDto.t) (t : Z) (s : Store) :
  unique_visitors (batch (queriesFor sha256hex ev t) s)
  = let v := (orElse (HitEventDto.code ev) "", dateOf t,
              createVisitorHash sha256hex (orElse (HitEventDto.ip ev) "")
                                (orElse (HitEventDto.userAgent ev) "")) in
    if existsb (eqbVisitor v) (unique_visitors s)
    then unique_visitors s else (unique_visitors s ++ [v])%list.
Proof.
  unfold queriesFor, batch.
  destruct (truthyO (HitEventDto.referrer ev) && _),
           (truthyO (HitEventDto.country ev)),
           (truthyO (HitEventDto.deviceType ev) || _ || _); reflexivity.
Qed.

(** Recording events adds to the selected sum of the minute table
    what it adds to the selected sum of the hour table. *)
Lemma minute_total_recordAll (code : string) (startDate endDate : option Z)
      (evs : list HitEventDto.t) (s : Store) :
  let sel := fun k : MinuteKey =>
               let '(c, d, _, _) := k in String.eqb c code && inRange startDate endDate d in
  let n := Z.of_nat (List.length (filter (fun ev =>
             match HitEventDto.timestamp ev with
             | Some (JsDate.instant t) =>
                 whereCodeAndRange code startDate endDate
                   (orElse (HitEventDto.code ev) "", dateOf t, hourOf t)
             | _ => false
             end) evs)) in
  sumZ (map (fun row => fst (snd row))
          (filter (fun row => sel (fst row)) (hits_by_minute (recordAll sha256hex evs s))))
  = sumZ (map (fun row => fst (snd row))
            (filter (fun row => sel (fst row)) (hits_by_minute s))) + n.
Proof.
  cbv zeta. revert s. induction evs as [|ev evs IH]; intros s.
  - simpl. lia.
  - rewrite TotalsFacts.recordAll_cons. cbn [filter].
    unfold recordHitEvent.
    destruct (HitEventDto.timestamp ev) as [[t|]|].
    + rewrite IH, batch_hits_by_minute.
      rewrite (sum_upsert_count eqbMinute
                 (fun k : MinuteKey =>
                    let '(c, d, _, _) := k in
                    String.eqb c code && inRange startDate endDate d)).
      * cbn [whereCodeAndRange].
        destruct (String.eqb (orElse (HitEventDto.code ev) "") code
                  && inRange startDate endDate (dateOf t)); cbn [List.length]; lia.
      * intros k' E. apply eqbMinute_eq in E. now subst.
    + apply IH.
    + apply IH.
Qed.

(** After the events are recorded on an empty store, the rows either
    series is made from are there as soon as one recorded event falls
    under the query. *)
Lemma rows_selected_after_record (code : string) (startDate endDate : option Z)
      (evs : list HitEventDto.t) (ev : HitEventDto.t) (t : Z) :
  In ev evs ->
  HitEventDto.timestamp ev = Some (JsDate.instant t) ->
  whereCodeAndRange code startDate endDate
    (orElse (HitEventDto.code ev) "", dateOf t, hourOf t) = true ->
  filter (fun row => whereCodeAndRange code startDate endDate (fst row))
         (hits_by_hour (recordAll sha256hex evs emptyStore)) <> []
  /\ filter (fun row : MinuteKey * (Z * Z) =>
               let '(c, d, _, _) := fst row in
               String.eqb c code && inRange startDate endDate d)
            (hits_by_minute (recordAll sha256hex evs emptyStore)) <> [].
Proof.
  intros Hin Ht Hsel.
  assert (Hn : (1 <= List.length (filter (fun ev =>
             match HitEventDto.timestamp ev with
             | Some (JsDate.instant t) =>
                 whereCodeAndRange code startDate endDate
                   (orElse (HitEventDto.code ev) "", dateOf t, hourOf t)
             | _ => false
             end) evs))%nat).
  { assert (Hf : In ev (filter (fun ev =>
             match HitEventDto.timestamp ev with
             | Some (JsDate.instant t) =>
                 whereCodeAndRange code startDate endDate
                   (orElse (HitEventDto.code ev) "", dateOf t, hourOf t)
             | _ => false
             end) evs)).
    { apply filter_In. split; [exact Hin|]. rewrite Ht. exact Hsel. }
    destruct (filter _ evs); [contradiction Hf|cbn [List.length]; lia]. }
  split.
  - intros E.
    pose proof (proj1 (TotalsFacts.getTotalStats_recordAll sha256hex code startDate endDate
                         evs emptyStore)) as H.
    cbv zeta in H. unfold getTotalStats at 1 in H. cbn [totalHits] in H.
    rewrite E in H. change (sumZ (map _ [])) with 0 in H.
    change (totalHits (getTotalStats code startDate endDate emptyStore)) with 0 in H.
    lia.
  - intros E.
    pose proof (minute_total_recordAll code startDate endDate evs emptyStore) as H.
    cbv zeta in H.
    assert (Hz : sumZ (map (fun row : MinuteKey * (Z * Z) => fst (snd row))
                   (filter (fun row : MinuteKey * (Z * Z) =>
                              let '(c, d, _, _) := fst row in
                              String.eqb c code && inRange startDate endDate d)
                           (hits_by_minute (recordAll sha256hex evs emptyStore)))) = 0)
      by (rewrite E; reflexivity).
    pose proof (eq_trans (eq_sym Hz) H) as H0.
    cbn [hits_by_minute emptyStore filter map] in H0.
    change (sumZ []) with 0 in H0. lia.
Qed.

End WithHash.

(** [getTimeSeries] answers only with the empty series. *)
Lemma getTimeSeries_Ok (code : string) (startDate endDate : option Z) (g : Granularity)
      (s : Store) (series : list (Z * Z)) :
  getTimeSeries code startDate endDate g s = Ok series ->
  series = []
  /\ (g <> minute ->
      filter (fun row => whereCodeAndRange code startDate endDate (fst row))
             (hits_by_hour s) = []).
Proof.
  unfold getTimeSeries, mapRows. intros H.
  destruct g;
    match type of H with
    | match ?rows with _ => _ end = _ => destruct rows; [|discriminate H]
    end.
  - split; [congruence|]. intros Hg. now contradiction Hg.
  - split; [congruence|reflexivity].
  - split; [congruence|reflexivity].
Qed.

(** ... and throws as soon as the table it reads has a row to show. *)
Lemma getTimeSeries_throws (code : string) (startDate endDate : option Z)
      (g : Granularity) (s : Store) :
  filter (fun row => whereCodeAndRange code startDate endDate (fst row))
         (hits_by_hour s) <> [] ->
  filter (fun row : MinuteKey * (Z * Z) =>
            let '(c, d, _, _) := fst row in
            String.eqb c code && inRange startDate endDate d)
         (hits_by_minute s) <> [] ->
  getTimeSeries code startDate endDate g s
  = Throw (Error "row.date.getFullYear is not a function").
Proof.
  unfold getTimeSeries, mapRows. intros Hh Hm.
  destruct g;
    match goal with
    | |- match ?rows with _ => _ end = _ => destruct rows eqn:E
    end;
    solve [ exfalso; first [apply Hm; exact E | apply Hh; reflexivity] | reflexivity ].
Qed.

End SeriesFacts.

(** X14: [getAnalytics] answers only when the time series has no row
    to show: its series is always empty, because [getTimeSeries] throws
    at the first row it selects.  For the granularities [hour] and
    [day], whose rows are the ones the totals are summed from, every
    answer of [getAnalytics] therefore reports no hit and no visitor. *)
Theorem getAnalytics_answers_only_without_hits (code : string)
    (startDate endDate : option Z) (g : CassandraService.Granularity)
    (s : CassandraService.Store) (a : CassandraService.AnalyticsResponseDto) :
  CassandraService.getAnalytics code startDate endDate g s = Ok a ->
  CassandraService.getTimeSeries code startDate endDate g s = Ok []
  /\ CassandraService.a_timeSeries a = []
  /\ (g <> CassandraService.minute ->
      CassandraService.a_totalHits a = 0 /\ CassandraService.a_uniqueVisitors a = 0).
Proof.
  unfold CassandraService.getAnalytics. intros H.
  destruct (CassandraService.getTimeSeries code startDate endDate g s) as [series|x] eqn:E;
    [|discriminate H].
  destruct (SeriesFacts.getTimeSeries_Ok code startDate endDate g s series E) as [-> Hrows].
  injection H as <-.
  cbn [CassandraService.a_timeSeries CassandraService.a_totalHits
       CassandraService.a_uniqueVisitors].
  split; [reflexivity|]. split; [reflexivity|].
  intros Hg. unfold CassandraService.getTotalStats.
  rewrite (Hrows Hg). split; reflexivity.
Qed.

Lemma getAnalytics_answers_only_without_hits_witness :
  let s := CassandraService.recordAll Sample.digest Sample.threeHits
             CassandraService.emptyStore in
  exists a,
    CassandraService.getAnalytics "other" None None CassandraService.hour s = Ok a
    /\ CassandraService.a_timeSeries a = []
    /\ CassandraService.a_totalHits a = 0.
Proof.
  intros s.
  assert (H : CassandraService.getAnalytics "other" None None CassandraService.hour s
              = Ok (CassandraService.mkAnalytics "other" 0 0 None None [] [] [] [] []))
    by reflexivity.
  eexists. split; [exact H|].
  destruct (getAnalytics_answers_only_without_hits "other" None None CassandraService.hour
              s _ H) as (_ & H1 & H2).
  split; [exact H1|]. apply H2. discriminate.
Defined.

(** X15: in a store filled by [recordHitEvent] alone, [getAnalytics]
    throws, for every granularity, as soon as one recorded event of the
    code falls in the range asked for: the hourly row and the minute row
    of that event are among the rows of the time series. *)
Theorem getAnalytics_throws_after_recorded_hit (sha256hex : string -> string)
    (events : list HitEventDto.t) (code : string) (startDate endDate : option Z)
    (g : CassandraService.Granularity) (ev : HitEventDto.t) (t : Z) :
  In ev events ->
  HitEventDto.timestamp ev = Some (JsDate.instant t) ->
  orElse (HitEventDto.code ev) "" = code ->
  match startDate, endDate with
  | Some a, Some b => a / 86400000 <= t / 86400000 <= b / 86400000
  | _, _ => True
  end ->
  exists x,
    CassandraService.getTimeSeries code startDate endDate g
      (CassandraService.recordAll sha256hex events CassandraService.emptyStore) = Throw x
    /\ CassandraService.getAnalytics code startDate endDate g
         (CassandraService.recordAll sha256hex events CassandraService.emptyStore)
       = Throw x.
Proof.
  intros Hin Ht Hc Hr.
  assert (Hsel : CassandraService.whereCodeAndRange code startDate endDate
                   (orElse (HitEventDto.code ev) "",
                    CassandraService.dateOf t, CassandraService.hourOf t) = true).
  { cbn [CassandraService.whereCodeAndRange]. rewrite Hc, String.eqb_refl. cbn [andb].
    unfold CassandraService.inRange, CassandraService.dateOf, CassandraService.msPerDay.
    destruct startDate as [a|]; [|reflexivity]. destruct endDate as [b|]; [|reflexivity].
    apply andb_true_iff. split; apply Z.leb_le; lia. }
  destruct (SeriesFacts.rows_selected_after_record sha256hex code startDate endDate
              events ev t Hin Ht Hsel) as [Hh Hm].
  exists (Error "row.date.getFullYear is not a function").
  unfold CassandraService.getAnalytics.
  rewrite (SeriesFacts.getTimeSeries_throws code startDate endDate g _ Hh Hm).
  split; reflexivity.
Qed.

Lemma getAnalytics_throws_after_recorded_hit_witness :
  CassandraService.getAnalytics "c" (Some Sample.noon) (Some Sample.onePm)
    CassandraService.hour
    (CassandraService.recordAll Sample.digest Sample.threeHits CassandraService.emptyStore)
  = Throw (Error "row.date.getFullYear is not a function").
Proof.
  assert (H1 : In (Sample.hit "c" Sample.noon "198.51.100.1" "Mozilla/5.0")
                  Sample.threeHits) by (left; reflexivity).
  assert (H4 : Sample.noon / 86400000 <= Sample.noon / 86400000
               <= Sample.onePm / 86400000) by (vm_compute; split; discriminate).
  destruct (getAnalytics_throws_after_recorded_hit Sample.digest Sample.threeHits "c"
              (Some Sample.noon) (Some Sample.onePm) CassandraService.hour
              (Sample.hit "c" Sample.noon "198.51.100.1" "Mozilla/5.0") Sample.noon
              H1 eq_refl eq_refl H4) as (x & _ & Hx).
  rewrite Hx. f_equal.
  assert (E : CassandraService.getAnalytics "c" (Some Sample.noon) (Some Sample.onePm)
                CassandraService.hour
                (CassandraService.recordAll Sample.digest Sample.threeHits
                   CassandraService.emptyStore)
              = Throw (Error "row.date.getFullYear is not a function")) by reflexivity.
  congruence.
Defined.

Module DistributionFacts.

Import CassandraService.

Lemma mapAdd_total (k : string) (count : Z) (m : list (string * Z)) :
  sumZ (map snd (mapAdd k count m)) = sumZ (map snd m) + count.
Proof.
  unfold mapAdd. induction m as [|[k' v] r IH]; cbn [upsert map snd].
  - rewrite SortFacts.sumZ_cons. change (sumZ []) with 0. lia.
  - destruct (String.eqb k k'); cbn [map snd].
    + rewrite !SortFacts.sumZ_cons. lia.
    + rewrite !SortFacts.sumZ_cons, IH. lia.
Qed.

Lemma mapAdd_keys (k : string) (count : Z) (m : list (string * Z)) :
  NoDup (map fst m) -> NoDup (map fst (mapAdd k count m)).
Proof.
  unfold mapAdd. intros H.
  assert (G : map fst (upsert String.eqb k
                         (fun o => match o with Some n => n + count | None => 0 + count end) m)
              = if existsb (String.eqb k) (map fst m)
                then map fst m else (map fst m ++ [k])%list).
  { clear H. induction m as [|[k' v] r IH]; cbn [upsert map fst existsb].
    - reflexivity.
    - destruct (String.eqb k k'); cbn [map fst orb].
      + reflexivity.
      + rewrite IH. destruct (existsb (String.eqb k) (map fst r)); reflexivity. }
  rewrite G. destruct (existsb (String.eqb k) (map fst m)) eqn:E.
  - exact H.
  - apply UniqueFacts.NoDup_snoc; [exact H|].
    intros Hin. assert (X : existsb (String.eqb k) (map fst m) = true).
    { apply existsb_exists. exists k. split; [exact Hin|apply String.eqb_refl]. }
    rewrite X in E. discriminate E.
Qed.

Lemma fold_mapAdd {A} (step : list (string * Z) -> A -> list (string * Z))
      (key : A -> string) (count : A -> Z) (rows : list A) (m : list (string * Z)) :
  (forall m row, step m row = mapAdd (key row) (count row) m) ->
  NoDup (map fst m) ->
  sumZ (map snd (fold_left step rows m)) = sumZ (map snd m) + sumZ (map count rows)
  /\ NoDup (map fst (fold_left step rows m)).
Proof.
  intros Hstep. revert m. induction rows as [|row rows IH]; intros m Hm; cbn [fold_left map].
  - change (sumZ []) with 0. split; [lia|exact Hm].
  - rewrite Hstep.
    destruct (IH (mapAdd (key row) (count row) m) (mapAdd_keys _ _ _ Hm)) as [H1 H2].
    split; [|exact H2].
    rewrite H1, mapAdd_total, SortFacts.sumZ_cons. lia.
Qed.

Lemma withPercentages_hits (m : list (string * Z)) :
  map rs_hits (withPercentages m) = map snd m.
Proof. unfold withPercentages. rewrite map_map. reflexivity. Qed.

Lemma withPercentages_keys (m : list (string * Z)) :
  map rs_referrer (withPercentages m) = map fst m.
Proof. unfold withPercentages. rewrite map_map. reflexivity. Qed.

Lemma In_firstn {A} (n : nat) (l : list A) (x : A) : In x (firstn n l) -> In x l.
Proof.
  intros H. rewrite <- (firstn_skipn n l). apply in_or_app. now left.
Qed.

Lemma existsb_eqbVisitor (v : string * Z * string) (l : list (string * Z * string)) :
  existsb (eqbVisitor v) l = false -> ~ In v l.
Proof.
  intros H Hin. assert (X : existsb (eqbVisitor v) l = true).
  { apply existsb_exists. exists v. split; [exact Hin|].
    destruct v as [[c d] h]. simpl. now rewrite !String.eqb_refl, Z.eqb_refl. }
  rewrite X in H. discriminate H.
Qed.

Lemma upsert_plus1_Forall (Q : string * string -> Prop) (k : string * string)
      (t : list (string * string * Z)) :
  Forall (fun row => Q (fst row) /\ 1 <= snd row) t ->
  Q k ->
  Forall (fun row => Q (fst row) /\ 1 <= snd row) (upsert eqbPair k plus1 t).
Proof.
  intros Ht Hk. induction t as [|[k' v] r IH]; simpl.
  - constructor; [split; [exact Hk|simpl; lia]|constructor].
  - inversion Ht as [|? ? Hq Hr]; subst. destruct (eqbPair k k').
    + constructor; [|exact Hr]. destruct Hq as [Hq1 Hq2]. simpl in *. split; [exact Hq1|lia].
    + constructor; [exact Hq|apply IH; exact Hr].
Qed.

End DistributionFacts.

(** X16: the device breakdown and the browser breakdown of a code
    both account for every counted row: the hits of either list add up
    to the sum of the counts of the code's rows in [devices], and no
    device type and no browser is listed twice. *)
Theorem getDeviceDistribution_accounts_for_all_rows (code : string)
    (s : CassandraService.Store) :
  let rows := filter (fun row : CassandraService.DeviceKey * Z =>
                        let '(c, _, _, _) := fst row in String.eqb c code)
                     (CassandraService.devices s) in
  let r := CassandraService.getDeviceDistribution code s in
  CassandraService.sumZ (map CassandraService.rs_hits (fst r))
  = CassandraService.sumZ (map snd rows)
  /\ CassandraService.sumZ (map CassandraService.rs_hits (snd r))
     = CassandraService.sumZ (map snd rows)
  /\ NoDup (map CassandraService.rs_referrer (fst r))
  /\ NoDup (map CassandraService.rs_referrer (snd r)).
Proof.
  intros rows r. subst r rows. unfold CassandraService.getDeviceDistribution.
  cbn [fst snd].
  rewrite !DistributionFacts.withPercentages_hits, !DistributionFacts.withPercentages_keys.
  set (rows := filter _ (CassandraService.devices s)).
  destruct (DistributionFacts.fold_mapAdd
              (fun m (row : CassandraService.DeviceKey * Z) =>
                 let '(_, t, _, _) := fst row in CassandraService.mapAdd t (snd row) m)
              (fun row : CassandraService.DeviceKey * Z => let '(_, t, _, _) := fst row in t)
              snd rows []) as [H1 H2].
  { intros m [[[[c t] b] o] n]. reflexivity. }
  { constructor. }
  destruct (DistributionFacts.fold_mapAdd
              (fun m (row : CassandraService.DeviceKey * Z) =>
                 let '(_, _, b, _) := fst row in CassandraService.mapAdd b (snd row) m)
              (fun row : CassandraService.DeviceKey * Z => let '(_, _, b, _) := fst row in b)
              snd rows []) as [H3 H4].
  { intros m [[[[c t] b] o] n]. reflexivity. }
  { constructor. }
  change (CassandraService.sumZ (map snd [])) with 0 in H1, H3.
  split; [etransitivity; [exact H1|lia]|].
  split; [etransitivity; [exact H3|lia]|].
  split; [exact H2|exact H4].
Qed.

(** X17: a direct visit is no referrer.  In a store filled by
    [recordHitEvent] alone, every entry of the top referrers names a
    non-empty referrer other than [direct] and has at least one hit; the
    events of visits without a referrer, which the redirect publishes
    with referrer [direct], add no row. *)
Theorem getTopReferrers_never_lists_direct (sha256hex : string -> string)
    (events : list HitEventDto.t) (code : string) (limit : nat) :
  Forall (fun r => CassandraService.rs_referrer r <> "direct"
                   /\ CassandraService.rs_referrer r <> ""
                   /\ 1 <= CassandraService.rs_hits r)
         (CassandraService.getTopReferrers code limit
            (CassandraService.recordAll sha256hex events CassandraService.emptyStore)).
Proof.
  assert (Inv : forall evs s,
            Forall (fun row : string * string * Z =>
                      (snd (fst row) <> "direct" /\ snd (fst row) <> "") /\ 1 <= snd row)
                   (CassandraService.referrers s) ->
            Forall (fun row : string * string * Z =>
                      (snd (fst row) <> "direct" /\ snd (fst row) <> "") /\ 1 <= snd row)
                   (CassandraService.referrers
                      (CassandraService.recordAll sha256hex evs s))).
  { induction evs as [|ev evs IH]; intros s Hs; [exact Hs|].
    rewrite TotalsFacts.recordAll_cons. apply IH.
    unfold CassandraService.recordHitEvent.
    destruct (HitEventDto.timestamp ev) as [[t|]|]; [|exact Hs|exact Hs].
    rewrite SeriesFacts.batch_referrers.
    destruct (truthyO (HitEventDto.referrer ev)) eqn:Et; cbn [andb]; [|exact Hs].
    destruct (String.eqb (orElse (HitEventDto.referrer ev) "") "direct") eqn:Ed;
      cbn [negb]; [exact Hs|].
    apply (DistributionFacts.upsert_plus1_Forall
             (fun k => snd k <> "direct" /\ snd k <> "")); [exact Hs|].
    cbn [snd]. split.
    - apply String.eqb_neq. exact Ed.
    - destruct (HitEventDto.referrer ev) as [r|]; [|discriminate Et].
      cbn [truthyO orElse] in *. rewrite Et. intros ->. discriminate Et. }
  specialize (Inv events CassandraService.emptyStore (Forall_nil _)).
  unfold CassandraService.getTopReferrers.
  set (s := CassandraService.recordAll sha256hex events CassandraService.emptyStore) in *.
  apply Forall_forall. intros r Hr.
  apply in_map_iff in Hr as ([ref n] & <- & Hin).
  cbn [CassandraService.rs_referrer CassandraService.rs_hits fst snd].
  apply DistributionFacts.In_firstn in Hin.
  apply (Permutation_in _ (SortFacts.sortBy_perm _ _)) in Hin.
  unfold CassandraService.selectReferrers in Hin.
  apply in_map_iff in Hin as ([[c ref'] n'] & E & Hin).
  cbn [fst snd] in E. injection E as <- <-.
  apply filter_In in Hin as [Hin _].
  rewrite Forall_forall in Inv. specialize (Inv _ Hin). cbn [fst snd] in Inv.
  destruct Inv as [[H1 H2] H3]. auto.
Qed.

(** X18: in a store filled by [recordHitEvent] alone, the table
    [unique_visitors] holds every visitor of a code and day at most
    once, and the [uniqueVisitors] figure that [getTotalStats] reports
    for a code over all dates is never less than the number of that
    code's rows in the table. *)
Theorem uniqueVisitors_bounds_visitor_rows (sha256hex : string -> string)
    (events : list HitEventDto.t) (code : string) :
  let s := CassandraService.recordAll sha256hex events CassandraService.emptyStore in
  NoDup (CassandraService.unique_visitors s)
  /\ Z.of_nat (List.length
                 (filter (fun v : string * Z * string => String.eqb (fst (fst v)) code)
                         (CassandraService.unique_visitors s)))
     <= CassandraService.uniqueVisitors (CassandraService.getTotalStats code None None s).
Proof.
  intros s. subst s.
  assert (Inv : forall evs s,
            NoDup (CassandraService.unique_visitors s) ->
            NoDup (CassandraService.unique_visitors
                     (CassandraService.recordAll sha256hex evs s))
            /\ Z.of_nat (List.length
                  (filter (fun v : string * Z * string => String.eqb (fst (fst v)) code)
                     (CassandraService.unique_visitors
                        (CassandraService.recordAll sha256hex evs s))))
               <= Z.of_nat (List.length
                    (filter (fun v : string * Z * string => String.eqb (fst (fst v)) code)
                       (CassandraService.unique_visitors s)))
                  + Z.of_nat (List.length (filter (fun ev =>
                      match HitEventDto.timestamp ev with
                      | Some (JsDate.instant t) =>
                          CassandraService.whereCodeAndRange code None None
                            (orElse (HitEventDto.code ev) "",
                             CassandraService.dateOf t, CassandraService.hourOf t)
                      | _ => false
                      end) evs))).
  { induction evs as [|ev evs IH]; intros s Hs.
    - simpl. split; [exact Hs|lia].
    - rewrite TotalsFacts.recordAll_cons. cbn [filter].
      unfold CassandraService.recordHitEvent.
      destruct (HitEventDto.timestamp ev) as [[t|]|];
        [|apply IH; exact Hs|apply IH; exact Hs].
      assert (Hn : NoDup (CassandraService.unique_visitors
                            (CassandraService.batch
                               (CassandraService.queriesFor sha256hex ev t) s))
                   /\ Z.of_nat (List.length
                        (filter (fun v : string * Z * string =>
                                   String.eqb (fst (fst v)) code)
                           (CassandraService.unique_visitors
                              (CassandraService.batch
                                 (CassandraService.queriesFor sha256hex ev t) s))))
                      <= Z.of_nat (List.length
                           (filter (fun v : string * Z * string =>
                                      String.eqb (fst (fst v)) code)
                              (CassandraService.unique_visitors s)))
                         + (if CassandraService.whereCodeAndRange code None None
                                 (orElse (HitEventDto.code ev) "",
                                  CassandraService.dateOf t, CassandraService.hourOf t)
                            then 1 else 0)).
      { rewrite SeriesFacts.batch_unique_visitors. cbv zeta.
        destruct (existsb _ (CassandraService.unique_visitors s)) eqn:E.
        - split; [exact Hs|]. destruct (CassandraService.whereCodeAndRange _ _ _ _); lia.
        - split.
          + apply UniqueFacts.NoDup_snoc; [exact Hs|].
            exact (DistributionFacts.existsb_eqbVisitor _ _ E).
          + rewrite filter_app, length_app. cbn [filter fst CassandraService.whereCodeAndRange
              CassandraService.inRange].
            rewrite andb_true_r.
            destruct (String.eqb (orElse (HitEventDto.code ev) "") code);
              cbn [List.length]; lia. }
      destruct Hn as [Hn1 Hn2].
      destruct (IH _ Hn1) as [IH1 IH2]. split; [exact IH1|].
      destruct (CassandraService.whereCodeAndRange code None None _); cbn [List.length];
        lia. }
  destruct (Inv events CassandraService.emptyStore (NoDup_nil _)) as [H1 H2].
  split; [exact H1|].
  rewrite (proj2 (TotalsFacts.getTotalStats_recordAll sha256hex code None None events
                    CassandraService.emptyStore)).
  change (CassandraService.uniqueVisitors
            (CassandraService.getTotalStats code None None CassandraService.emptyStore))
    with 0.
  cbn [CassandraService.unique_visitors CassandraService.emptyStore filter List.length] in H2.
  lia.
Qed.

(** ** Paging, rate limiting and the admin guard *)

Module PagingFacts.

Import PaginationQueryDto.

Lemma ceilDiv_lt (p total l : Z) :
  0 < l -> (p < ceilDiv total l <-> p * l < total).
Proof.
  intros Hl. unfold ceilDiv. split; intros H.
  - pose proof (Z.mul_div_le (total + l - 1) l Hl). nia.
  - assert (G : p + 1 <= (total + l - 1) / l).
    { apply Z.div_le_lower_bound; [exact Hl|nia]. }
    lia.
Qed.

Lemma ceilDiv_scaled (a : Z) : 0 < a -> a <= ceilDiv a 1000 * 1000.
Proof.
  intros Ha. unfold ceilDiv.
  pose proof (Z.div_mod (a + 1000 - 1) 1000 ltac:(lia)).
  pose proof (Z.mod_pos_bound (a + 1000 - 1) 1000 ltac:(lia)). lia.
Qed.

Lemma normalize_bounds_aux (q : t) :
  1 <= page (normalize q) <= 1000
  /\ 1 <= limit (normalize q) <= 100
  /\ 0 <= offset (normalize q).
Proof.
  destruct q as [p l]. unfold normalize, offset. cbn [page limit].
  split; [lia|]. split; [lia|nia].
Qed.

End PagingFacts.

(** X19: whatever page and limit a listing request asks for, the
    query that is run uses a page between 1 and 1000 and a limit
    between 1 and 100, skips a non-negative number of rows, and
    normalising a second time changes nothing. *)
Theorem normalize_bounds (q : PaginationQueryDto.t) :
  let n := PaginationQueryDto.normalize q in
  1 <= PaginationQueryDto.page n <= 1000
  /\ 1 <= PaginationQueryDto.limit n <= 100
  /\ 0 <= PaginationQueryDto.offset n <= 99900
  /\ PaginationQueryDto.normalize n = n.
Proof.
  destruct q as [p l]. unfold PaginationQueryDto.normalize, PaginationQueryDto.offset.
  cbn [PaginationQueryDto.page PaginationQueryDto.limit].
  split; [lia|]. split; [lia|]. split; [nia|].
  f_equal; lia.
Qed.

(** X20: the page of a listing and its flags agree with the rows.
    The page holds at most [limit] rows; together with the rows after
    it, it makes up exactly the rows after the offset; [hasNext] is set
    exactly when rows remain after the page, and [hasPrev] exactly when
    rows were skipped before it. *)
Theorem getUrls_page_flags_agree_with_rows {A : Type} (q : PaginationQueryDto.t)
    (rows : list A) :
  let n := PaginationQueryDto.normalize q in
  let info := PaginationQueryDto.pageInfo q (Z.of_nat (List.length rows)) in
  let rest := skipn (Z.to_nat (PaginationQueryDto.offset n + PaginationQueryDto.limit n))
                    rows in
  (List.length (PaginationQueryDto.pageOf q rows)
   <= Z.to_nat (PaginationQueryDto.limit n))%nat
  /\ (PaginationQueryDto.pageOf q rows ++ rest)%list
     = skipn (Z.to_nat (PaginationQueryDto.offset n)) rows
  /\ (PaginationQueryDto.hasNext info = true <-> rest <> [])
  /\ (PaginationQueryDto.hasPrev info = true <-> 0 < PaginationQueryDto.offset n).
Proof.
  intros n info rest.
  destruct (PagingFacts.normalize_bounds_aux q) as (Hp & Hl & Ho).
  fold n in Hp, Hl, Ho.
  split; [unfold PaginationQueryDto.pageOf; fold n; apply firstn_le_length|].
  split.
  { subst rest. unfold PaginationQueryDto.pageOf. fold n.
    rewrite Z2Nat.inj_add by lia.
    rewrite (Nat.add_comm (Z.to_nat (PaginationQueryDto.offset n))).
    rewrite <- skipn_skipn. apply firstn_skipn. }
  split.
  - subst info. unfold PaginationQueryDto.pageInfo. fold n.
    cbn [PaginationQueryDto.hasNext].
    rewrite Z.ltb_lt, PagingFacts.ceilDiv_lt by lia.
    subst rest. unfold PaginationQueryDto.offset in *.
    split.
    + intros H E. apply skipn_all_iff in E. nia.
    + intros H. destruct (Z_lt_le_dec (PaginationQueryDto.page n * PaginationQueryDto.limit n)
                            (Z.of_nat (List.length rows))) as [G|G]; [exact G|].
      exfalso. apply H. apply skipn_all_iff. nia.
  - subst info. unfold PaginationQueryDto.pageInfo. fold n.
    cbn [PaginationQueryDto.hasPrev]. rewrite Z.ltb_lt.
    unfold PaginationQueryDto.offset. nia.
Qed.

Module RateLimitFacts.

Import RateLimit.

Lemma find_store (key : string) (entry : Z * option Z) (c : Counters) :
  find (fun kv => String.eqb (fst kv) key) (store key entry c) = Some (key, entry).
Proof. unfold store. cbn [find fst]. now rewrite String.eqb_refl. Qed.

Section Window.

Context (key : string) (limit windowMs W : Z).
Hypothesis windowMs_pos : 0 < windowMs.

Lemma in_window (t : Z) : t / windowMs = W -> W * windowMs <= t < (W + 1) * windowMs.
Proof.
  intros <-. pose proof (Z.mul_div_le t windowMs windowMs_pos).
  pose proof (Z.mul_succ_div_gt t windowMs windowMs_pos). lia.
Qed.

Lemma checkRateLimit_step (now k : Z) (c : Counters) :
  now / windowMs = W ->
  ((k = 0 /\ forall t, t / windowMs = W ->
                lookup t ("rate:" ++ key ++ ":" ++ JS.showZ W) c = None)
   \/ (exists eol,
         find (fun kv => String.eqb (fst kv) ("rate:" ++ key ++ ":" ++ JS.showZ W)) c
         = Some ("rate:" ++ key ++ ":" ++ JS.showZ W, (k, Some eol))
         /\ (W + 1) * windowMs <= eol)) ->
  fst (checkRateLimit true now key limit windowMs c)
  = mkVerdict (k + 1 <=? limit) (Z.max 0 (limit - (k + 1))) ((W + 1) * windowMs)
  /\ ((k + 1 = 0 /\ forall t, t / windowMs = W ->
                lookup t ("rate:" ++ key ++ ":" ++ JS.showZ W)
                       (snd (checkRateLimit true now key limit windowMs c)) = None)
   \/ (exists eol,
         find (fun kv => String.eqb (fst kv) ("rate:" ++ key ++ ":" ++ JS.showZ W))
              (snd (checkRateLimit true now key limit windowMs c))
         = Some ("rate:" ++ key ++ ":" ++ JS.showZ W, (k + 1, Some eol))
         /\ (W + 1) * windowMs <= eol)).
Proof.
  intros Hw Hc. pose proof (in_window now Hw) as Hin.
  pose proof (PagingFacts.ceilDiv_scaled windowMs windowMs_pos) as Hs.
  unfold checkRateLimit. rewrite Hw.
  set (rk := ("rate:" ++ key ++ ":" ++ JS.showZ W)%string) in *.
  assert (Hincr : exists eol0,
            incr now rk c = (k + 1, store rk (k + 1, eol0) c)
            /\ alive now (k + 1, eol0) = true).
  { unfold incr. destruct Hc as [[-> Hnone]|(eol & Hf & He)].
    - rewrite (Hnone now Hw). exists None. split; reflexivity.
    - unfold lookup. rewrite Hf. cbn [snd alive].
      destruct (Z.ltb_spec now eol); [|lia].
      exists (Some eol). split; [reflexivity|].
      unfold alive. cbn [snd]. destruct (Z.ltb_spec now eol); [reflexivity|lia]. }
  destruct Hincr as (eol0 & -> & Halive).
  unfold expire, lookup. rewrite find_store. cbn [snd]. rewrite Halive.
  cbn [fst snd]. split; [reflexivity|].
  right. exists (now + PaginationQueryDto.ceilDiv windowMs 1000 * 1000).
  split; [apply find_store|]. lia.
Qed.

Lemma checkAll_counted (instants : list Z) (k : Z) (c : Counters) :
  Forall (fun t => t / windowMs = W) instants ->
  ((k = 0 /\ forall t, t / windowMs = W ->
                lookup t ("rate:" ++ key ++ ":" ++ JS.showZ W) c = None)
   \/ (exists eol,
         find (fun kv => String.eqb (fst kv) ("rate:" ++ key ++ ":" ++ JS.showZ W)) c
         = Some ("rate:" ++ key ++ ":" ++ JS.showZ W, (k, Some eol))
         /\ (W + 1) * windowMs <= eol)) ->
  checkAll key limit windowMs instants c
  = map (fun i => mkVerdict (k + Z.of_nat i <=? limit)
                            (Z.max 0 (limit - (k + Z.of_nat i)))
                            ((W + 1) * windowMs))
        (seq 1 (List.length instants)).
Proof.
  revert k c. induction instants as [|t rest IH]; intros k c Hall Hc.
  - reflexivity.
  - apply Forall_cons_iff in Hall as [Ht Hrest].
    cbn [checkAll List.length seq map].
    destruct (checkRateLimit_step t k c Ht Hc) as [Hv Hc'].
    destruct (checkRateLimit true t key limit windowMs c) as [v c'].
    cbn [fst snd] in Hv, Hc'. subst v.
    rewrite (IH (k + 1) c' Hrest Hc').
    f_equal.
    rewrite <- (seq_shift (List.length rest) 1), map_map. apply map_ext. intros i.
    replace (k + 1 + Z.of_nat i) with (k + Z.of_nat (S i)) by lia. reflexivity.
Qed.

End Window.

End RateLimitFacts.

(** X21: within one window of the rate limiter, and starting from a
    window that has not been counted yet, exactly the first [limit]
    calls for a key are allowed: the i-th call is allowed if and only if
    i <= limit, is told that max(0, limit - i) calls remain, and that the
    window ends at the start of the next one, in whatever order the
    instants of the calls lie within the window. *)
Theorem checkRateLimit_allows_first_limit_calls (key : string) (limit windowMs W : Z)
    (instants : list Z) (c : RateLimit.Counters) :
  0 < windowMs ->
  Forall (fun t => t / windowMs = W) instants ->
  (forall t, t / windowMs = W ->
     RateLimit.lookup t ("rate:" ++ key ++ ":" ++ JS.showZ W) c = None) ->
  RateLimit.checkAll key limit windowMs instants c
  = map (fun i => RateLimit.mkVerdict (Z.of_nat i <=? limit)
                                      (Z.max 0 (limit - Z.of_nat i))
                                      ((W + 1) * windowMs))
        (seq 1 (List.length instants)).
Proof.
  intros Hpos Hall Hnone.
  rewrite (RateLimitFacts.checkAll_counted key limit windowMs W Hpos instants 0 c Hall).
  - apply map_ext. intros i. reflexivity.
  - left. split; [reflexivity|exact Hnone].
Qed.

Lemma checkRateLimit_allows_first_limit_calls_witness :
  RateLimit.checkAll "203.0.113.7" 2 60000 [120000; 150000; 125000] []
  = [ RateLimit.mkVerdict true 1 180000;
      RateLimit.mkVerdict true 0 180000;
      RateLimit.mkVerdict false 0 180000 ].
Proof.
  assert (H1 : 0 < 60000) by lia.
  assert (H2 : Forall (fun t => t / 60000 = 2) [120000; 150000; 125000]).
  { repeat constructor. }
  assert (H3 : forall t, t / 60000 = 2 ->
                 RateLimit.lookup t ("rate:" ++ "203.0.113.7" ++ ":" ++ JS.showZ 2) []
                 = None).
  { intros t _. reflexivity. }
  exact (checkRateLimit_allows_first_limit_calls "203.0.113.7" 2 60000 2
           [120000; 150000; 125000] [] H1 H2 H3).
Defined.

(** X22: the admin guard lets a request pass if and only if the
    request carries the configured header with a non-empty value equal
    to the configured key.  In particular it admits nobody when no admin
    key is configured. *)
Theorem canActivate_iff (adminApiKey : option string) (apiKeyHeader : string)
    (headers : list (string * string)) :
  ApiKeyGuard.canActivate adminApiKey apiKeyHeader headers = ApiKeyGuard.activated
  <-> exists v, ApiKeyGuard.header (JS.toLowerCase apiKeyHeader) headers = Some v
                /\ v <> ""
                /\ adminApiKey = Some v.
Proof.
  unfold ApiKeyGuard.canActivate.
  destruct (ApiKeyGuard.header (JS.toLowerCase apiKeyHeader) headers) as [v|];
    cbn [truthyO orElse].
  - unfold JS.truthy. destruct (String.eqb v "") eqn:Ev; cbn [negb].
    + apply String.eqb_eq in Ev. split; [discriminate|].
      intros (v' & E & Hne & _). injection E as <-. contradiction.
    + apply String.eqb_neq in Ev. unfold ApiKeyGuard.strictNeq.
      destruct adminApiKey as [a|].
      * destruct (String.eqb v a) eqn:Ea; cbn [negb].
        -- apply String.eqb_eq in Ea. subst a. split; [|reflexivity].
           intros _. exists v. auto.
        -- apply String.eqb_neq in Ea. split; [discriminate|].
           intros (v' & E & _ & E'). injection E as <-. injection E' as <-.
           now contradiction Ea.
      * split; [discriminate|]. intros (v' & _ & _ & E). discriminate E.
  - split; [discriminate|]. intros (v & E & _). discriminate E.
Qed.

Module BatchFacts.

Import UrlController.

Lemma sortResults_length (results : list (CreateUrlResponseDto.t + BatchError)) :
  (List.length (fst (sortResults results)) + List.length (snd (sortResults results))
   = List.length results)%nat.
Proof.
  induction results as [|[r|e] rest IH]; cbn [sortResults].
  - reflexivity.
  - destruct (sortResults rest) as [s e]. cbn [fst snd List.length] in *. lia.
  - destruct (sortResults rest) as [s e']. cbn [fst snd List.length] in *. lia.
Qed.

Lemma batchOne_settles {P : Url.Platform} (cfg : Config) (env : Env)
      (ip ua : option string) (d : CreateUrlDto.t) (w : World) :
  exists r w', batchOne cfg env ip ua d w = (Ok r, w') /\ topic w' = topic w.
Proof.
  unfold batchOne, tryCatch, bind at 1.
  destruct (CreationFacts.createShortUrl_spec cfg env (withContext ip ua d) w)
    as [(x & Hx & _ & _ & Ht)|[(e & He & Hw & _)|(c & Hc & _ & Ht & _)]].
  - destruct (UrlService.createShortUrl cfg env (withContext ip ua d) w) as [r w'].
    cbn [fst snd] in *. subst r. eexists _, _. split; [reflexivity|exact Ht].
  - destruct (UrlService.createShortUrl cfg env (withContext ip ua d) w) as [r w'].
    cbn [fst snd] in *. subst r w'. eexists _, _. split; reflexivity.
  - cbv zeta in Hc.
    destruct (UrlService.createShortUrl cfg env (withContext ip ua d) w) as [r w'].
    cbn [fst snd] in *. subst r. eexists _, _. split; [reflexivity|exact Ht].
Qed.

Lemma batchAll_settles {P : Url.Platform} (cfg : Config) (env : Env)
      (ip ua : option string) (ds : list CreateUrlDto.t) (w : World) :
  exists rs w', batchAll cfg env ip ua ds w = (Ok rs, w')
                /\ List.length rs = List.length ds /\ topic w' = topic w.
Proof.
  revert w. induction ds as [|d ds IH]; intros w.
  - exists [], w. repeat split.
  - cbn [batchAll]. unfold bind at 1.
    destruct (batchOne_settles cfg env ip ua d w) as (r & w1 & -> & Ht1).
    unfold bind at 1. destruct (IH w1) as (rs & w2 & -> & Hl & Ht2).
    exists (r :: rs), w2. split; [reflexivity|]. split; [cbn; lia|congruence].
Qed.

End BatchFacts.

(** X23: a batch request is refused with 400, and nothing is created,
    when the list of URLs is missing, empty or longer than 100; for
    every other batch the call answers, every submitted URL is accounted
    for exactly once, among the successes or among the errors, and no
    event is published.  (The creations are taken one after the other in
    the order of submission; the counts do not depend on that order.) *)
Theorem batchCreateUrls_accounts_for_every_url {P : Url.Platform} (cfg : Config) (env : Env)
    (urls : option (list CreateUrlDto.t)) (ip ua : option string) (w : World) :
  match urls with
  | Some l =>
      if ((1 <=? List.length l) && (List.length l <=? 100))%nat
      then exists s e w',
             UrlController.batchCreateUrls cfg env urls ip ua w = (Ok (s, e), w')
             /\ (List.length s + List.length e = List.length l)%nat
             /\ topic w' = topic w
      else exists m,
             UrlController.batchCreateUrls cfg env urls ip ua w
             = (Throw (BadRequestException m), w)
  | None => exists m,
             UrlController.batchCreateUrls cfg env urls ip ua w
             = (Throw (BadRequestException m), w)
  end.
Proof.
  destruct urls as [l|]; [|eexists; reflexivity].
  unfold UrlController.batchCreateUrls.
  destruct l as [|d l']; [eexists; reflexivity|].
  set (l := d :: l'). change (List.length l =? 0)%nat with false. cbv iota.
  change (1 <=? List.length l)%nat with true. cbn [andb].
  destruct (Nat.leb_spec (List.length l) 100) as [H|H].
  - destruct (Nat.ltb_spec 100 (List.length l)) as [H'|_]; [lia|].
    unfold bind.
    destruct (BatchFacts.batchAll_settles cfg env ip ua l w) as (rs & w' & -> & Hl & Ht).
    unfold ret. pose proof (BatchFacts.sortResults_length rs) as Hs.
    destruct (UrlController.sortResults rs) as [s e]. cbn [fst snd] in Hs.
    exists s, e, w'. split; [reflexivity|]. split; [lia|exact Ht].
  - destruct (Nat.ltb_spec 100 (List.length l)) as [_|H']; [|lia].
    eexists. reflexivity.
Qed.

Module SliceFacts.

Lemma slices_concat {A} (fuel size : nat) (xs : list A) :
  (1 <= size)%nat -> (List.length xs <= fuel)%nat ->
  List.concat (AnalyticsBatch.slices fuel size xs) = xs
  /\ Forall (fun b => (1 <= List.length b <= size)%nat)
            (AnalyticsBatch.slices fuel size xs).
Proof.
  intros Hs. revert xs. induction fuel as [|f IH]; intros xs Hf.
  - destruct xs; [split; [reflexivity|constructor]|simpl in Hf; lia].
  - destruct xs as [|x xs']; [split; [reflexivity|constructor]|].
    set (l := x :: xs') in *.
    change (AnalyticsBatch.slices (S f) size l)
      with (firstn size l :: AnalyticsBatch.slices f size (skipn size l)).
    destruct (IH (skipn size l)) as [IH1 IH2].
    { rewrite length_skipn. subst l. cbn [List.length] in *. lia. }
    split.
    + cbn [List.concat]. rewrite IH1. apply firstn_skipn.
    + constructor; [|exact IH2]. rewrite length_firstn. subst l.
      cbn [List.length]. lia.
Qed.

End SliceFacts.

(** X24: the batch path of the consumer loses no event and repeats
    none: the batches it cuts, read group by group, are the events in
    their order; every batch holds between 1 and 100 events and every
    group between 1 and 5 batches. *)
Theorem processBatchEvents_batches_cover_events (events : list HitEventDto.t) :
  List.concat (List.concat (AnalyticsBatch.batchGroups events)) = events
  /\ Forall (fun batch => (1 <= List.length batch <= 100)%nat)
            (List.concat (AnalyticsBatch.batchGroups events))
  /\ Forall (fun group => (1 <= List.length group <= 5)%nat)
            (AnalyticsBatch.batchGroups events).
Proof.
  unfold AnalyticsBatch.batchGroups, AnalyticsBatch.batches.
  destruct (SliceFacts.slices_concat (List.length events) 100 events) as [H1 H2];
    [lia|lia|].
  destruct (SliceFacts.slices_concat
              (List.length (AnalyticsBatch.slices (List.length events) 100 events)) 5
              (AnalyticsBatch.slices (List.length events) 100 events)) as [H3 H4];
    [lia|lia|].
  rewrite H3. split; [exact H1|]. split; [exact H2|exact H4].
Qed.

(** ** Normalisation *)

(** X25: normalisation forgets tracking parameters and the letter
    case of the host.  Two URLs whose parsed forms agree in scheme,
    user name, password, port, path and fragment, whose hosts are equal
    up to letter case, and whose queries hold the same parameters in the
    same order once the tracking parameters are left out, have the same
    normalised URL, and so share one short URL. *)
Theorem normalizeUrl_forgets_tracking_and_case {P : Url.Platform} (a b : string)
    (p q : Url.URL) :
  Url.parseURL a = Some p ->
  Url.parseURL b = Some q ->
  Url.protocol p = Url.protocol q ->
  Url.username p = Url.username q ->
  Url.password p = Url.password q ->
  JS.toLowerCase (Url.hostname p) = JS.toLowerCase (Url.hostname q) ->
  Url.port p = Url.port q ->
  Url.pathname p = Url.pathname q ->
  Url.fragment p = Url.fragment q ->
  filter (fun kv => negb (JS.includes UrlService.trackingParams (fst kv)))
         (Url.searchParams p)
  = filter (fun kv => negb (JS.includes UrlService.trackingParams (fst kv)))
           (Url.searchParams q) ->
  UrlService.normalizeUrl a = UrlService.normalizeUrl b.
Proof.
  intros Ha Hb Hpr Hus Hpw Hh Hpo Hpa Hfr Hsp.
  unfold UrlService.normalizeUrl. rewrite Ha, Hb. f_equal.
  apply NormalizeFacts.url_ext.
  - now rewrite !NormalizeFacts.np_protocol.
  - now rewrite !NormalizeFacts.np_username.
  - now rewrite !NormalizeFacts.np_password.
  - now rewrite !NormalizeFacts.np_hostname.
  - now rewrite !NormalizeFacts.np_port, Hpr, Hpo.
  - now rewrite !NormalizeFacts.np_pathname, Hpa.
  - now rewrite !NormalizeFacts.np_searchParams.
  - now rewrite !NormalizeFacts.np_fragment.
Qed.

Lemma normalizeUrl_forgets_tracking_and_case_witness :
  let a := "https://Example.COM/path?utm_source=x&a=1&b=2" in
  let b := "https://example.com/path?a=1&fbclid=zz&b=2" in
  Url.modelParse a
  = Some (Url.mkURL "https:" "" "" "example.com" "" "/path"
            [("utm_source", "x"); ("a", "1"); ("b", "2")] None)
  /\ Url.modelParse b
     = Some (Url.mkURL "https:" "" "" "example.com" "" "/path"
               [("a", "1"); ("fbclid", "zz"); ("b", "2")] None)
  /\ UrlService.normalizeUrl (P:=Url.model) a = UrlService.normalizeUrl (P:=Url.model) b.
Proof.
  intros a b.
  assert (Ha : Url.parseURL (Platform:=Url.model) a
               = Some (Url.mkURL "https:" "" "" "example.com" "" "/path"
                         [("utm_source", "x"); ("a", "1"); ("b", "2")] None))
    by (vm_compute; reflexivity).
  assert (Hb : Url.parseURL (Platform:=Url.model) b
               = Some (Url.mkURL "https:" "" "" "example.com" "" "/path"
                         [("a", "1"); ("fbclid", "zz"); ("b", "2")] None))
    by (vm_compute; reflexivity).
  split; [exact Ha|]. split; [exact Hb|].
  exact (normalizeUrl_forgets_tracking_and_case (P:=Url.model) a b _ _ Ha Hb
           eq_refl eq_refl eq_refl eq_refl eq_refl eq_refl eq_refl eq_refl).
Defined.
